(** * Weather ingestion and analytics scripts (week-02-automation/day-10)

    A shallow embedding of the pure and effectful core of
    [weather_to_s3.py], [weather_analytics.py] and [view_weather_data.py],
    and the properties of the storage-key scheme, the retry loop, the error
    classification, the ingestion summary and the per-city statistics.

    Conventions of the model
    - a Python [str] is a [string]; a character is read as the code point
      with the same number (U+0000 .. U+00FF), and Python's whitespace and
      case tables are the ones of that range; the normalization of a city
      name is also modelled on every code point (module [Unicode]), and
      the two models are shown to agree on the range;
    - a Python [int] is a [Z]; a Python [float] is an IEEE-754 binary64
      value ([PrimFloat.float]);
    - a [dict] keyed by city name is a [gmap string _]; a JSON object is an
      association list, looked up by its first matching key;
    - the outside world (HTTP API, object store, clock, sleep) is a state
      threaded through the functions that use it. *)

From Stdlib Require Import ZArith Ascii String List Floats Permutation Lia.
From stdpp Require Import base option strings list gmap.

Set Warnings "-register-all,-inexact-float".

Local Open Scope string_scope.
Local Open Scope Z_scope.

(** ** Python strings *)

Module PyStr.

Definition code (c : ascii) : N := N_of_ascii c.

(** [str.isspace] on one character: U+0009..U+000D, U+001C..U+0020,
    U+0085 and U+00A0. *)
Definition is_space (c : ascii) : bool :=
  let n := code c in
  ((9 <=? n) && (n <=? 13) || (28 <=? n) && (n <=? 32)
   || (n =? 133) || (n =? 160))%N.

(** The characters with the Uppercase property: A-Z, U+00C0..U+00D6 and
    U+00D8..U+00DE. *)
Definition is_upper (c : ascii) : bool :=
  let n := code c in
  ((65 <=? n) && (n <=? 90) || (192 <=? n) && (n <=? 214)
   || (216 <=? n) && (n <=? 222))%N.

(** [str.lower] on one character: every uppercase character of the range
    has its lowercase form 32 code points above. *)
Definition lower_char (c : ascii) : ascii :=
  if is_upper c then ascii_of_N (code c + 32) else c.

Fixpoint map_chars (f : ascii -> ascii) (s : string) : string :=
  match s with
  | EmptyString => EmptyString
  | String c r => String (f c) (map_chars f r)
  end.

Fixpoint all_chars (p : ascii -> bool) (s : string) : bool :=
  match s with
  | EmptyString => true
  | String c r => p c && all_chars p r
  end.

Fixpoint contains (x : ascii) (s : string) : bool :=
  match s with
  | EmptyString => false
  | String c r => Ascii.eqb c x || contains x r
  end.

(** [s.lower()] *)
Definition lower (s : string) : string := map_chars lower_char s.

(** [s.replace(a, b)] for one-character [a] and [b]. *)
Definition replace_char (a b : ascii) (s : string) : string :=
  map_chars (fun c => if Ascii.eqb c a then b else c) s.

Fixpoint lstrip (s : string) : string :=
  match s with
  | EmptyString => EmptyString
  | String c r => if is_space c then lstrip r else s
  end.

Fixpoint rstrip (s : string) : string :=
  match s with
  | EmptyString => EmptyString
  | String c r =>
      match rstrip r with
      | EmptyString => if is_space c then EmptyString else String c EmptyString
      | r' => String c r'
      end
  end.

(** [s.strip()] *)
Definition strip (s : string) : string := rstrip (lstrip s).

(** [s.rsplit(sep, 1)[-1]]: what follows the last [sep], the whole
    string when [sep] does not occur. *)
Fixpoint rsplit_last (sep : ascii) (s : string) : string :=
  match s with
  | EmptyString => EmptyString
  | String c r =>
      if contains sep r then rsplit_last sep r
      else if Ascii.eqb c sep then r else s
  end.

(** [s.split(sep, 1)[0]]: what precedes the first [sep], the whole
    string when [sep] does not occur. *)
Fixpoint split_first (sep : ascii) (s : string) : string :=
  match s with
  | EmptyString => EmptyString
  | String c r =>
      if Ascii.eqb c sep then EmptyString else String c (split_first sep r)
  end.

(** [sep.join(parts)] *)
Fixpoint join (sep : string) (parts : list string) : string :=
  match parts with
  | [] => EmptyString
  | [p] => p
  | p :: ps => p ++ sep ++ join sep ps
  end.

(** [s.split(sep)] for a one-character [sep]. *)
Fixpoint split (sep : ascii) (s : string) : list string :=
  match s with
  | EmptyString => [EmptyString]
  | String c r =>
      if Ascii.eqb c sep then EmptyString :: split sep r
      else match split sep r with
           | h :: t => String c h :: t
           | [] => [String c EmptyString]
           end
  end.

(** Truth value of a string: the empty string is false. *)
Definition truthy (s : string) : bool :=
  match s with EmptyString => false | _ => true end.

End PyStr.

(** ** Python strings beyond U+00FF

    A [str] of Python is a sequence of code points, U+0000 .. U+10FFFF.
    The three methods the city normalization calls are modelled here on
    all of them, with the tables of the Unicode character database of
    CPython 3.11 (Unicode 14.0). *)

Module Unicode.

Local Open Scope N_scope.

Definition ustring : Type := list N.

(** [lo .. hi] *)
Definition in_ranges (ranges : list (N * N)) (x : N) : bool :=
  existsb (fun r => (fst r <=? x) && (x <=? snd r)) ranges.

(** [lo, lo + step, .. hi] *)
Definition in_stride (x lo hi step : N) : bool :=
  (lo <=? x) && (x <=? hi) && ((x - lo) mod step =? 0).

(** The code points of a string of the range U+0000 .. U+00FF. *)
Fixpoint code_points (s : string) : ustring :=
  match s with
  | EmptyString => []
  | String c r => PyStr.code c :: code_points r
  end.

(** The characters [str.isspace] holds of, which [str.strip] removes. *)
Definition whitespace : list (N * N) :=
  [
   (0x9, 0xD); (0x1C, 0x20); (0x85, 0x85); (0xA0, 0xA0); (0x1680, 0x1680);
   (0x2000, 0x200A); (0x2028, 0x2029); (0x202F, 0x202F); (0x205F, 0x205F);
   (0x3000, 0x3000)
  ].

Definition isspace (x : N) : bool := in_ranges whitespace x.

(** The characters [str.isupper] holds of (the property Uppercase: the
    letters of category Lu and the other uppercase symbols), as
    [(lo, hi, step)]. *)
Definition uppercase : list (N * N * N) :=
  [
   (0x41, 0x5A, 1); (0xC0, 0xD6, 1); (0xD8, 0xDE, 1); (0x100, 0x136, 2);
   (0x139, 0x147, 2); (0x14A, 0x178, 2); (0x179, 0x17D, 2);
   (0x181, 0x182, 1); (0x184, 0x186, 2); (0x187, 0x189, 2);
   (0x18A, 0x18B, 1); (0x18E, 0x191, 1); (0x193, 0x194, 1);
   (0x196, 0x198, 1); (0x19C, 0x19D, 1); (0x19F, 0x1A0, 1);
   (0x1A2, 0x1A6, 2); (0x1A7, 0x1A9, 2); (0x1AC, 0x1AE, 2);
   (0x1AF, 0x1B1, 2); (0x1B2, 0x1B3, 1); (0x1B5, 0x1B7, 2);
   (0x1B8, 0x1B8, 1); (0x1BC, 0x1BC, 1); (0x1C4, 0x1C4, 1);
   (0x1C7, 0x1C7, 1); (0x1CA, 0x1CA, 1); (0x1CD, 0x1DB, 2);
   (0x1DE, 0x1EE, 2); (0x1F1, 0x1F1, 1); (0x1F4, 0x1F6, 2);
   (0x1F7, 0x1F8, 1); (0x1FA, 0x232, 2); (0x23A, 0x23B, 1);
   (0x23D, 0x23E, 1); (0x241, 0x243, 2); (0x244, 0x246, 1);
   (0x248, 0x24E, 2); (0x370, 0x372, 2); (0x376, 0x376, 1);
   (0x37F, 0x37F, 1); (0x386, 0x388, 2); (0x389, 0x38A, 1);
   (0x38C, 0x38E, 2); (0x38F, 0x391, 2); (0x392, 0x3A1, 1);
   (0x3A3, 0x3AB, 1); (0x3CF, 0x3CF, 1); (0x3D2, 0x3D4, 1);
   (0x3D8, 0x3EE, 2); (0x3F4, 0x3F4, 1); (0x3F7, 0x3F9, 2);
   (0x3FA, 0x3FA, 1); (0x3FD, 0x42F, 1); (0x460, 0x480, 2);
   (0x48A, 0x4C0, 2); (0x4C1, 0x4CD, 2); (0x4D0, 0x52E, 2);
   (0x531, 0x556, 1); (0x10A0, 0x10C5, 1); (0x10C7, 0x10C7, 1);
   (0x10CD, 0x10CD, 1); (0x13A0, 0x13F5, 1); (0x1C90, 0x1CBA, 1);
   (0x1CBD, 0x1CBF, 1); (0x1E00, 0x1E94, 2); (0x1E9E, 0x1EFE, 2);
   (0x1F08, 0x1F0F, 1); (0x1F18, 0x1F1D, 1); (0x1F28, 0x1F2F, 1);
   (0x1F38, 0x1F3F, 1); (0x1F48, 0x1F4D, 1); (0x1F59, 0x1F5F, 2);
   (0x1F68, 0x1F6F, 1); (0x1FB8, 0x1FBB, 1); (0x1FC8, 0x1FCB, 1);
   (0x1FD8, 0x1FDB, 1); (0x1FE8, 0x1FEC, 1); (0x1FF8, 0x1FFB, 1);
   (0x2102, 0x2102, 1); (0x2107, 0x2107, 1); (0x210B, 0x210D, 1);
   (0x2110, 0x2112, 1); (0x2115, 0x2115, 1); (0x2119, 0x211D, 1);
   (0x2124, 0x212A, 2); (0x212B, 0x212D, 1); (0x2130, 0x2133, 1);
   (0x213E, 0x213F, 1); (0x2145, 0x2145, 1); (0x2160, 0x216F, 1);
   (0x2183, 0x2183, 1); (0x24B6, 0x24CF, 1); (0x2C00, 0x2C2F, 1);
   (0x2C60, 0x2C62, 2); (0x2C63, 0x2C64, 1); (0x2C67, 0x2C6D, 2);
   (0x2C6E, 0x2C70, 1); (0x2C72, 0x2C72, 1); (0x2C75, 0x2C75, 1);
   (0x2C7E, 0x2C80, 1); (0x2C82, 0x2CE2, 2); (0x2CEB, 0x2CED, 2);
   (0x2CF2, 0x2CF2, 1); (0xA640, 0xA66C, 2); (0xA680, 0xA69A, 2);
   (0xA722, 0xA72E, 2); (0xA732, 0xA76E, 2); (0xA779, 0xA77D, 2);
   (0xA77E, 0xA786, 2); (0xA78B, 0xA78D, 2); (0xA790, 0xA792, 2);
   (0xA796, 0xA7AA, 2); (0xA7AB, 0xA7AE, 1); (0xA7B0, 0xA7B4, 1);
   (0xA7B6, 0xA7C4, 2); (0xA7C5, 0xA7C7, 1); (0xA7C9, 0xA7C9, 1);
   (0xA7D0, 0xA7D0, 1); (0xA7D6, 0xA7D8, 2); (0xA7F5, 0xA7F5, 1);
   (0xFF21, 0xFF3A, 1); (0x10400, 0x10427, 1); (0x104B0, 0x104D3, 1);
   (0x10570, 0x1057A, 1); (0x1057C, 0x1058A, 1); (0x1058C, 0x10592, 1);
   (0x10594, 0x10595, 1); (0x10C80, 0x10CB2, 1); (0x118A0, 0x118BF, 1);
   (0x16E40, 0x16E5F, 1); (0x1D400, 0x1D419, 1); (0x1D434, 0x1D44D, 1);
   (0x1D468, 0x1D481, 1); (0x1D49C, 0x1D49E, 2); (0x1D49F, 0x1D49F, 1);
   (0x1D4A2, 0x1D4A2, 1); (0x1D4A5, 0x1D4A6, 1); (0x1D4A9, 0x1D4AC, 1);
   (0x1D4AE, 0x1D4B5, 1); (0x1D4D0, 0x1D4E9, 1); (0x1D504, 0x1D505, 1);
   (0x1D507, 0x1D50A, 1); (0x1D50D, 0x1D514, 1); (0x1D516, 0x1D51C, 1);
   (0x1D538, 0x1D539, 1); (0x1D53B, 0x1D53E, 1); (0x1D540, 0x1D544, 1);
   (0x1D546, 0x1D546, 1); (0x1D54A, 0x1D550, 1); (0x1D56C, 0x1D585, 1);
   (0x1D5A0, 0x1D5B9, 1); (0x1D5D4, 0x1D5ED, 1); (0x1D608, 0x1D621, 1);
   (0x1D63C, 0x1D655, 1); (0x1D670, 0x1D689, 1); (0x1D6A8, 0x1D6C0, 1);
   (0x1D6E2, 0x1D6FA, 1); (0x1D71C, 0x1D734, 1); (0x1D756, 0x1D76E, 1);
   (0x1D790, 0x1D7A8, 1); (0x1D7CA, 0x1D7CA, 1); (0x1E900, 0x1E921, 1);
   (0x1F130, 0x1F149, 1); (0x1F150, 0x1F169, 1); (0x1F170, 0x1F189, 1)
  ].

Definition is_upper (x : N) : bool :=
  existsb (fun '(lo, hi, step) => in_stride x lo hi step) uppercase.

(** The characters with a lowercase form of one character, as
    [(lo, hi, step, image of lo)]: the forms of one entry are as far from
    one another as the characters are. *)
Definition lowercase : list (N * N * N * N) :=
  [
   (0x41, 0x5A, 1, 0x61); (0xC0, 0xD6, 1, 0xE0); (0xD8, 0xDE, 1, 0xF8);
   (0x100, 0x12E, 2, 0x101); (0x132, 0x136, 2, 0x133);
   (0x139, 0x147, 2, 0x13A); (0x14A, 0x176, 2, 0x14B);
   (0x178, 0x178, 1, 0xFF); (0x179, 0x17D, 2, 0x17A);
   (0x181, 0x181, 1, 0x253); (0x182, 0x184, 2, 0x183);
   (0x186, 0x186, 1, 0x254); (0x187, 0x187, 1, 0x188);
   (0x189, 0x18A, 1, 0x256); (0x18B, 0x18B, 1, 0x18C);
   (0x18E, 0x18E, 1, 0x1DD); (0x18F, 0x18F, 1, 0x259);
   (0x190, 0x190, 1, 0x25B); (0x191, 0x191, 1, 0x192);
   (0x193, 0x193, 1, 0x260); (0x194, 0x194, 1, 0x263);
   (0x196, 0x196, 1, 0x269); (0x197, 0x197, 1, 0x268);
   (0x198, 0x198, 1, 0x199); (0x19C, 0x19C, 1, 0x26F);
   (0x19D, 0x19D, 1, 0x272); (0x19F, 0x19F, 1, 0x275);
   (0x1A0, 0x1A4, 2, 0x1A1); (0x1A6, 0x1A6, 1, 0x280);
   (0x1A7, 0x1A7, 1, 0x1A8); (0x1A9, 0x1A9, 1, 0x283);
   (0x1AC, 0x1AC, 1, 0x1AD); (0x1AE, 0x1AE, 1, 0x288);
   (0x1AF, 0x1AF, 1, 0x1B0); (0x1B1, 0x1B2, 1, 0x28A);
   (0x1B3, 0x1B5, 2, 0x1B4); (0x1B7, 0x1B7, 1, 0x292);
   (0x1B8, 0x1B8, 1, 0x1B9); (0x1BC, 0x1BC, 1, 0x1BD);
   (0x1C4, 0x1C4, 1, 0x1C6); (0x1C5, 0x1C5, 1, 0x1C6);
   (0x1C7, 0x1C7, 1, 0x1C9); (0x1C8, 0x1C8, 1, 0x1C9);
   (0x1CA, 0x1CA, 1, 0x1CC); (0x1CB, 0x1DB, 2, 0x1CC);
   (0x1DE, 0x1EE, 2, 0x1DF); (0x1F1, 0x1F1, 1, 0x1F3);
   (0x1F2, 0x1F4, 2, 0x1F3); (0x1F6, 0x1F6, 1, 0x195);
   (0x1F7, 0x1F7, 1, 0x1BF); (0x1F8, 0x21E, 2, 0x1F9);
   (0x220, 0x220, 1, 0x19E); (0x222, 0x232, 2, 0x223);
   (0x23A, 0x23A, 1, 0x2C65); (0x23B, 0x23B, 1, 0x23C);
   (0x23D, 0x23D, 1, 0x19A); (0x23E, 0x23E, 1, 0x2C66);
   (0x241, 0x241, 1, 0x242); (0x243, 0x243, 1, 0x180);
   (0x244, 0x244, 1, 0x289); (0x245, 0x245, 1, 0x28C);
   (0x246, 0x24E, 2, 0x247); (0x370, 0x372, 2, 0x371);
   (0x376, 0x376, 1, 0x377); (0x37F, 0x37F, 1, 0x3F3);
   (0x386, 0x386, 1, 0x3AC); (0x388, 0x38A, 1, 0x3AD);
   (0x38C, 0x38C, 1, 0x3CC); (0x38E, 0x38F, 1, 0x3CD);
   (0x391, 0x3A1, 1, 0x3B1); (0x3A3, 0x3AB, 1, 0x3C3);
   (0x3CF, 0x3CF, 1, 0x3D7); (0x3D8, 0x3EE, 2, 0x3D9);
   (0x3F4, 0x3F4, 1, 0x3B8); (0x3F7, 0x3F7, 1, 0x3F8);
   (0x3F9, 0x3F9, 1, 0x3F2); (0x3FA, 0x3FA, 1, 0x3FB);
   (0x3FD, 0x3FF, 1, 0x37B); (0x400, 0x40F, 1, 0x450);
   (0x410, 0x42F, 1, 0x430); (0x460, 0x480, 2, 0x461);
   (0x48A, 0x4BE, 2, 0x48B); (0x4C0, 0x4C0, 1, 0x4CF);
   (0x4C1, 0x4CD, 2, 0x4C2); (0x4D0, 0x52E, 2, 0x4D1);
   (0x531, 0x556, 1, 0x561); (0x10A0, 0x10C5, 1, 0x2D00);
   (0x10C7, 0x10C7, 1, 0x2D27); (0x10CD, 0x10CD, 1, 0x2D2D);
   (0x13A0, 0x13EF, 1, 0xAB70); (0x13F0, 0x13F5, 1, 0x13F8);
   (0x1C90, 0x1CBA, 1, 0x10D0); (0x1CBD, 0x1CBF, 1, 0x10FD);
   (0x1E00, 0x1E94, 2, 0x1E01); (0x1E9E, 0x1E9E, 1, 0xDF);
   (0x1EA0, 0x1EFE, 2, 0x1EA1); (0x1F08, 0x1F0F, 1, 0x1F00);
   (0x1F18, 0x1F1D, 1, 0x1F10); (0x1F28, 0x1F2F, 1, 0x1F20);
   (0x1F38, 0x1F3F, 1, 0x1F30); (0x1F48, 0x1F4D, 1, 0x1F40);
   (0x1F59, 0x1F5F, 2, 0x1F51); (0x1F68, 0x1F6F, 1, 0x1F60);
   (0x1F88, 0x1F8F, 1, 0x1F80); (0x1F98, 0x1F9F, 1, 0x1F90);
   (0x1FA8, 0x1FAF, 1, 0x1FA0); (0x1FB8, 0x1FB9, 1, 0x1FB0);
   (0x1FBA, 0x1FBB, 1, 0x1F70); (0x1FBC, 0x1FBC, 1, 0x1FB3);
   (0x1FC8, 0x1FCB, 1, 0x1F72); (0x1FCC, 0x1FCC, 1, 0x1FC3);
   (0x1FD8, 0x1FD9, 1, 0x1FD0); (0x1FDA, 0x1FDB, 1, 0x1F76);
   (0x1FE8, 0x1FE9, 1, 0x1FE0); (0x1FEA, 0x1FEB, 1, 0x1F7A);
   (0x1FEC, 0x1FEC, 1, 0x1FE5); (0x1FF8, 0x1FF9, 1, 0x1F78);
   (0x1FFA, 0x1FFB, 1, 0x1F7C); (0x1FFC, 0x1FFC, 1, 0x1FF3);
   (0x2126, 0x2126, 1, 0x3C9); (0x212A, 0x212A, 1, 0x6B);
   (0x212B, 0x212B, 1, 0xE5); (0x2132, 0x2132, 1, 0x214E);
   (0x2160, 0x216F, 1, 0x2170); (0x2183, 0x2183, 1, 0x2184);
   (0x24B6, 0x24CF, 1, 0x24D0); (0x2C00, 0x2C2F, 1, 0x2C30);
   (0x2C60, 0x2C60, 1, 0x2C61); (0x2C62, 0x2C62, 1, 0x26B);
   (0x2C63, 0x2C63, 1, 0x1D7D); (0x2C64, 0x2C64, 1, 0x27D);
   (0x2C67, 0x2C6B, 2, 0x2C68); (0x2C6D, 0x2C6D, 1, 0x251);
   (0x2C6E, 0x2C6E, 1, 0x271); (0x2C6F, 0x2C6F, 1, 0x250);
   (0x2C70, 0x2C70, 1, 0x252); (0x2C72, 0x2C72, 1, 0x2C73);
   (0x2C75, 0x2C75, 1, 0x2C76); (0x2C7E, 0x2C7F, 1, 0x23F);
   (0x2C80, 0x2CE2, 2, 0x2C81); (0x2CEB, 0x2CED, 2, 0x2CEC);
   (0x2CF2, 0x2CF2, 1, 0x2CF3); (0xA640, 0xA66C, 2, 0xA641);
   (0xA680, 0xA69A, 2, 0xA681); (0xA722, 0xA72E, 2, 0xA723);
   (0xA732, 0xA76E, 2, 0xA733); (0xA779, 0xA77B, 2, 0xA77A);
   (0xA77D, 0xA77D, 1, 0x1D79); (0xA77E, 0xA786, 2, 0xA77F);
   (0xA78B, 0xA78B, 1, 0xA78C); (0xA78D, 0xA78D, 1, 0x265);
   (0xA790, 0xA792, 2, 0xA791); (0xA796, 0xA7A8, 2, 0xA797);
   (0xA7AA, 0xA7AA, 1, 0x266); (0xA7AB, 0xA7AB, 1, 0x25C);
   (0xA7AC, 0xA7AC, 1, 0x261); (0xA7AD, 0xA7AD, 1, 0x26C);
   (0xA7AE, 0xA7AE, 1, 0x26A); (0xA7B0, 0xA7B0, 1, 0x29E);
   (0xA7B1, 0xA7B1, 1, 0x287); (0xA7B2, 0xA7B2, 1, 0x29D);
   (0xA7B3, 0xA7B3, 1, 0xAB53); (0xA7B4, 0xA7C2, 2, 0xA7B5);
   (0xA7C4, 0xA7C4, 1, 0xA794); (0xA7C5, 0xA7C5, 1, 0x282);
   (0xA7C6, 0xA7C6, 1, 0x1D8E); (0xA7C7, 0xA7C9, 2, 0xA7C8);
   (0xA7D0, 0xA7D0, 1, 0xA7D1); (0xA7D6, 0xA7D8, 2, 0xA7D7);
   (0xA7F5, 0xA7F5, 1, 0xA7F6); (0xFF21, 0xFF3A, 1, 0xFF41);
   (0x10400, 0x10427, 1, 0x10428); (0x104B0, 0x104D3, 1, 0x104D8);
   (0x10570, 0x1057A, 1, 0x10597); (0x1057C, 0x1058A, 1, 0x105A3);
   (0x1058C, 0x10592, 1, 0x105B3); (0x10594, 0x10595, 1, 0x105BB);
   (0x10C80, 0x10CB2, 1, 0x10CC0); (0x118A0, 0x118BF, 1, 0x118C0);
   (0x16E40, 0x16E5F, 1, 0x16E60); (0x1E900, 0x1E921, 1, 0x1E922)
  ].

Definition to_lower (x : N) : N :=
  match List.find (fun '(lo, hi, step, _) => in_stride x lo hi step)
          lowercase with
  | Some (lo, _, _, image) => image + (x - lo)
  | None => x
  end.

(** The lowercase form of one character out of context: U+0130 is the
    only one with a form of two characters. *)
Definition lower_full (x : N) : ustring :=
  if x =? 0x130 then [0x69; 0x307] else [to_lower x].

(** The characters with the property Case_Ignorable. *)
Definition case_ignorable_ranges : list (N * N) :=
  [
   (0x27, 0x27); (0x2E, 0x2E); (0x3A, 0x3A); (0x5E, 0x5E); (0x60, 0x60);
   (0xA8, 0xA8); (0xAD, 0xAD); (0xAF, 0xAF); (0xB4, 0xB4); (0xB7, 0xB8);
   (0x2B0, 0x36F); (0x374, 0x375); (0x37A, 0x37A); (0x384, 0x385);
   (0x387, 0x387); (0x483, 0x489); (0x559, 0x559); (0x55F, 0x55F);
   (0x591, 0x5BD); (0x5BF, 0x5BF); (0x5C1, 0x5C2); (0x5C4, 0x5C5);
   (0x5C7, 0x5C7); (0x5F4, 0x5F4); (0x600, 0x605); (0x610, 0x61A);
   (0x61C, 0x61C); (0x640, 0x640); (0x64B, 0x65F); (0x670, 0x670);
   (0x6D6, 0x6DD); (0x6DF, 0x6E8); (0x6EA, 0x6ED); (0x70F, 0x70F);
   (0x711, 0x711); (0x730, 0x74A); (0x7A6, 0x7B0); (0x7EB, 0x7F5);
   (0x7FA, 0x7FA); (0x7FD, 0x7FD); (0x816, 0x82D); (0x859, 0x85B);
   (0x888, 0x888); (0x890, 0x891); (0x898, 0x89F); (0x8C9, 0x902);
   (0x93A, 0x93A); (0x93C, 0x93C); (0x941, 0x948); (0x94D, 0x94D);
   (0x951, 0x957); (0x962, 0x963); (0x971, 0x971); (0x981, 0x981);
   (0x9BC, 0x9BC); (0x9C1, 0x9C4); (0x9CD, 0x9CD); (0x9E2, 0x9E3);
   (0x9FE, 0x9FE); (0xA01, 0xA02); (0xA3C, 0xA3C); (0xA41, 0xA42);
   (0xA47, 0xA48); (0xA4B, 0xA4D); (0xA51, 0xA51); (0xA70, 0xA71);
   (0xA75, 0xA75); (0xA81, 0xA82); (0xABC, 0xABC); (0xAC1, 0xAC5);
   (0xAC7, 0xAC8); (0xACD, 0xACD); (0xAE2, 0xAE3); (0xAFA, 0xAFF);
   (0xB01, 0xB01); (0xB3C, 0xB3C); (0xB3F, 0xB3F); (0xB41, 0xB44);
   (0xB4D, 0xB4D); (0xB55, 0xB56); (0xB62, 0xB63); (0xB82, 0xB82);
   (0xBC0, 0xBC0); (0xBCD, 0xBCD); (0xC00, 0xC00); (0xC04, 0xC04);
   (0xC3C, 0xC3C); (0xC3E, 0xC40); (0xC46, 0xC48); (0xC4A, 0xC4D);
   (0xC55, 0xC56); (0xC62, 0xC63); (0xC81, 0xC81); (0xCBC, 0xCBC);
   (0xCBF, 0xCBF); (0xCC6, 0xCC6); (0xCCC, 0xCCD); (0xCE2, 0xCE3);
   (0xD00, 0xD01); (0xD3B, 0xD3C); (0xD41, 0xD44); (0xD4D, 0xD4D);
   (0xD62, 0xD63); (0xD81, 0xD81); (0xDCA, 0xDCA); (0xDD2, 0xDD4);
   (0xDD6, 0xDD6); (0xE31, 0xE31); (0xE34, 0xE3A); (0xE46, 0xE4E);
   (0xEB1, 0xEB1); (0xEB4, 0xEBC); (0xEC6, 0xEC6); (0xEC8, 0xECD);
   (0xF18, 0xF19); (0xF35, 0xF35); (0xF37, 0xF37); (0xF39, 0xF39);
   (0xF71, 0xF7E); (0xF80, 0xF84); (0xF86, 0xF87); (0xF8D, 0xF97);
   (0xF99, 0xFBC); (0xFC6, 0xFC6); (0x102D, 0x1030); (0x1032, 0x1037);
   (0x1039, 0x103A); (0x103D, 0x103E); (0x1058, 0x1059); (0x105E, 0x1060);
   (0x1071, 0x1074); (0x1082, 0x1082); (0x1085, 0x1086); (0x108D, 0x108D);
   (0x109D, 0x109D); (0x10FC, 0x10FC); (0x135D, 0x135F); (0x1712, 0x1714);
   (0x1732, 0x1733); (0x1752, 0x1753); (0x1772, 0x1773); (0x17B4, 0x17B5);
   (0x17B7, 0x17BD); (0x17C6, 0x17C6); (0x17C9, 0x17D3); (0x17D7, 0x17D7);
   (0x17DD, 0x17DD); (0x180B, 0x180F); (0x1843, 0x1843); (0x1885, 0x1886);
   (0x18A9, 0x18A9); (0x1920, 0x1922); (0x1927, 0x1928); (0x1932, 0x1932);
   (0x1939, 0x193B); (0x1A17, 0x1A18); (0x1A1B, 0x1A1B); (0x1A56, 0x1A56);
   (0x1A58, 0x1A5E); (0x1A60, 0x1A60); (0x1A62, 0x1A62); (0x1A65, 0x1A6C);
   (0x1A73, 0x1A7C); (0x1A7F, 0x1A7F); (0x1AA7, 0x1AA7); (0x1AB0, 0x1ACE);
   (0x1B00, 0x1B03); (0x1B34, 0x1B34); (0x1B36, 0x1B3A); (0x1B3C, 0x1B3C);
   (0x1B42, 0x1B42); (0x1B6B, 0x1B73); (0x1B80, 0x1B81); (0x1BA2, 0x1BA5);
   (0x1BA8, 0x1BA9); (0x1BAB, 0x1BAD); (0x1BE6, 0x1BE6); (0x1BE8, 0x1BE9);
   (0x1BED, 0x1BED); (0x1BEF, 0x1BF1); (0x1C2C, 0x1C33); (0x1C36, 0x1C37);
   (0x1C78, 0x1C7D); (0x1CD0, 0x1CD2); (0x1CD4, 0x1CE0); (0x1CE2, 0x1CE8);
   (0x1CED, 0x1CED); (0x1CF4, 0x1CF4); (0x1CF8, 0x1CF9); (0x1D2C, 0x1D6A);
   (0x1D78, 0x1D78); (0x1D9B, 0x1DFF); (0x1FBD, 0x1FBD); (0x1FBF, 0x1FC1);
   (0x1FCD, 0x1FCF); (0x1FDD, 0x1FDF); (0x1FED, 0x1FEF); (0x1FFD, 0x1FFE);
   (0x200B, 0x200F); (0x2018, 0x2019); (0x2024, 0x2024); (0x2027, 0x2027);
   (0x202A, 0x202E); (0x2060, 0x2064); (0x2066, 0x206F); (0x2071, 0x2071);
   (0x207F, 0x207F); (0x2090, 0x209C); (0x20D0, 0x20F0); (0x2C7C, 0x2C7D);
   (0x2CEF, 0x2CF1); (0x2D6F, 0x2D6F); (0x2D7F, 0x2D7F); (0x2DE0, 0x2DFF);
   (0x2E2F, 0x2E2F); (0x3005, 0x3005); (0x302A, 0x302D); (0x3031, 0x3035);
   (0x303B, 0x303B); (0x3099, 0x309E); (0x30FC, 0x30FE); (0xA015, 0xA015);
   (0xA4F8, 0xA4FD); (0xA60C, 0xA60C); (0xA66F, 0xA672); (0xA674, 0xA67D);
   (0xA67F, 0xA67F); (0xA69C, 0xA69F); (0xA6F0, 0xA6F1); (0xA700, 0xA721);
   (0xA770, 0xA770); (0xA788, 0xA78A); (0xA7F2, 0xA7F4); (0xA7F8, 0xA7F9);
   (0xA802, 0xA802); (0xA806, 0xA806); (0xA80B, 0xA80B); (0xA825, 0xA826);
   (0xA82C, 0xA82C); (0xA8C4, 0xA8C5); (0xA8E0, 0xA8F1); (0xA8FF, 0xA8FF);
   (0xA926, 0xA92D); (0xA947, 0xA951); (0xA980, 0xA982); (0xA9B3, 0xA9B3);
   (0xA9B6, 0xA9B9); (0xA9BC, 0xA9BD); (0xA9CF, 0xA9CF); (0xA9E5, 0xA9E6);
   (0xAA29, 0xAA2E); (0xAA31, 0xAA32); (0xAA35, 0xAA36); (0xAA43, 0xAA43);
   (0xAA4C, 0xAA4C); (0xAA70, 0xAA70); (0xAA7C, 0xAA7C); (0xAAB0, 0xAAB0);
   (0xAAB2, 0xAAB4); (0xAAB7, 0xAAB8); (0xAABE, 0xAABF); (0xAAC1, 0xAAC1);
   (0xAADD, 0xAADD); (0xAAEC, 0xAAED); (0xAAF3, 0xAAF4); (0xAAF6, 0xAAF6);
   (0xAB5B, 0xAB5F); (0xAB69, 0xAB6B); (0xABE5, 0xABE5); (0xABE8, 0xABE8);
   (0xABED, 0xABED); (0xFB1E, 0xFB1E); (0xFBB2, 0xFBC2); (0xFE00, 0xFE0F);
   (0xFE13, 0xFE13); (0xFE20, 0xFE2F); (0xFE52, 0xFE52); (0xFE55, 0xFE55);
   (0xFEFF, 0xFEFF); (0xFF07, 0xFF07); (0xFF0E, 0xFF0E); (0xFF1A, 0xFF1A);
   (0xFF3E, 0xFF3E); (0xFF40, 0xFF40); (0xFF70, 0xFF70); (0xFF9E, 0xFF9F);
   (0xFFE3, 0xFFE3); (0xFFF9, 0xFFFB); (0x101FD, 0x101FD);
   (0x102E0, 0x102E0); (0x10376, 0x1037A); (0x10780, 0x10785);
   (0x10787, 0x107B0); (0x107B2, 0x107BA); (0x10A01, 0x10A03);
   (0x10A05, 0x10A06); (0x10A0C, 0x10A0F); (0x10A38, 0x10A3A);
   (0x10A3F, 0x10A3F); (0x10AE5, 0x10AE6); (0x10D24, 0x10D27);
   (0x10EAB, 0x10EAC); (0x10F46, 0x10F50); (0x10F82, 0x10F85);
   (0x11001, 0x11001); (0x11038, 0x11046); (0x11070, 0x11070);
   (0x11073, 0x11074); (0x1107F, 0x11081); (0x110B3, 0x110B6);
   (0x110B9, 0x110BA); (0x110BD, 0x110BD); (0x110C2, 0x110C2);
   (0x110CD, 0x110CD); (0x11100, 0x11102); (0x11127, 0x1112B);
   (0x1112D, 0x11134); (0x11173, 0x11173); (0x11180, 0x11181);
   (0x111B6, 0x111BE); (0x111C9, 0x111CC); (0x111CF, 0x111CF);
   (0x1122F, 0x11231); (0x11234, 0x11234); (0x11236, 0x11237);
   (0x1123E, 0x1123E); (0x112DF, 0x112DF); (0x112E3, 0x112EA);
   (0x11300, 0x11301); (0x1133B, 0x1133C); (0x11340, 0x11340);
   (0x11366, 0x1136C); (0x11370, 0x11374); (0x11438, 0x1143F);
   (0x11442, 0x11444); (0x11446, 0x11446); (0x1145E, 0x1145E);
   (0x114B3, 0x114B8); (0x114BA, 0x114BA); (0x114BF, 0x114C0);
   (0x114C2, 0x114C3); (0x115B2, 0x115B5); (0x115BC, 0x115BD);
   (0x115BF, 0x115C0); (0x115DC, 0x115DD); (0x11633, 0x1163A);
   (0x1163D, 0x1163D); (0x1163F, 0x11640); (0x116AB, 0x116AB);
   (0x116AD, 0x116AD); (0x116B0, 0x116B5); (0x116B7, 0x116B7);
   (0x1171D, 0x1171F); (0x11722, 0x11725); (0x11727, 0x1172B);
   (0x1182F, 0x11837); (0x11839, 0x1183A); (0x1193B, 0x1193C);
   (0x1193E, 0x1193E); (0x11943, 0x11943); (0x119D4, 0x119D7);
   (0x119DA, 0x119DB); (0x119E0, 0x119E0); (0x11A01, 0x11A0A);
   (0x11A33, 0x11A38); (0x11A3B, 0x11A3E); (0x11A47, 0x11A47);
   (0x11A51, 0x11A56); (0x11A59, 0x11A5B); (0x11A8A, 0x11A96);
   (0x11A98, 0x11A99); (0x11C30, 0x11C36); (0x11C38, 0x11C3D);
   (0x11C3F, 0x11C3F); (0x11C92, 0x11CA7); (0x11CAA, 0x11CB0);
   (0x11CB2, 0x11CB3); (0x11CB5, 0x11CB6); (0x11D31, 0x11D36);
   (0x11D3A, 0x11D3A); (0x11D3C, 0x11D3D); (0x11D3F, 0x11D45);
   (0x11D47, 0x11D47); (0x11D90, 0x11D91); (0x11D95, 0x11D95);
   (0x11D97, 0x11D97); (0x11EF3, 0x11EF4); (0x13430, 0x13438);
   (0x16AF0, 0x16AF4); (0x16B30, 0x16B36); (0x16B40, 0x16B43);
   (0x16F4F, 0x16F4F); (0x16F8F, 0x16F9F); (0x16FE0, 0x16FE1);
   (0x16FE3, 0x16FE4); (0x1AFF0, 0x1AFF3); (0x1AFF5, 0x1AFFB);
   (0x1AFFD, 0x1AFFE); (0x1BC9D, 0x1BC9E); (0x1BCA0, 0x1BCA3);
   (0x1CF00, 0x1CF2D); (0x1CF30, 0x1CF46); (0x1D167, 0x1D169);
   (0x1D173, 0x1D182); (0x1D185, 0x1D18B); (0x1D1AA, 0x1D1AD);
   (0x1D242, 0x1D244); (0x1DA00, 0x1DA36); (0x1DA3B, 0x1DA6C);
   (0x1DA75, 0x1DA75); (0x1DA84, 0x1DA84); (0x1DA9B, 0x1DA9F);
   (0x1DAA1, 0x1DAAF); (0x1E000, 0x1E006); (0x1E008, 0x1E018);
   (0x1E01B, 0x1E021); (0x1E023, 0x1E024); (0x1E026, 0x1E02A);
   (0x1E130, 0x1E13D); (0x1E2AE, 0x1E2AE); (0x1E2EC, 0x1E2EF);
   (0x1E8D0, 0x1E8D6); (0x1E944, 0x1E94B); (0x1F3FB, 0x1F3FF);
   (0xE0001, 0xE0001); (0xE0020, 0xE007F); (0xE0100, 0xE01EF)
  ].

Definition case_ignorable (x : N) : bool :=
  in_ranges case_ignorable_ranges x.

(** The characters with the property Cased, of those that are not
    Case_Ignorable ([str.lower] asks of no other whether it is cased). *)
Definition cased_ranges : list (N * N) :=
  [
   (0x41, 0x5A); (0x61, 0x7A); (0xAA, 0xAA); (0xB5, 0xB5); (0xBA, 0xBA);
   (0xC0, 0xD6); (0xD8, 0xF6); (0xF8, 0x1BA); (0x1BC, 0x1BF);
   (0x1C4, 0x293); (0x295, 0x2AF); (0x370, 0x373); (0x376, 0x377);
   (0x37B, 0x37D); (0x37F, 0x37F); (0x386, 0x386); (0x388, 0x38A);
   (0x38C, 0x38C); (0x38E, 0x3A1); (0x3A3, 0x3F5); (0x3F7, 0x481);
   (0x48A, 0x52F); (0x531, 0x556); (0x560, 0x588); (0x10A0, 0x10C5);
   (0x10C7, 0x10C7); (0x10CD, 0x10CD); (0x10D0, 0x10FA); (0x10FD, 0x10FF);
   (0x13A0, 0x13F5); (0x13F8, 0x13FD); (0x1C80, 0x1C88); (0x1C90, 0x1CBA);
   (0x1CBD, 0x1CBF); (0x1D00, 0x1D2B); (0x1D6B, 0x1D77); (0x1D79, 0x1D9A);
   (0x1E00, 0x1F15); (0x1F18, 0x1F1D); (0x1F20, 0x1F45); (0x1F48, 0x1F4D);
   (0x1F50, 0x1F57); (0x1F59, 0x1F59); (0x1F5B, 0x1F5B); (0x1F5D, 0x1F5D);
   (0x1F5F, 0x1F7D); (0x1F80, 0x1FB4); (0x1FB6, 0x1FBC); (0x1FBE, 0x1FBE);
   (0x1FC2, 0x1FC4); (0x1FC6, 0x1FCC); (0x1FD0, 0x1FD3); (0x1FD6, 0x1FDB);
   (0x1FE0, 0x1FEC); (0x1FF2, 0x1FF4); (0x1FF6, 0x1FFC); (0x2102, 0x2102);
   (0x2107, 0x2107); (0x210A, 0x2113); (0x2115, 0x2115); (0x2119, 0x211D);
   (0x2124, 0x2124); (0x2126, 0x2126); (0x2128, 0x2128); (0x212A, 0x212D);
   (0x212F, 0x2134); (0x2139, 0x2139); (0x213C, 0x213F); (0x2145, 0x2149);
   (0x214E, 0x214E); (0x2160, 0x217F); (0x2183, 0x2184); (0x24B6, 0x24E9);
   (0x2C00, 0x2C7B); (0x2C7E, 0x2CE4); (0x2CEB, 0x2CEE); (0x2CF2, 0x2CF3);
   (0x2D00, 0x2D25); (0x2D27, 0x2D27); (0x2D2D, 0x2D2D); (0xA640, 0xA66D);
   (0xA680, 0xA69B); (0xA722, 0xA76F); (0xA771, 0xA787); (0xA78B, 0xA78E);
   (0xA790, 0xA7CA); (0xA7D0, 0xA7D1); (0xA7D3, 0xA7D3); (0xA7D5, 0xA7D9);
   (0xA7F5, 0xA7F6); (0xA7FA, 0xA7FA); (0xAB30, 0xAB5A); (0xAB60, 0xAB68);
   (0xAB70, 0xABBF); (0xFB00, 0xFB06); (0xFB13, 0xFB17); (0xFF21, 0xFF3A);
   (0xFF41, 0xFF5A); (0x10400, 0x1044F); (0x104B0, 0x104D3);
   (0x104D8, 0x104FB); (0x10570, 0x1057A); (0x1057C, 0x1058A);
   (0x1058C, 0x10592); (0x10594, 0x10595); (0x10597, 0x105A1);
   (0x105A3, 0x105B1); (0x105B3, 0x105B9); (0x105BB, 0x105BC);
   (0x10C80, 0x10CB2); (0x10CC0, 0x10CF2); (0x118A0, 0x118DF);
   (0x16E40, 0x16E7F); (0x1D400, 0x1D454); (0x1D456, 0x1D49C);
   (0x1D49E, 0x1D49F); (0x1D4A2, 0x1D4A2); (0x1D4A5, 0x1D4A6);
   (0x1D4A9, 0x1D4AC); (0x1D4AE, 0x1D4B9); (0x1D4BB, 0x1D4BB);
   (0x1D4BD, 0x1D4C3); (0x1D4C5, 0x1D505); (0x1D507, 0x1D50A);
   (0x1D50D, 0x1D514); (0x1D516, 0x1D51C); (0x1D51E, 0x1D539);
   (0x1D53B, 0x1D53E); (0x1D540, 0x1D544); (0x1D546, 0x1D546);
   (0x1D54A, 0x1D550); (0x1D552, 0x1D6A5); (0x1D6A8, 0x1D6C0);
   (0x1D6C2, 0x1D6DA); (0x1D6DC, 0x1D6FA); (0x1D6FC, 0x1D714);
   (0x1D716, 0x1D734); (0x1D736, 0x1D74E); (0x1D750, 0x1D76E);
   (0x1D770, 0x1D788); (0x1D78A, 0x1D7A8); (0x1D7AA, 0x1D7C2);
   (0x1D7C4, 0x1D7CB); (0x1DF00, 0x1DF09); (0x1DF0B, 0x1DF1E);
   (0x1E900, 0x1E943); (0x1F130, 0x1F149); (0x1F150, 0x1F169);
   (0x1F170, 0x1F189)
  ].

Definition cased (x : N) : bool := in_ranges cased_ranges x.

Fixpoint skip_ignorable (s : ustring) : ustring :=
  match s with
  | [] => []
  | x :: r => if case_ignorable x then skip_ignorable r else s
  end.

(** Whether a capital sigma is final: the nearest character before it
    that is not case-ignorable is cased, and the nearest one after it,
    if any, is not. [before] holds the characters before it, the
    nearest first. *)
Definition final_sigma (before after : ustring) : bool :=
  match skip_ignorable before with
  | [] => false
  | x :: _ =>
      cased x
      && match skip_ignorable after with
         | [] => true
         | y :: _ => negb (cased y)
         end
  end.

Fixpoint lower_from (before rest : ustring) : ustring :=
  match rest with
  | [] => []
  | x :: after =>
      ((if x =? 0x3A3
        then [if final_sigma before after then 0x3C2 else 0x3C3]
        else lower_full x)
       ++ lower_from (x :: before) after)%list
  end.

(** [s.lower()] *)
Definition lower (s : ustring) : ustring := lower_from [] s.

(** [s.replace(" ", "_")] *)
Definition replace_blank (s : ustring) : ustring :=
  map (fun x => if x =? 0x20 then 0x5F else x) s.

Fixpoint lstrip (s : ustring) : ustring :=
  match s with
  | [] => []
  | x :: r => if isspace x then lstrip r else s
  end.

Fixpoint rstrip (s : ustring) : ustring :=
  match s with
  | [] => []
  | x :: r =>
      match rstrip r with
      | [] => if isspace x then [] else [x]
      | r' => x :: r'
      end
  end.

(** [s.strip()] *)
Definition strip (s : ustring) : ustring := rstrip (lstrip s).

(** [normalize_city_for_key] of weather_to_s3.py, on every string. *)
Definition normalize_city_for_key (city : ustring) : ustring :=
  lower (replace_blank (strip city)).

(** [normalize_city_for_filter] of weather_analytics.py, on every
    string. *)
Definition normalize_city_for_filter (city : option ustring)
    : option ustring :=
  match city with
  | None | Some [] => None
  | Some c => Some (lower (replace_blank (strip c)))
  end.

(** The characters of an entry of [lowercase] with their forms. *)
Definition forms (entry : N * N * N * N) : list (N * N) :=
  let '(lo, hi, step, image) := entry in
  map (fun k => (lo + step * N.of_nat k, image + step * N.of_nat k))
    (seq 0 (S (N.to_nat ((hi - lo) / step)))).

(** What [lower] may put for a character, in one context or another. *)
Definition images (x : N) : ustring :=
  if x =? 0x3A3 then [0x3C2; 0x3C3] else lower_full x.

(** A character [lower] leaves as it is wherever it stands. *)
Definition fixed (x : N) : bool :=
  (to_lower x =? x) && negb (x =? 0x3A3) && negb (x =? 0x130).

(** What is checked of a character of [lowercase] and its form. *)
Definition form_ok (p : N * N) : bool :=
  let '(_, t) := p in
  fixed t && negb (isspace t) && negb (t =? 0x20) && negb (is_upper t).

Definition head_ok (s : ustring) : bool :=
  match s with
  | [] => true
  | x :: _ => negb (isspace x)
  end.

Fixpoint last_ok (s : ustring) : bool :=
  match s with
  | [] => true
  | [x] => negb (isspace x)
  | _ :: r => last_ok r
  end.

End Unicode.

(** ** Dates and times ([datetime]) *)

Module PyTime.

Local Open Scope Z_scope.

(** A [datetime] to the second (microseconds and the time zone play no
    part in the formats below). *)
Record datetime : Type := mkDatetime {
  year : Z; month : Z; day : Z;
  hour : Z; minute : Z; second : Z
}.

Definition digit_char (d : Z) : ascii := ascii_of_N (48 + Z.to_N d).

(** A number of [0 .. 99] as two decimal digits ([%m], [%d], [%H], [%M],
    [%S]). *)
Definition pad2 (n : Z) : string :=
  String (digit_char (n / 10)) (String (digit_char (n mod 10)) EmptyString).

(** A year as four decimal digits ([%Y]). This is what [strftime]
    prints for the years 1000 to 9999; how a year below 1000 is printed
    is left to the C library (glibc prints 999, with no leading zero), so
    the properties that read the digits of the year are stated for the
    years from 1000 on. *)
Definition pad4 (n : Z) : string :=
  String (digit_char (n / 1000))
    (String (digit_char ((n / 100) mod 10))
       (String (digit_char ((n / 10) mod 10))
          (String (digit_char (n mod 10)) EmptyString))).

(** One item of a [strftime] format: a directive or a literal
    character. *)
Inductive fmt_item : Type :=
| FY | Fm | Fd | FH | FM | FS
| FLit (c : ascii).

Definition format_item (dt : datetime) (i : fmt_item) : string :=
  match i with
  | FY => pad4 (year dt)
  | Fm => pad2 (month dt)
  | Fd => pad2 (day dt)
  | FH => pad2 (hour dt)
  | FM => pad2 (minute dt)
  | FS => pad2 (second dt)
  | FLit c => String c EmptyString
  end.

(** Reading a format string: [%] followed by one of [YmdHMS] is a
    directive, every other character stands for itself. *)
Fixpoint parse_format (f : string) : list fmt_item :=
  match f with
  | EmptyString => []
  | String "%" (String "Y" r) => FY :: parse_format r
  | String "%" (String "m" r) => Fm :: parse_format r
  | String "%" (String "d" r) => Fd :: parse_format r
  | String "%" (String "H" r) => FH :: parse_format r
  | String "%" (String "M" r) => FM :: parse_format r
  | String "%" (String "S" r) => FS :: parse_format r
  | String c r => FLit c :: parse_format r
  end.

(** [dt.strftime(f)] *)
Definition strftime (dt : datetime) (f : string) : string :=
  fold_right (fun i acc => format_item dt i ++ acc) EmptyString (parse_format f).

Definition digit_val (c : ascii) : option Z :=
  let n := N_of_ascii c in
  if ((48 <=? n) && (n <=? 57))%N then Some (Z.of_N n - 48) else None.

Definition is_leap (y : Z) : bool :=
  (y mod 4 =? 0) && (negb (y mod 100 =? 0) || (y mod 400 =? 0)).

Definition days_in_month (y m : Z) : Z :=
  if m =? 2 then (if is_leap y then 29 else 28)
  else if (m =? 4) || (m =? 6) || (m =? 9) || (m =? 11) then 30
  else 31.

(** [%m] followed by the literal [-]: the alternatives [1[0-2]], [0[1-9]]
    and [[1-9]], tried in that order. *)
Definition parse_month (s : string) : option (Z * string) :=
  match s with
  | String a (String b (String "-" r)) =>
      match digit_val a, digit_val b with
      | Some x, Some y =>
          let m := 10 * x + y in
          if (1 <=? m) && (m <=? 12) then Some (m, r) else None
      | _, _ => None
      end
  | String a (String "-" r) =>
      match digit_val a with
      | Some x => if 1 <=? x then Some (x, r) else None
      | None => None
      end
  | _ => None
  end.

(** [%d] at the end of the string: the alternatives [3[0-1]], [[1-2]\d],
    [0[1-9]], [[1-9]] and a blank followed by [[1-9]]. *)
Definition parse_day (s : string) : option Z :=
  match s with
  | String a (String b EmptyString) =>
      match digit_val a, digit_val b with
      | Some x, Some y =>
          let d := 10 * x + y in
          if (1 <=? d) && (d <=? 31) then Some d else None
      | None, Some y =>
          if Ascii.eqb a " " && (1 <=? y) then Some y else None
      | _, _ => None
      end
  | String a EmptyString =>
      match digit_val a with
      | Some x => if 1 <=? x then Some x else None
      | None => None
      end
  | _ => None
  end.

(** [datetime.strptime(s, "%Y-%m-%d")]; [None] stands for the
    [ValueError] of a string that does not match or names no calendar
    day. *)
Definition strptime_ymd (s : string) : option datetime :=
  match s with
  | String a (String b (String c (String d (String "-" r)))) =>
      match digit_val a, digit_val b, digit_val c, digit_val d with
      | Some y3, Some y2, Some y1, Some y0 =>
          let y := 1000 * y3 + 100 * y2 + 10 * y1 + y0 in
          match parse_month r with
          | Some (m, r') =>
              match parse_day r' with
              | Some dd =>
                  if (1 <=? y) && (dd <=? days_in_month y m)
                  then Some (mkDatetime y m dd 0 0 0)
                  else None
              | None => None
              end
          | None => None
          end
      | _, _, _, _ => None
      end
  | _ => None
  end.

End PyTime.

Import PyTime.

(** ** Python values, exceptions and the builtins used on them *)

Module Py.

(** The exceptions the scripts raise or catch by name, and those of the
    interpreter that pass through them. *)
Inductive exn : Type :=
| KeyError | TypeError | ValueError | AttributeError
| IndexError | OverflowError | RuntimeError
| UnicodeEncodeError | RecursionError
| WeatherAPIError (status_code : option Z) (retriable : bool).

(** The outcome of an expression that may raise. *)
Inductive result (A : Type) : Type :=
| Ok (a : A)
| Raise (e : exn).
Arguments Ok {A} a.
Arguments Raise {A} e.

Definition bind {A B : Type} (r : result A) (k : A -> result B) : result B :=
  match r with
  | Ok a => k a
  | Raise e => Raise e
  end.

(** A value decoded from JSON ([json.loads], [Response.json]). *)
Inductive json : Type :=
| JNull
| JBool (b : bool)
| JInt (z : Z)
| JFloat (f : float)
| JStr (s : string)
| JArr (items : list json)
| JObj (fields : list (string * json)).

Fixpoint assoc (k : string) (fields : list (string * json)) : option json :=
  match fields with
  | [] => None
  | (k', v) :: rest => if String.eqb k' k then Some v else assoc k rest
  end.

(** [v[k]] for a string [k]. *)
Definition subscript (v : json) (k : string) : result json :=
  match v with
  | JObj fields =>
      match assoc k fields with
      | Some x => Ok x
      | None => Raise KeyError
      end
  | _ => Raise TypeError
  end.

(** [v.get(k, default)]: only a dict has the method. *)
Definition get (v : json) (k : string) (default : json) : result json :=
  match v with
  | JObj fields =>
      match assoc k fields with
      | Some x => Ok x
      | None => Ok default
      end
  | _ => Raise AttributeError
  end.

(** Truth value: [None], [False], zero and the empty string, list and
    dict are false. *)
Definition truthy (v : json) : bool :=
  match v with
  | JNull => false
  | JBool b => b
  | JInt z => negb (z =? 0)%Z
  | JFloat f => negb (PrimFloat.eqb f 0%float)
  | JStr s => PyStr.truthy s
  | JArr items => match items with [] => false | _ => true end
  | JObj fields => match fields with [] => false | _ => true end
  end.

(** [a or b] *)
Definition or_else (a b : json) : json := if truthy a then a else b.

(** [v[0]] *)
Definition first_item (v : json) : result json :=
  match v with
  | JArr (x :: _) => Ok x
  | JArr [] => Raise IndexError
  | JStr (String c _) => Ok (JStr (String c EmptyString))
  | JStr EmptyString => Raise IndexError
  | JObj _ => Raise KeyError
  | _ => Raise TypeError
  end.

(** [isinstance(v, (int, float))]; [bool] is a subclass of [int]. *)
Definition is_number (v : json) : bool :=
  match v with
  | JBool _ | JInt _ | JFloat _ => true
  | _ => false
  end.

(** An [int] as the nearest [float] (ties to even). *)
Definition float_of_Z (z : Z) : float :=
  SF2Prim (binary_normalize prec emax z 0 false).

(** What the model takes from the interpreter as it is: reading a number
    out of a string, the text of a value that is not a string, the sum
    of a list of floats; whether the text of a value can be encoded as
    UTF-8 (the strings here hold the code points up to U+00FF; a string
    of Python can also hold a lone surrogate, which [str.encode]
    refuses); and what [time.sleep] does with a duration of more than a
    million seconds, where the platform decides: the exception it
    raises, if any. *)
Record Builtins : Type := {
  float_of_str : string -> option float;
  int_of_str : string -> option Z;
  repr : json -> string;
  sum : list float -> float;
  encodes : json -> bool;
  long_sleep : float -> option exn
}.

Section Conversions.
Context (B : Builtins).

(** [float(v)] *)
Definition py_float (v : json) : result float :=
  match v with
  | JFloat f => Ok f
  | JInt z =>
      let f := float_of_Z z in
      if is_infinity f then Raise OverflowError else Ok f
  | JBool b => Ok (if b then 1%float else 0%float)
  | JStr s =>
      match float_of_str B s with
      | Some f => Ok f
      | None => Raise ValueError
      end
  | _ => Raise TypeError
  end.

(** [int(v)] *)
Definition py_int (v : json) : result Z :=
  match v with
  | JInt z => Ok z
  | JBool b => Ok (if b then 1 else 0)%Z
  | JFloat f =>
      match Prim2SF f with
      | S754_nan => Raise ValueError
      | S754_infinity _ => Raise OverflowError
      | S754_zero _ => Ok 0%Z
      | S754_finite s m e =>
          let a := Z.shiftl (Zpos m) e in
          Ok (if s then (- a)%Z else a)
      end
  | JStr s =>
      match int_of_str B s with
      | Some z => Ok z
      | None => Raise ValueError
      end
  | _ => Raise TypeError
  end.

(** [str(v)] *)
Definition py_str (v : json) : string :=
  match v with
  | JStr s => s
  | _ => repr B v
  end.

End Conversions.

(** [min(xs)] and [max(xs)] of a non-empty list: the first of the least
    (greatest) items. *)
Definition py_min (x : float) (xs : list float) : float :=
  fold_left (fun cur item => if PrimFloat.ltb item cur then item else cur) xs x.

Definition py_max (x : float) (xs : list float) : float :=
  fold_left (fun cur item => if PrimFloat.ltb cur item then item else cur) xs x.

End Py.

Import Py.

(** [result] is a monad; stdpp's [x ← e; k] is its sequencing. *)
#[global] Instance result_ret : MRet Py.result := @Py.Ok.
#[global] Instance result_bind : MBind Py.result :=
  fun A B k r => Py.bind r k.

(** ** weather_to_s3.py *)

Module WeatherToS3.

Record Config : Type := {
  openweather_api_key : string;
  s3_bucket_name : string;
  cities : list string;
  s3_log_prefix : option string
}.

(** The payload stored for one city. [city], [country] and the two
    entries of [raw_source] are whatever the response held. *)
Record WeatherData : Type := {
  city : json;
  country : json;
  lat : float;
  lon : float;
  temperature_c : float;
  feels_like_c : float;
  humidity : Z;
  pressure_hpa : Z;
  weather_main : string;
  weather_description : string;
  wind_speed_ms : float;
  timestamp_utc : datetime;
  raw_source_id : json;
  raw_source_dt : json
}.

(** An HTTP response: its status, and what [Response.json] does with its
    body: the value decoded, or the exception raised ([ValueError] for a
    body that is no JSON, [RecursionError] for one nested too deep). *)
Record Response : Type := {
  status_code : Z;
  body : result json
}.

(** What [requests.get] does: a response, or a [RequestException]. *)
Inductive http_outcome : Type :=
| Responded (resp : Response)
| RequestException.

(** The collaborators of the pipeline: the HTTP API, the clock, the
    sleep of a duration that [time.sleep] accepts (what it refuses, and
    with which exception, is [sleep_error] below) and the object store
    ([put_object] answers [false] for a [ClientError] or
    [BotoCoreError]). *)
Class World (W : Type) : Type := {
  requests_get : string -> string -> W -> http_outcome * W;
  datetime_now : W -> datetime;
  time_sleep : float -> W -> W;
  put_object : string -> string -> WeatherData -> W -> bool * W;
  boto3_client : W -> bool
}.

Definition kelvin_to_celsius (kelvin : float) : float :=
  (kelvin - 273.15)%float.

Definition _classify_retriable (status_code : option Z) : bool :=
  match status_code with
  | None => true
  | Some c =>
      if c =? 429 then true
      else if (500 <=? c) && (c <=? 599) then true
      else false
  end.

(** On a city of U+0000 .. U+00FF;
    [Unicode.normalize_city_for_key] is the function on every string. *)
Definition normalize_city_for_key (city : string) : string :=
  PyStr.lower (PyStr.replace_char " " "_" (PyStr.strip city)).

Definition build_s3_key (city : string) (ts : datetime) : string :=
  let date_part := strftime ts "%Y/%m/%d" in
  let time_part := strftime ts "H%M%S" in
  let city_part := normalize_city_for_key city in
  date_part ++ "/" ++ city_part ++ "_" ++ time_part ++ ".json".

(** The [try] body of [parse_weather_response], field by field in the
    order Python evaluates it. *)
Definition extract_weather (B : Builtins) (city : string) (data : json)
    (now : datetime) : result WeatherData :=
  main ← subscript data "main";
  wind ← get data "wind" (JObj []);
  weather_list ← get data "weather" (JArr []);
  weather_entry ← (if truthy weather_list then first_item weather_list
                   else Ok (JObj []));
  temp ← subscript main "temp";
  temp_k ← py_float B temp;
  feels ← get main "feels_like" (JFloat temp_k);
  feels_k ← py_float B feels;
  name ← get data "name" JNull;
  sys ← get data "sys" JNull;
  country ← get (or_else sys (JObj [])) "country" JNull;
  coord ← get data "coord" JNull;
  lat_v ← get (or_else coord (JObj [])) "lat" (JFloat 0);
  lat ← py_float B lat_v;
  coord' ← get data "coord" JNull;
  lon_v ← get (or_else coord' (JObj [])) "lon" (JFloat 0);
  lon ← py_float B lon_v;
  humidity_v ← get main "humidity" (JInt 0);
  humidity ← py_int B humidity_v;
  pressure_v ← get main "pressure" (JInt 0);
  pressure ← py_int B pressure_v;
  wmain ← get weather_entry "main" (JStr "");
  wdesc ← get weather_entry "description" (JStr "");
  speed_v ← get wind "speed" (JFloat 0);
  speed ← py_float B speed_v;
  id ← get data "id" JNull;
  dt ← get data "dt" JNull;
  Ok {| city := or_else name (JStr city);
        country := country;
        lat := lat; lon := lon;
        temperature_c := kelvin_to_celsius temp_k;
        feels_like_c := kelvin_to_celsius feels_k;
        humidity := humidity;
        pressure_hpa := pressure;
        weather_main := py_str B wmain;
        weather_description := py_str B wdesc;
        wind_speed_ms := speed;
        timestamp_utc := now;
        raw_source_id := id; raw_source_dt := dt |}.

(** The two handlers catch [ValueError] and with it its subclass
    [UnicodeEncodeError]; every other exception passes. *)
Definition parse_weather_response (B : Builtins) (city : string)
    (resp : Response) (now : datetime) : result WeatherData :=
  match body resp with
  | Raise ValueError | Raise UnicodeEncodeError =>
      Raise (WeatherAPIError None true)
  | Raise e => Raise e
  | Ok data =>
      match extract_weather B city data now with
      | Raise KeyError | Raise TypeError | Raise ValueError
      | Raise UnicodeEncodeError =>
          Raise (WeatherAPIError None false)
      | r => r
      end
  end.

(** [time.sleep(seconds)] for a float, as CPython 3.11 has it: the
    exception it raises instead of sleeping, if any. A NaN and a negative
    duration are refused ([OverflowError] when the nanoseconds do not fit
    64 bits); a duration of up to a million seconds is slept; for a
    longer one the platform decides. *)
Definition sleep_error (B : Builtins) (seconds : float) : option exn :=
  if is_nan seconds then Some ValueError
  else if (seconds <? 0)%float then
    if (seconds * 1e9 <? -9223372036854775808)%float
    then Some OverflowError else Some ValueError
  else if (seconds <=? 1e6)%float then None
  else long_sleep B seconds.

(** [json.dumps(payload, ensure_ascii=False).encode("utf-8")] succeeds:
    no string of the payload holds a lone surrogate. *)
Definition payload_encodes (B : Builtins) (payload : WeatherData) : bool :=
  encodes B (city payload) && encodes B (country payload)
  && encodes B (JStr (weather_main payload))
  && encodes B (JStr (weather_description payload))
  && encodes B (raw_source_id payload) && encodes B (raw_source_dt payload).

(** [os.getenv] after [load_dotenv]: the environment is a finite map
    from names to values. *)
Definition getenv (env : gmap string string) (name : string)
    : option string := env !! name.

Definition load_env_config (env : gmap string string) : result Config :=
  let api_key := getenv env "OPENWEATHER_API_KEY" in
  let bucket := getenv env "S3_BUCKET_NAME" in
  let cities_raw := default "" (getenv env "CITIES") in
  let log_prefix := getenv env "S3_LOG_PREFIX" in
  let missing :=
    ((if PyStr.truthy (default "" api_key) then []
      else ["OPENWEATHER_API_KEY"])
     ++ (if PyStr.truthy (default "" bucket) then []
         else ["S3_BUCKET_NAME"])
     ++ (if PyStr.truthy (PyStr.strip cities_raw) then []
         else ["CITIES"]))%list in
  match missing with
  | _ :: _ => Raise RuntimeError
  | [] =>
      let cities :=
        map PyStr.strip
          (List.filter (fun c => PyStr.truthy (PyStr.strip c))
             (PyStr.split "," cities_raw)) in
      match cities with
      | [] => Raise RuntimeError
      | _ =>
          Ok {| openweather_api_key := default "" api_key;
                s3_bucket_name := default "" bucket;
                cities := cities;
                s3_log_prefix :=
                  match log_prefix with
                  | Some p => if PyStr.truthy p then Some p else None
                  | None => None
                  end |}
      end
  end.

(** How a call ends: it returns a value, it raises an exception, or
    control is in the [except Exception] handler of
    [fetch_weather_with_retry], whose body the source file does not
    show. *)
Inductive ending (A : Type) : Type :=
| Returned (a : A)
| Raised (e : exn)
| Unexpected (e : exn).
Arguments Returned {A} a.
Arguments Raised {A} e.
Arguments Unexpected {A} e.

(** What [fetch_weather_with_retry] comes to: a record or [None]. *)
Definition fetch_result : Type := ending (option WeatherData).

(** Modelled from the spec: what [fetch_weather_with_retry] returns once
    its loop is over. The source file breaks off inside the loop, in the
    [except Exception] handler; the specification has exhausted attempts
    yield "no record produced", which is also what a Python function
    returns when it ends without a [return]. *)
Definition after_last_attempt : option WeatherData := None.

Section Pipeline.
Context {W : Type} `{World W} (B : Builtins).

(** The message of a [WeatherAPIError] is only logged and is left
    out. *)
Definition call_openweather_api (city api_key : string) (w : W)
    : result Response * W :=
  match requests_get city api_key w with
  | (RequestException, w1) => (Raise (WeatherAPIError None true), w1)
  | (Responded resp, w1) =>
      if negb ((200 <=? status_code resp) && (status_code resp <? 300))
      then
        let retriable := _classify_retriable (Some (status_code resp)) in
        (Raise (WeatherAPIError (Some (status_code resp)) retriable), w1)
      else (Ok resp, w1)
  end.

(** The [try] body of one turn of the retry loop. *)
Definition attempt_fetch (city : string) (config : Config) (w : W)
    : result WeatherData * W :=
  match call_openweather_api city (openweather_api_key config) w with
  | (Ok resp, w1) =>
      (parse_weather_response B city resp (datetime_now w1), w1)
  | (Raise e, w1) => (Raise e, w1)
  end.

(** The loop [while attempt < max_attempts], by the number
    [remaining] of turns it has left, [max_attempts - attempt]. An
    exception of [time.sleep], raised inside the handler of
    [WeatherAPIError], leaves the function. *)
Fixpoint retry_loop (city : string) (config : Config) (max_attempts : Z)
    (remaining : nat) (attempt : Z) (backoff : float) (w : W)
    : fetch_result * W :=
  match remaining with
  | O => (Returned after_last_attempt, w)
  | S remaining' =>
      let attempt := attempt + 1 in
      match attempt_fetch city config w with
      | (Ok weather, w1) => (Returned (Some weather), w1)
      | (Raise (WeatherAPIError _ retriable), w1) =>
          if negb retriable then (Returned None, w1)
          else if attempt <? max_attempts then
            match sleep_error B backoff with
            | Some e => (Raised e, w1)
            | None =>
                retry_loop city config max_attempts remaining' attempt
                  (backoff * 2)%float (time_sleep backoff w1)
            end
          else
            retry_loop city config max_attempts remaining' attempt
              backoff w1
      | (Raise e, w1) => (Unexpected e, w1)
      end
  end.

Definition fetch_weather_with_retry (city : string) (config : Config)
    (max_attempts : Z) (initial_backoff_seconds : float) (w : W)
    : fetch_result * W :=
  retry_loop city config max_attempts (Z.to_nat max_attempts) 0
    initial_backoff_seconds w.

(** The payload is encoded before the [try]: a [UnicodeEncodeError]
    leaves the function; inside the [try], a [ClientError] or
    [BotoCoreError] of [put_object] gives [False]. *)
Definition upload_to_s3 (bucket key : string) (payload : WeatherData)
    (w : W) : result bool * W :=
  if negb (payload_encodes B payload) then (Raise UnicodeEncodeError, w)
  else
    let '(uploaded, w1) := put_object bucket key payload w in
    (Ok uploaded, w1).

Record Summary : Type := {
  total_cities : Z;
  success_count : Z;
  failure_count : Z;
  min_temp_c : option float;
  max_temp_c : option float;
  avg_temp_c : option float;
  failures : list string
}.

(** The four accumulators of the loop of [process_cities]. *)
Record Acc : Type := {
  acc_success : Z;
  acc_failure : Z;
  acc_temps : list float;
  acc_failures : list string
}.

(** One turn of the loop [for city in config.cities]. *)
Definition process_city (config : Config) (city : string) (a : Acc) (w : W)
    : ending Acc * W :=
  match fetch_weather_with_retry city config 3 1%float w with
  | (Unexpected e, w1) => (Unexpected e, w1)
  | (Raised e, w1) => (Raised e, w1)
  | (Returned None, w1) =>
      (Returned {| acc_success := acc_success a;
                   acc_failure := acc_failure a + 1;
                   acc_temps := acc_temps a;
                   acc_failures := acc_failures a ++ [city] |}, w1)
  | (Returned (Some weather), w1) =>
      let ts := datetime_now w1 in
      let key := build_s3_key city ts in
      match upload_to_s3 (s3_bucket_name config) key weather w1 with
      | (Raise e, w2) => (Raised e, w2)
      | (Ok true, w2) =>
          (Returned {| acc_success := acc_success a + 1;
                       acc_failure := acc_failure a;
                       acc_temps := acc_temps a ++ [temperature_c weather];
                       acc_failures := acc_failures a |}, w2)
      | (Ok false, w2) =>
          (Returned {| acc_success := acc_success a;
                       acc_failure := acc_failure a + 1;
                       acc_temps := acc_temps a;
                       acc_failures := acc_failures a ++ [city] |}, w2)
      end
  end.

Fixpoint process_loop (config : Config) (todo : list string) (a : Acc)
    (w : W) : ending Acc * W :=
  match todo with
  | [] => (Returned a, w)
  | city :: rest =>
      match process_city config city a w with
      | (Returned a', w1) => process_loop config rest a' w1
      | (Raised e, w1) => (Raised e, w1)
      | (Unexpected e, w1) => (Unexpected e, w1)
      end
  end.

Definition summarize (total : Z) (a : Acc) : Summary :=
  let temps := acc_temps a in
  {| total_cities := total;
     success_count := acc_success a;
     failure_count := acc_failure a;
     min_temp_c := match temps with [] => None | t :: ts => Some (py_min t ts) end;
     max_temp_c := match temps with [] => None | t :: ts => Some (py_max t ts) end;
     avg_temp_c := match temps with
                   | [] => None
                   | _ => Some (sum B temps / float_of_Z (Z.of_nat (length temps)))%float
                   end;
     failures := acc_failures a |}.

Definition process_cities (config : Config) (w : W) : ending Summary * W :=
  let total := Z.of_nat (length (cities config)) in
  match process_loop config (cities config)
          {| acc_success := 0; acc_failure := 0;
             acc_temps := []; acc_failures := [] |} w with
  | (Returned a, w1) => (Returned (summarize total a), w1)
  | (Raised e, w1) => (Raised e, w1)
  | (Unexpected e, w1) => (Unexpected e, w1)
  end.

(** [main]: the exit status it returns; an exception of
    [process_cities] is not caught. *)
Definition main (env : gmap string string) (w : W) : ending Z * W :=
  match load_env_config env with
  | Raise _ => (Returned 1, w)
  | Ok config =>
      if negb (boto3_client w) then (Returned 1, w)
      else
        match process_cities config w with
        | (Returned summary, w1) =>
            if failure_count summary >? 0 then (Returned 1, w1)
            else (Returned 0, w1)
        | (Raised e, w1) => (Raised e, w1)
        | (Unexpected e, w1) => (Unexpected e, w1)
        end
  end.

End Pipeline.

End WeatherToS3.

(** ** weather_analytics.py *)

Module WeatherAnalytics.

Definition prefix_for_date (dt : datetime) : string :=
  strftime dt "%Y/%m/%d/".

(** On a city of U+0000 .. U+00FF;
    [Unicode.normalize_city_for_filter] is the function on every
    string. *)
Definition normalize_city_for_filter (city : option string)
    : option string :=
  match city with
  | None => None
  | Some c =>
      if negb (PyStr.truthy c) then None
      else Some (PyStr.lower (PyStr.replace_char " " "_" (PyStr.strip c)))
  end.

(** [CityStats] and [update_stats] use their numbers only through [+],
    [<] and [>]; the model is written over any type with the two
    operations (Python's [a > b] is [b < a]). The script runs them on
    floats. *)
Section Stats.
Context {T : Type} (zero : T) (add : T -> T -> T) (lt : T -> T -> bool).

Record CityStats : Type := mkCityStats {
  count : Z;
  temp_sum : T;
  temp_min : option T;
  temp_max : option T
}.

(** [CityStats()] *)
Definition new_stats : CityStats := mkCityStats 0 zero None None.

Definition update_stats (stats : CityStats) (temp_c : T) : CityStats :=
  {| count := count stats + 1;
     temp_sum := add (temp_sum stats) temp_c;
     temp_min :=
       match temp_min stats with
       | None => Some temp_c
       | Some m => if lt temp_c m then Some temp_c else Some m
       end;
     temp_max :=
       match temp_max stats with
       | None => Some temp_c
       | Some m => if lt m temp_c then Some temp_c else Some m
       end |}.

(** Feeding a sequence of temperatures to a fresh accumulator. *)
Definition fold_stats (temps : list T) : CityStats :=
  fold_left update_stats temps new_stats.

End Stats.

Arguments CityStats T : clear implicits.

(** The instance the script runs. *)
Definition FloatStats : Type := CityStats float.
Definition new_float_stats : FloatStats := new_stats 0%float.
Definition update_float_stats : FloatStats -> float -> FloatStats :=
  update_stats PrimFloat.add PrimFloat.ltb.
Definition fold_float_stats (temps : list float) : FloatStats :=
  fold_stats 0%float PrimFloat.add PrimFloat.ltb temps.

(** The average [print_city_stats_table] derives. *)
Definition average (stats : FloatStats) : float :=
  if count stats =? 0 then 0%float
  else (temp_sum stats / float_of_Z (count stats))%float.

(** The object store as the script reads it: the keys
    [list_objects_for_prefix] returns once its loop over the pages is
    over (the loop itself is modelled for the viewer's [list_objects],
    in [S3Listing]; a store that never ends its listing is left out),
    and what [fetch_json] does: it returns a document, or [None] when
    the download or the decoding fails with one of the errors it
    catches, or it raises another exception, such as the
    [RecursionError] of [json.loads] on a document nested too deep. *)
Class ObjectStore (W : Type) : Type := {
  list_objects_for_prefix : string -> string -> W -> list string * W;
  fetch_json : string -> string -> W -> result (option json) * W
}.

(** The test under [if city_filter:]: [true] when the key is skipped. *)
Definition filtered_out (city_filter : option string) (key : string) : bool :=
  match city_filter with
  | Some f =>
      if PyStr.truthy f then
        let filename := PyStr.rsplit_last "/" key in
        let city_part := PyStr.split_first "_" filename in
        negb (String.eqb (PyStr.lower city_part) f)
      else false
  | None => false
  end.

Section Aggregation.
Context {W : Type} `{ObjectStore W} (B : Builtins).

(** [city_stats[city_name]] on the [defaultdict]. *)
Definition bucket_of (city_stats : gmap string FloatStats)
    (city_name : string) : FloatStats :=
  default new_float_stats (city_stats !! city_name).

(** The part of the loop body after the download. *)
Definition record_doc (doc : option json)
    (city_stats : gmap string FloatStats)
    : result (gmap string FloatStats) :=
  match doc with
  | None => Ok city_stats
  | Some d =>
      if negb (truthy d) then Ok city_stats
      else
        temp ← get d "temperature_c" JNull;
        city_v ← get d "city" JNull;
        let city_name := py_str B (or_else city_v (JStr "unknown")) in
        if negb (is_number temp) then Ok city_stats
        else
          t ← py_float B temp;
          Ok (<[city_name := update_float_stats
                               (bucket_of city_stats city_name) t]>
                city_stats)
  end.

(** One turn of the loop [for obj in objs]. *)
Definition scan_object (bucket : string) (city_filter : option string)
    (key : string) (city_stats : gmap string FloatStats) (w : W)
    : result (gmap string FloatStats) * W :=
  if filtered_out city_filter key then (Ok city_stats, w)
  else
    match fetch_json bucket key w with
    | (Ok doc, w1) => (record_doc doc city_stats, w1)
    | (Raise e, w1) => (Raise e, w1)
    end.

Fixpoint scan_objects (bucket : string) (city_filter : option string)
    (keys : list string) (city_stats : gmap string FloatStats) (w : W)
    : result (gmap string FloatStats) * W :=
  match keys with
  | [] => (Ok city_stats, w)
  | key :: rest =>
      match scan_object bucket city_filter key city_stats w with
      | (Ok city_stats', w1) =>
          scan_objects bucket city_filter rest city_stats' w1
      | (Raise e, w1) => (Raise e, w1)
      end
  end.

(** The loop [for dt in date_range(start, end)], over the days the
    generator yields. *)
Fixpoint scan_days (bucket : string) (city_filter : option string)
    (days : list datetime) (city_stats : gmap string FloatStats) (w : W)
    : result (gmap string FloatStats) * W :=
  match days with
  | [] => (Ok city_stats, w)
  | dt :: rest =>
      let prefix := prefix_for_date dt in
      let '(objs, w1) := list_objects_for_prefix bucket prefix w in
      match scan_objects bucket city_filter objs city_stats w1 with
      | (Ok city_stats', w2) =>
          scan_days bucket city_filter rest city_stats' w2
      | (Raise e, w2) => (Raise e, w2)
      end
  end.

Definition aggregate (bucket : string) (city : option string)
    (days : list datetime) (w : W)
    : result (gmap string FloatStats) * W :=
  scan_days bucket (normalize_city_for_filter city) days ∅ w.

End Aggregation.

End WeatherAnalytics.

(** ** view_weather_data.py *)

Module ViewWeatherData.

(** The items [prefix_parts] receives under [if date_str:]. *)
Definition date_parts (date_str : option string) : result (list string) :=
  match date_str with
  | Some d =>
      if PyStr.truthy d then
        match strptime_ymd d with
        | Some dt => Ok [strftime dt "%Y/%m/%d"]
        | None => Raise ValueError
        end
      else Ok []
  | None => Ok []
  end.

(** The items [prefix_parts] receives under [if city:]. *)
Definition city_parts (city : option string) : list string :=
  match city with
  | Some c =>
      if PyStr.truthy c then
        let city_normalized :=
          PyStr.lower (PyStr.replace_char " " "_" (PyStr.strip c)) in
        [city_normalized ++ "_"]
      else []
  | None => []
  end.

Definition build_prefix_for_date_and_city (date_str city : option string)
    : result string :=
  match date_parts date_str with
  | Raise e => Raise e
  | Ok from_date =>
      let prefix_parts := (from_date ++ city_parts city)%list in
      match prefix_parts with
      | [] => Ok ""
      | _ => Ok (PyStr.join "/" prefix_parts)
      end
  end.

End ViewWeatherData.

(** ** A run of the pipeline, city by city

    What the specification says of a run: each city either ends with a
    stored report, of some temperature, or fails, at the fetch or at the
    upload. [run_outcomes] makes the same calls as [process_cities], in
    the same order, and keeps one outcome per city. *)

Module Outcomes.

Import WeatherToS3.

(** An attempt that ends in a report or in a [WeatherAPIError]: the two
    cases whose handling the source shows. *)
Definition handled (r : result WeatherData) : bool :=
  match r with
  | Ok _ | Raise (WeatherAPIError _ _) => true
  | Raise _ => false
  end.

Section Run.
Context {W : Type} `{World W} (B : Builtins).

(** [Returned (Some t)]: stored, with temperature [t];
    [Returned None]: failed; otherwise the city ends the run, by an
    exception or in the handler the source does not show. *)
Definition city_outcome (config : Config) (city : string) (w : W)
    : ending (option float) * W :=
  match fetch_weather_with_retry B city config 3 1%float w with
  | (Unexpected e, w1) => (Unexpected e, w1)
  | (Raised e, w1) => (Raised e, w1)
  | (Returned None, w1) => (Returned None, w1)
  | (Returned (Some weather), w1) =>
      let key := build_s3_key city (datetime_now w1) in
      match upload_to_s3 B (s3_bucket_name config) key weather w1 with
      | (Raise e, w2) => (Raised e, w2)
      | (Ok true, w2) => (Returned (Some (temperature_c weather)), w2)
      | (Ok false, w2) => (Returned None, w2)
      end
  end.

Fixpoint run_outcomes (config : Config) (todo : list string) (w : W)
    : ending (list (string * option float)) * W :=
  match todo with
  | [] => (Returned [], w)
  | city :: rest =>
      match city_outcome config city w with
      | (Returned o, w1) =>
          match run_outcomes config rest w1 with
          | (Returned outs, w2) => (Returned ((city, o) :: outs), w2)
          | (Raised e, w2) => (Raised e, w2)
          | (Unexpected e, w2) => (Unexpected e, w2)
          end
      | (Raised e, w1) => (Raised e, w1)
      | (Unexpected e, w1) => (Unexpected e, w1)
      end
  end.

End Run.

(** The cities that failed, and the temperatures of those that were
    stored, both in the order of the run. *)
Fixpoint failed_cities (outs : list (string * option float)) : list string :=
  match outs with
  | [] => []
  | (c, None) :: rest => c :: failed_cities rest
  | (_, Some _) :: rest => failed_cities rest
  end.

Fixpoint stored_temps (outs : list (string * option float)) : list float :=
  match outs with
  | [] => []
  | (_, Some t) :: rest => t :: stored_temps rest
  | (_, None) :: rest => stored_temps rest
  end.

(** The effect of one outcome on the accumulators. *)
Definition account (a : Acc) (o : string * option float) : Acc :=
  match snd o with
  | Some t =>
      {| acc_success := acc_success a + 1;
         acc_failure := acc_failure a;
         acc_temps := acc_temps a ++ [t];
         acc_failures := acc_failures a |}
  | None =>
      {| acc_success := acc_success a;
         acc_failure := acc_failure a + 1;
         acc_temps := acc_temps a;
         acc_failures := acc_failures a ++ [fst o] |}
  end.

End Outcomes.

(** ** Counting what the pipeline does

    Any world can be run with a record of the calls made to it: requests
    to the API, sleeps and uploads, oldest first. The recorded world does
    what the world does and appends to the record. *)

Module Traced.

Import WeatherToS3.

Inductive effect : Type :=
| Request (city : string)
| Sleep (seconds : float)
| PutObject (key : string).

#[global] Instance traced_world (W : Type) `{World W}
  : World (W * list effect) := {|
  requests_get := fun city api_key s =>
    let '(o, w') := requests_get city api_key (fst s) in
    (o, (w', (snd s ++ [Request city])%list));
  datetime_now := fun s => datetime_now (fst s);
  time_sleep := fun seconds s =>
    (time_sleep seconds (fst s), (snd s ++ [Sleep seconds])%list);
  put_object := fun bucket key payload s =>
    let '(ok, w') := put_object bucket key payload (fst s) in
    (ok, (w', (snd s ++ [PutObject key])%list));
  boto3_client := fun s => boto3_client (fst s)
|}.

End Traced.

(** ** A small world to run the scripts in

    The weather API answers by city name: ["City500"] always gets a 500,
    ["Nowhere"] a 404, ["Flaky"] a 503 on its first two requests, and every
    other city a well-formed report. The store refuses the report of
    ["Atlantis"]. The world is the log of what has been done to it. *)

Module Demo.

Import WeatherToS3.

Inductive event : Type :=
| Requested (city : string)
| Slept (seconds : float)
| Put (key : string) (stored : bool).

Definition world : Type := list event.

Definition requests_so_far (city : string) (log : world) : nat :=
  length (List.filter
            (fun e => match e with
                      | Requested c => String.eqb c city
                      | _ => false
                      end) log).

(** The name that stands for a string holding the lone surrogate
    U+D800, as [json.loads] gives it for the JSON text ["\ud800"]; the
    interpreter of the demonstration refuses to encode it. *)
Definition lone_surrogate : string := "<U+D800>".

Definition report (city : string) : json :=
  JObj [("name",
         JStr (if String.eqb city "Garbled" then lone_surrogate else city));
        ("sys", JObj [("country", JStr "GB")]);
        ("main", JObj [("temp", JFloat 293.15); ("humidity", JInt 40)]);
        ("weather", JArr [JObj [("main", JStr "Clouds")]])].

(** The report for ["Windless"]: its ["wind"] is [null]. *)
Definition windless_report : json :=
  JObj [("name", JStr "Windless");
        ("main", JObj [("temp", JFloat 280)]);
        ("wind", JNull)].

Definition answer (city : string) (log : world) : http_outcome :=
  if String.eqb city "City500" then
    Responded {| status_code := 500; body := Raise ValueError |}
  else if String.eqb city "Nowhere" then
    Responded {| status_code := 404;
                 body := Ok (JObj [("message", JStr "city not found")]) |}
  else if String.eqb city "Flaky" && (requests_so_far city log <? 2)%nat then
    Responded {| status_code := 503; body := Raise ValueError |}
  else if String.eqb city "Windless" then
    Responded {| status_code := 200; body := Ok windless_report |}
  else
    Responded {| status_code := 200; body := Ok (report city) |}.

Definition accepted (payload : WeatherData) : bool :=
  match city payload with
  | JStr s => negb (String.eqb s "Atlantis")
  | _ => true
  end.

#[global] Instance demo_world : World world := {|
  requests_get := fun city _ log => (answer city log, log ++ [Requested city])%list;
  datetime_now := fun _ => mkDatetime 2026 2 18 14 5 9;
  time_sleep := fun seconds log => (log ++ [Slept seconds])%list;
  put_object := fun _ key payload log =>
    (accepted payload, (log ++ [Put key (accepted payload)])%list);
  boto3_client := fun _ => true
|}.

(** [int] of a string of decimal digits, the only strings the
    demonstrations read numbers from. *)
Fixpoint read_digits (s : string) (acc : Z) : option Z :=
  match s with
  | EmptyString => Some acc
  | String c r =>
      match PyTime.digit_val c with
      | Some d => read_digits r (10 * acc + d)
      | None => None
      end
  end.

Definition builtins : Builtins := {|
  float_of_str := fun _ => None;
  int_of_str := fun s =>
    match s with
    | EmptyString => None
    | _ => read_digits s 0
    end;
  repr := fun _ => "?";
  sum := fun xs => fold_left PrimFloat.add xs 0%float;
  encodes := fun v =>
    match v with
    | JStr s => negb (String.eqb s lone_surrogate)
    | _ => true
    end;
  long_sleep := fun _ => Some OverflowError
|}.

Definition config : Config := {|
  openweather_api_key := "k";
  s3_bucket_name := "weather";
  cities := ["London"; "City500"; "Atlantis"];
  s3_log_prefix := None
|}.

Definition environment : gmap string string :=
  <["OPENWEATHER_API_KEY" := "k"]>
    (<["S3_BUCKET_NAME" := "weather"]>
       (<["CITIES" := "London,City500,Atlantis"]> ∅)).

(** A configuration whose second city gets a report that cannot be
    encoded. *)
Definition garbled_config : Config := {|
  openweather_api_key := "k";
  s3_bucket_name := "weather";
  cities := ["London"; "Garbled"; "Paris"];
  s3_log_prefix := None
|}.

Definition garbled_environment : gmap string string :=
  <["OPENWEATHER_API_KEY" := "k"]>
    (<["S3_BUCKET_NAME" := "weather"]>
       (<["CITIES" := "London,Garbled,Paris"]> ∅)).

(** A store for the analytics: one stored report, filed under
    [london] and naming its city [London]. *)
Definition stored_key : string := "2026/02/18/london_140509.json".

Definition stored_doc : json :=
  JObj [("city", JStr "London"); ("temperature_c", JFloat 20)].

#[global] Instance demo_store : WeatherAnalytics.ObjectStore unit := {|
  WeatherAnalytics.list_objects_for_prefix := fun _ prefix w =>
    (if String.eqb prefix "2026/02/18/" then [stored_key] else [], w);
  WeatherAnalytics.fetch_json := fun _ key w =>
    (Ok (if String.eqb key stored_key then Some stored_doc else None), w)
|}.

End Demo.

(** ** Notions used to state the properties *)

Module Notions.

(** The character map of [.replace(" ", "_").lower()]. *)
Definition norm_char (c : ascii) : ascii :=
  PyStr.lower_char (if Ascii.eqb c " " then "_"%char else c).

(** A string neither starts nor ends with whitespace. *)
Definition head_ok (s : string) : bool :=
  match s with
  | EmptyString => true
  | String c _ => negb (PyStr.is_space c)
  end.

Fixpoint last_ok (s : string) : bool :=
  match s with
  | EmptyString => true
  | String c EmptyString => negb (PyStr.is_space c)
  | String _ r => last_ok r
  end.

(** A result that is no [WeatherAPIError]: what the builtins and the
    operations on decoded JSON give. *)
Definition plain {A : Type} (r : result A) : Prop :=
  match r with
  | Raise (WeatherAPIError _ _) => False
  | _ => True
  end.

(** A report with no ["main"], or whose ["main"] has no ["temp"]. *)
Definition lacks_main_temp (data : json) : Prop :=
  match data with
  | JObj fields =>
      match assoc "main" fields with
      | None => True
      | Some (JObj main_fields) => assoc "temp" main_fields = None
      | Some _ => False
      end
  | _ => False
  end.

(** [m] is one of the values seen and none of them is below it, or
    nothing was seen. *)
Definition least_in {T : Type} (lt : T -> T -> bool) (seen : list T)
    (m : option T) : Prop :=
  match m with
  | None => seen = []
  | Some x => In x seen /\ forall y, In y seen -> lt y x = false
  end.

Definition greatest_in {T : Type} (lt : T -> T -> bool) (seen : list T)
    (m : option T) : Prop :=
  match m with
  | None => seen = []
  | Some x => In x seen /\ forall y, In y seen -> lt x y = false
  end.

(** Equality of two optional floats as [==] has it. *)
Definition same_float (a b : option float) : bool :=
  match a, b with
  | None, None => true
  | Some x, Some y => PrimFloat.eqb x y
  | _, _ => false
  end.

End Notions.

Import Notions.

(** ** What a run of the retry loop may do

    The calls of one run of [fetch_weather_with_retry] that makes [k]
    requests: a sleep between two requests, of a duration that doubles. *)

Module Effects.

Import Traced.

Fixpoint backoff_schedule (city : string) (k : nat) (backoff : float)
    : list effect :=
  match k with
  | O => []
  | S O => [Request city]
  | S k' =>
      Request city :: Sleep backoff
        :: backoff_schedule city k' (backoff * 2)%float
  end.

(** The backoff after [j] doublings: what the sleep after the request
    number [j + 1] is asked for. *)
Fixpoint doubled (backoff : float) (j : nat) : float :=
  match j with
  | O => backoff
  | S j' => doubled (backoff * 2)%float j'
  end.

Definition is_request (e : effect) : bool :=
  match e with Request _ => true | _ => false end.

Definition is_sleep (e : effect) : bool :=
  match e with Sleep _ => true | _ => false end.

Definition is_put (e : effect) : bool :=
  match e with PutObject _ => true | _ => false end.

(** How many of the calls of a record are of one kind. *)
Definition count (kind : effect -> bool) (log : list effect) : nat :=
  length (List.filter kind log).

End Effects.

(** ** Listing under a prefix

    The object store lists under a prefix the keys that start with
    it. *)

Module Listing.

Fixpoint starts_with (key prefix : string) {struct prefix} : bool :=
  match prefix with
  | EmptyString => true
  | String a prefix' =>
      match key with
      | EmptyString => false
      | String b key' => Ascii.eqb a b && starts_with key' prefix'
      end
  end.

End Listing.

(** ** The calendar, and [date_range] of weather_analytics.py *)

Module Calendar.

Local Open Scope Z_scope.

(** The dates and the times of day a [datetime] can hold. *)
Definition valid_date (dt : datetime) : bool :=
  (1 <=? year dt) && (year dt <=? 9999)
  && (1 <=? month dt) && (month dt <=? 12)
  && (1 <=? day dt) && (day dt <=? days_in_month (year dt) (month dt)).

Definition valid_clock (dt : datetime) : bool :=
  (0 <=? hour dt) && (hour dt <=? 23)
  && (0 <=? minute dt) && (minute dt <=? 59)
  && (0 <=? second dt) && (second dt <=? 59).

(** [a <= b] on two [datetime]s: field by field, the year first. *)
Definition datetime_leb (a b : datetime) : bool :=
  if year a <? year b then true
  else if year b <? year a then false
  else if month a <? month b then true
  else if month b <? month a then false
  else if day a <? day b then true
  else if day b <? day a then false
  else if hour a <? hour b then true
  else if hour b <? hour a then false
  else if minute a <? minute b then true
  else if minute b <? minute a then false
  else second a <=? second b.

(** [dt + timedelta(days=1)]: the same time on the next day; [None] is
    the [OverflowError] of a date after 9999-12-31. *)
Definition add_one_day (dt : datetime) : option datetime :=
  if day dt <? days_in_month (year dt) (month dt) then
    Some (mkDatetime (year dt) (month dt) (day dt + 1)
            (hour dt) (minute dt) (second dt))
  else if month dt <? 12 then
    Some (mkDatetime (year dt) (month dt + 1) 1
            (hour dt) (minute dt) (second dt))
  else if year dt <? 9999 then
    Some (mkDatetime (year dt + 1) 1 1 (hour dt) (minute dt) (second dt))
  else None.

(** The last day a [datetime] can hold. *)
Definition last_day (dt : datetime) : bool :=
  (year dt =? 9999) && (month dt =? 12) && (day dt =? 31).

(** A number that grows with the date, by at least one a day. *)
Definition day_rank (dt : datetime) : Z :=
  372 * year dt + 31 * month dt + day dt.

(** The loop of the generator [date_range], by the number of turns it
    may still take: the days it yields, and the exception that ends it
    when the day after the last one does not exist. [None]: out of
    turns. *)
Fixpoint date_range_loop (turns : nat) (cur end_ : datetime)
    : option (list datetime * option exn) :=
  match turns with
  | O => None
  | S turns' =>
      if datetime_leb cur end_ then
        match add_one_day cur with
        | Some next =>
            match date_range_loop turns' next end_ with
            | Some (days, err) => Some (cur :: days, err)
            | None => None
            end
        | None => Some ([cur], Some OverflowError)
        end
      else Some ([], None)
  end.

(** [date_range(start, end)], with two turns more than the rank of the
    end is above that of the start. *)
Definition date_range (start end_ : datetime)
    : option (list datetime * option exn) :=
  date_range_loop (S (S (Z.to_nat (day_rank end_ - day_rank start))))
    start end_.

(** [a] and [b] are the same day, and [a] is a day before [b]. *)
Definition same_day (a b : datetime) : Prop :=
  year a = year b /\ month a = month b /\ day a = day b.

Definition day_before (a b : datetime) : Prop :=
  year a < year b
  \/ (year a = year b
      /\ (month a < month b \/ (month a = month b /\ day a < day b))).

Definition same_clock (a b : datetime) : Prop :=
  hour a = hour b /\ minute a = minute b /\ second a = second b.

(** The days from one day to another, one after the other. *)
Inductive days_from : datetime -> datetime -> list datetime -> Prop :=
| days_one (d e : datetime) :
    same_day d e -> days_from d e [d]
| days_more (d d' e : datetime) (rest : list datetime) :
    day_before d e ->
    add_one_day d = Some d' ->
    days_from d' e rest ->
    days_from d e (d :: rest).

End Calendar.

(** ** Buckets of the aggregation *)

Module Buckets.
Import WeatherAnalytics.
Local Open Scope Z_scope.

(** A bucket that has counted at least one temperature. *)
Definition counted (s : FloatStats) : Prop :=
  1 <= count s /\ is_Some (temp_min s) /\ is_Some (temp_max s).

End Buckets.

(** ** What an expression may raise *)

Module Raising.

(** [r] raises nothing but exceptions of [allowed]. *)
Definition raises_within {A : Type} (allowed : exn -> Prop) (r : result A)
    : Prop :=
  match r with
  | Ok _ => True
  | Raise e => allowed e
  end.

(** The exceptions that the conversions and look-ups of
    [parse_weather_response] raise. *)
Definition of_lookups (e : exn) : Prop :=
  match e with
  | KeyError | TypeError | ValueError | AttributeError | OverflowError => True
  | _ => False
  end.

End Raising.

(** ** Listing the objects of the bucket, page by page *)

Module S3Listing.

Local Open Scope Z_scope.

(** The keyword arguments of [client.list_objects_v2]; the continuation
    token is absent ([None]) or whatever the last page gave for it,
    [None] included. *)
Record Kwargs : Type := {
  Bucket : string;
  Prefix : option string;
  ContinuationToken : option (option string)
}.

(** What the loops read in a page: [resp.get("Contents", [])], the truth
    value of [resp.get("IsTruncated")] and
    [resp.get("NextContinuationToken")]. *)
Record Page (Obj : Type) : Type := {
  Contents : list Obj;
  IsTruncated : bool;
  NextContinuationToken : option string
}.
Arguments Contents {Obj} _.
Arguments IsTruncated {Obj} _.
Arguments NextContinuationToken {Obj} _.

(** What [client.list_objects_v2] does: a page, or a [ClientError] or
    [BotoCoreError]. *)
Inductive list_outcome (Obj : Type) : Type :=
| Listed (resp : Page Obj)
| ListError.
Arguments Listed {Obj} resp.
Arguments ListError {Obj}.

Class S3Client (W Obj : Type) : Type := {
  list_objects_v2 : Kwargs -> W -> list_outcome Obj * W
}.

Section Loops.
Context {W Obj : Type} `{S3Client W Obj}.

(** [kwargs["ContinuationToken"] = resp.get("NextContinuationToken")] *)
Definition continue_from (kwargs : Kwargs) (resp : Page Obj) : Kwargs :=
  {| Bucket := Bucket kwargs;
     Prefix := Prefix kwargs;
     ContinuationToken := Some (NextContinuationToken resp) |}.

(** The loop [while True] of [list_objects_for_prefix] in
    weather_analytics.py, for [turns] turns at most: [None] when it has
    not left the loop by then. *)
Fixpoint list_objects_for_prefix_loop (turns : nat) (kwargs : Kwargs)
    (results : list Obj) (w : W) : option (list Obj * W) :=
  match turns with
  | O => None
  | S turns' =>
      match list_objects_v2 kwargs w with
      | (ListError, w1) => Some (results, w1)
      | (Listed resp, w1) =>
          let results := (results ++ Contents resp)%list in
          if negb (IsTruncated resp) then Some (results, w1)
          else
            list_objects_for_prefix_loop turns' (continue_from kwargs resp)
              results w1
      end
  end.

Definition list_objects_for_prefix (turns : nat) (bucket prefix : string)
    (w : W) : option (list Obj * W) :=
  list_objects_for_prefix_loop turns
    {| Bucket := bucket; Prefix := Some prefix; ContinuationToken := None |}
    [] w.

(** The loop [for obj in contents] of [list_objects] in
    view_weather_data.py: the results, and whether the function has
    returned from inside the loop. *)
Fixpoint append_contents (max_items : Z) (contents results : list Obj)
    : list Obj * bool :=
  match contents with
  | [] => (results, false)
  | obj :: rest =>
      let results := (results ++ [obj])%list in
      if Z.of_nat (length results) >=? max_items then (results, true)
      else append_contents max_items rest results
  end.

Fixpoint list_objects_loop (turns : nat) (max_items : Z) (kwargs : Kwargs)
    (results : list Obj) (w : W) : option (list Obj * W) :=
  match turns with
  | O => None
  | S turns' =>
      match list_objects_v2 kwargs w with
      | (ListError, w1) => Some (results, w1)
      | (Listed resp, w1) =>
          match append_contents max_items (Contents resp) results with
          | (results, true) => Some (results, w1)
          | (results, false) =>
              if negb (IsTruncated resp) then Some (results, w1)
              else
                list_objects_loop turns' max_items (continue_from kwargs resp)
                  results w1
          end
      end
  end.

Definition list_objects (turns : nat) (bucket prefix : string)
    (max_items : Z) (w : W) : option (list Obj * W) :=
  list_objects_loop turns max_items
    {| Bucket := bucket;
       Prefix := if PyStr.truthy prefix then Some prefix else None;
       ContinuationToken := None |}
    [] w.

End Loops.

(** The number of objects [list_objects] stops at. *)
Definition limit_of (max_items : Z) : nat := Z.to_nat (Z.max 1 max_items).

End S3Listing.

(** A service for demonstrations: three objects in two pages. *)
Module DemoListing.
Import S3Listing.

Definition pages (kwargs : Kwargs) : list_outcome string :=
  match ContinuationToken kwargs with
  | None =>
      Listed {| Contents := ["2026/02/18/london_H0509.json";
                             "2026/02/18/paris_H0510.json"];
                IsTruncated := true;
                NextContinuationToken := Some "page2" |}
  | Some (Some "page2") =>
      Listed {| Contents := ["2026/02/18/rome_H0511.json"];
                IsTruncated := false;
                NextContinuationToken := None |}
  | Some _ => ListError
  end.

#[global] Instance demo_client : S3Client unit string := {|
  list_objects_v2 := fun kwargs w => (pages kwargs, w)
|}.

End DemoListing.

(** ** The command line of weather_analytics.py *)

Module AnalyticsMain.
Import WeatherToS3 WeatherAnalytics Calendar.

Local Open Scope Z_scope.

(** The arguments [argparse] hands to [main]; an option that was not
    given is [None]. *)
Record Args : Type := {
  date : option string;
  start_date : option string;
  end_date : option string;
  city : option string
}.

(** The truth value of an option: given, and not the empty string. *)
Definition given (arg : option string) : bool :=
  match arg with
  | Some s => PyStr.truthy s
  | None => false
  end.

Definition load_env_bucket (env : gmap string string) : result string :=
  match getenv env "S3_BUCKET_NAME" with
  | Some bucket =>
      if negb (PyStr.truthy bucket) then Raise RuntimeError else Ok bucket
  | None => Raise RuntimeError
  end.

(** [build_s3_client()]: [true] when [boto3.client] returns a client,
    [false] when it raises. *)
Class Boto3 (W : Type) : Type := {
  build_s3_client : W -> bool
}.

(** The second [try] of [main]: the two ends of the range, or [None]
    when [main] returns 1 from it (an option is missing, or a date does
    not parse). *)
Definition parse_dates (args : Args) : option (datetime * datetime) :=
  if given (date args) then
    match strptime_ymd (default "" (date args)) with
    | Some dt => Some (dt, dt)
    | None => None
    end
  else if negb (given (start_date args)) || negb (given (end_date args))
  then None
  else
    match strptime_ymd (default "" (start_date args)) with
    | Some start =>
        match strptime_ymd (default "" (end_date args)) with
        | Some end_ => Some (start, end_)
        | None => None
        end
    | None => None
    end.

(** How a call of [main] ends. *)
Inductive outcome : Type :=
| Rejected
| Reported (city_stats : gmap string FloatStats)
| NoClient
| Raised (e : exn).

(** The status [main] returns, when it returns. *)
Definition exit_status (o : outcome) : option Z :=
  match o with
  | Rejected => Some 1
  | Reported _ => Some 0
  | NoClient | Raised _ => None
  end.

(** The end of the loop over the days: an exception of the loop body
    comes first, then the one [date_range] ends with, if any. *)
Definition end_of_scan (err : option exn)
    (scanned : result (gmap string FloatStats)) : outcome :=
  match scanned with
  | Ok city_stats =>
      match err with
      | Some e => Raised e
      | None => Reported city_stats
      end
  | Raise e => Raised e
  end.

Section Main.
Context {W : Type} `{ObjectStore W} `{Boto3 W} (B : Builtins).

(** [main]; [None] only if [date_range] were out of turns. *)
Definition main (args : Args) (env : gmap string string) (w : W)
    : option (outcome * W) :=
  if given (date args) && (given (start_date args) || given (end_date args))
  then Some (Rejected, w)
  else
    match load_env_bucket env with
    | Raise _ => Some (Rejected, w)
    | Ok bucket =>
        match parse_dates args with
        | None => Some (Rejected, w)
        | Some (start, end_) =>
            if negb (build_s3_client w) then Some (NoClient, w)
            else
              match date_range start end_ with
              | None => None
              | Some (days, err) =>
                  let '(scanned, w1) := aggregate B bucket (city args) days w in
                  Some (end_of_scan err scanned, w1)
              end
        end
    end.

End Main.

(** A session for demonstrations: the client can be built. *)
#[global] Instance demo_session : Boto3 unit := {|
  build_s3_client := fun _ => true
|}.

End AnalyticsMain.

(** ** weather_scheduler.py *)

Module WeatherScheduler.
Import WeatherToS3.

Local Open Scope Z_scope.

(** [time.sleep(seconds)] for an integer, as CPython 3.11 has it: the
    exception it raises before it asks the system for anything, if any.
    The seconds are turned into nanoseconds of 64 bits, [OverflowError]
    when they do not fit; a negative number is then refused with
    [ValueError]. *)
Definition sleep_error (seconds : Z) : option exn :=
  if (seconds <? -9223372036) || (9223372036 <? seconds)
  then Some OverflowError
  else if seconds <? 0 then Some ValueError
  else None.

(** What comes of a sleep the system is asked for: it sleeps and
    returns, a [KeyboardInterrupt] ends it, or the system refuses it and
    [time.sleep] raises (an [OSError], where the deadline is out of
    range). *)
Inductive sleep_outcome : Type :=
| Woke
| Interrupted
| Refused (e : exn).

(** The host of the scheduler: [subprocess.run] gives the exit code of
    the child, or [None] when it raises an [Exception]. An interrupt
    while the child runs is left out. *)
Class Host (W : Type) : Type := {
  subprocess_run : W -> option Z * W;
  time_sleep : Z -> W -> sleep_outcome * W
}.

Definition load_interval_seconds (B : Builtins) (env : gmap string string)
    (default : Z) : Z :=
  match getenv env "WEATHER_FETCH_INTERVAL_SECONDS" with
  | None => default
  | Some raw =>
      if negb (PyStr.truthy raw) then default
      else
        match py_int B (JStr raw) with
        | Ok value => if value <=? 0 then default else value
        | Raise _ => default
        end
  end.

Section Scheduler.
Context {W : Type} `{Host W}.

Definition run_pipeline_once (w : W) : Z * W :=
  match subprocess_run w with
  | (Some returncode, w1) => (returncode, w1)
  | (None, w1) => (1, w1)
  end.

(** The loop [while True], for [turns] turns at most; the [try] around
    [time.sleep] catches [KeyboardInterrupt] only. *)
Fixpoint run_scheduler_loop (turns : nat) (interval_seconds : Z) (w : W)
    : option (result Z * W) :=
  match turns with
  | O => None
  | S turns' =>
      let '(exit_code, w1) := run_pipeline_once w in
      match sleep_error interval_seconds with
      | Some e => Some (Raise e, w1)
      | None =>
          match time_sleep interval_seconds w1 with
          | (Woke, w2) => run_scheduler_loop turns' interval_seconds w2
          | (Interrupted, w2) => Some (Ok 0, w2)
          | (Refused e, w2) => Some (Raise e, w2)
          end
      end
  end.

Definition main (B : Builtins) (once : bool) (env : gmap string string)
    (turns : nat) (w : W) : option (result Z * W) :=
  if once then
    let '(exit_code, w1) := run_pipeline_once w in Some (Ok exit_code, w1)
  else
    let interval := load_interval_seconds B env 900 in
    run_scheduler_loop turns interval w.

End Scheduler.

(** What the scheduler does to its host, in order: the runs with their
    exit codes, and the sleeps the system was asked for with what came of
    them. *)
Inductive step : Type :=
| Ran (exit_code : Z)
| Slept (seconds : Z) (how : sleep_outcome).

#[global] Instance traced_host (W : Type) `{Host W}
  : Host (W * list step) := {|
  subprocess_run := fun s =>
    let '(r, w') := subprocess_run (fst s) in
    (r, (w', (snd s ++ [Ran (default 1 r)])%list));
  time_sleep := fun seconds s =>
    let '(how, w') := time_sleep seconds (fst s) in
    (how, (w', (snd s ++ [Slept seconds how])%list))
|}.

(** Runs with the exit codes [codes], a call of [time.sleep] after each:
    all sleep through but the last, which ends as [last]. *)
Fixpoint rounds (interval : Z) (codes : list Z) (last : sleep_outcome)
    : list step :=
  match codes with
  | [] => []
  | [code] => [Ran code; Slept interval last]
  | code :: rest =>
      Ran code :: Slept interval Woke :: rounds interval rest last
  end.

(** A host for demonstrations: the pipeline fails each time, and the
    third sleep is interrupted. The world counts the sleeps. *)
#[global] Instance demo_host : Host nat := {|
  subprocess_run := fun w => (Some 1, w);
  time_sleep := fun seconds w =>
    (if Nat.eqb w 2 then Interrupted else Woke, S w)
|}.

End WeatherScheduler.

(** * Properties *)

(** ** The model at work *)

Example normalize_example :
  WeatherToS3.normalize_city_for_key "  New York " = "new_york".
Proof. reflexivity. Qed.

Example strftime_example :
  strftime (mkDatetime 2026 2 18 14 5 9) "%Y/%m/%d %H:%M:%S"
  = "2026/02/18 14:05:09".
Proof. reflexivity. Qed.

Example strptime_examples :
  strptime_ymd "2026-02-18" = Some (mkDatetime 2026 2 18 0 0 0)
  /\ strptime_ymd "2026-2-8" = Some (mkDatetime 2026 2 8 0 0 0)
  /\ strptime_ymd "2026-02-30" = None
  /\ strptime_ymd "2024-02-29" = Some (mkDatetime 2024 2 29 0 0 0)
  /\ strptime_ymd "18/02/2026" = None.
Proof. repeat split. Qed.

Example prefix_for_date_example :
  WeatherAnalytics.prefix_for_date (mkDatetime 2026 2 18 0 0 0) = "2026/02/18/".
Proof. reflexivity. Qed.

Example load_env_config_example :
  WeatherToS3.load_env_config Demo.environment = Ok Demo.config.
Proof. vm_compute. reflexivity. Qed.

Example load_env_config_missing :
  WeatherToS3.load_env_config (<["CITIES" := " , "]> Demo.environment)
  = Raise RuntimeError.
Proof. vm_compute. reflexivity. Qed.

(** A well-formed report is parsed into a record in Celsius. *)
Example parse_example :
  let now := mkDatetime 2026 2 18 14 5 9 in
  let resp := {| WeatherToS3.status_code := 200;
                 WeatherToS3.body := Ok (Demo.report "London") |} in
  WeatherToS3.parse_weather_response Demo.builtins "london" resp now
  = Ok {| WeatherToS3.city := JStr "London";
          WeatherToS3.country := JStr "GB";
          WeatherToS3.lat := 0; WeatherToS3.lon := 0;
          WeatherToS3.temperature_c := (293.15 - 273.15)%float;
          WeatherToS3.feels_like_c := (293.15 - 273.15)%float;
          WeatherToS3.humidity := 40;
          WeatherToS3.pressure_hpa := 0;
          WeatherToS3.weather_main := "Clouds";
          WeatherToS3.weather_description := "";
          WeatherToS3.wind_speed_ms := 0;
          WeatherToS3.timestamp_utc := now;
          WeatherToS3.raw_source_id := JNull;
          WeatherToS3.raw_source_dt := JNull |}.
Proof. vm_compute. reflexivity. Qed.

(** A report whose ["wind"] is a list raises [AttributeError], which
    [parse_weather_response] lets through. *)
Example parse_wind_of_wrong_type :
  let resp := {| WeatherToS3.status_code := 200;
                 WeatherToS3.body :=
                   Ok (JObj [("main", JObj [("temp", JFloat 293.15)]);
                               ("wind", JArr [])]) |} in
  WeatherToS3.parse_weather_response Demo.builtins "london" resp
    (mkDatetime 2026 2 18 14 5 9)
  = Raise AttributeError.
Proof. vm_compute. reflexivity. Qed.

(** ** City normalization *)

Section Normalization.
Import PyStr.

Ltac by_cases_on_char c :=
  destruct c as [[] [] [] [] [] [] [] []]; vm_compute; congruence.

Lemma norm_char_idem c : norm_char (norm_char c) = norm_char c.
Proof. by_cases_on_char c. Qed.

Lemma norm_char_not_blank c : Ascii.eqb (norm_char c) " " = false.
Proof. by_cases_on_char c. Qed.

Lemma norm_char_not_upper c : is_upper (norm_char c) = false.
Proof. by_cases_on_char c. Qed.

Lemma norm_char_keeps_nonspace c :
  is_space c = false -> is_space (norm_char c) = false.
Proof. by_cases_on_char c. Qed.

Lemma map_chars_compose f g s :
  map_chars f (map_chars g s) = map_chars (fun c => f (g c)) s.
Proof. induction s as [|c r IH]; simpl; [reflexivity | now rewrite IH]. Qed.

Lemma map_chars_ext f g s :
  (forall c, f c = g c) -> map_chars f s = map_chars g s.
Proof.
  intros E. induction s as [|c r IH]; simpl; [reflexivity | now rewrite E, IH].
Qed.

Lemma normalize_as_map city :
  WeatherToS3.normalize_city_for_key city = map_chars norm_char (strip city).
Proof.
  unfold WeatherToS3.normalize_city_for_key, lower, replace_char.
  now rewrite map_chars_compose.
Qed.

Lemma lstrip_head_ok s : head_ok (lstrip s) = true.
Proof.
  induction s as [|c r IH]; simpl; [reflexivity|].
  destruct (is_space c) eqn:E; [exact IH | simpl; now rewrite E].
Qed.

Lemma rstrip_head_ok s : head_ok s = true -> head_ok (rstrip s) = true.
Proof.
  destruct s as [|c r]; simpl; [reflexivity|].
  intros Hc. apply negb_true_iff in Hc.
  destruct (rstrip r); rewrite ?Hc; simpl; now rewrite Hc.
Qed.

Lemma rstrip_last_ok s : last_ok (rstrip s) = true.
Proof.
  induction s as [|c r IH]; simpl; [reflexivity|].
  destruct (rstrip r) as [|c' r'] eqn:E.
  - destruct (is_space c) eqn:Ec; simpl; [reflexivity | now rewrite Ec].
  - exact IH.
Qed.

Lemma lstrip_fixed s : head_ok s = true -> lstrip s = s.
Proof.
  destruct s as [|c r]; simpl; [reflexivity|].
  now destruct (is_space c).
Qed.

Lemma rstrip_fixed s : last_ok s = true -> rstrip s = s.
Proof.
  induction s as [|c r IH]; simpl; [reflexivity|].
  destruct r as [|c' r'].
  - simpl. now destruct (is_space c).
  - intros Hl. rewrite (IH Hl). reflexivity.
Qed.

Lemma strip_fixed s : head_ok s = true -> last_ok s = true -> strip s = s.
Proof.
  intros Hh Hl. unfold strip. now rewrite (lstrip_fixed s Hh), rstrip_fixed.
Qed.

Lemma map_norm_head_ok s :
  head_ok s = true -> head_ok (map_chars norm_char s) = true.
Proof.
  destruct s as [|c r]; simpl; [reflexivity|].
  intros Hc. apply negb_true_iff in Hc.
  now rewrite (norm_char_keeps_nonspace c Hc).
Qed.

Lemma map_norm_last_ok s :
  last_ok s = true -> last_ok (map_chars norm_char s) = true.
Proof.
  induction s as [|c r IH]; simpl; [reflexivity|].
  destruct r as [|c' r'].
  - simpl. intros Hc. apply negb_true_iff in Hc.
    now rewrite (norm_char_keeps_nonspace c Hc).
  - intros Hl. exact (IH Hl).
Qed.

Lemma strip_of_normalized s :
  strip (map_chars norm_char (strip s)) = map_chars norm_char (strip s).
Proof.
  apply strip_fixed.
  - apply map_norm_head_ok. unfold strip. apply rstrip_head_ok, lstrip_head_ok.
  - apply map_norm_last_ok. unfold strip. apply rstrip_last_ok.
Qed.

Lemma normalize_key_idempotent city :
  WeatherToS3.normalize_city_for_key (WeatherToS3.normalize_city_for_key city)
  = WeatherToS3.normalize_city_for_key city.
Proof.
  rewrite (normalize_as_map (WeatherToS3.normalize_city_for_key city)).
  rewrite (normalize_as_map city), strip_of_normalized, map_chars_compose.
  apply map_chars_ext, norm_char_idem.
Qed.

Lemma normalize_key_no_blank city :
  contains " " (WeatherToS3.normalize_city_for_key city) = false.
Proof.
  rewrite normalize_as_map.
  induction (strip city) as [|c r IH]; simpl; [reflexivity|].
  now rewrite norm_char_not_blank, IH.
Qed.

Lemma normalize_key_no_upper city :
  all_chars (fun c => negb (is_upper c))
    (WeatherToS3.normalize_city_for_key city) = true.
Proof.
  rewrite normalize_as_map.
  induction (strip city) as [|c r IH]; simpl; [reflexivity|].
  now rewrite norm_char_not_upper, IH.
Qed.

(** The filter's normalization is the key's, behind the guard
    [if not city]. *)
Lemma normalize_filter_as_key c :
  WeatherAnalytics.normalize_city_for_filter (Some c)
  = if truthy c then Some (WeatherToS3.normalize_city_for_key c) else None.
Proof.
  unfold WeatherAnalytics.normalize_city_for_filter,
    WeatherToS3.normalize_city_for_key.
  now destruct (truthy c).
Qed.

Lemma strip_empty_truthy c : strip c <> "" -> truthy c = true.
Proof. destruct c; [intros Hc; now contradict Hc | reflexivity]. Qed.

Lemma normalize_key_truthy c :
  strip c <> "" -> truthy (WeatherToS3.normalize_city_for_key c) = true.
Proof.
  rewrite normalize_as_map. destruct (strip c); [congruence | reflexivity].
Qed.

End Normalization.

(** ** The city normalization on every string *)

Section UnicodeNormalization.
Import Unicode.
Local Open Scope N_scope.

Lemma in_forms (lo hi step image x : N) :
  step <> 0 ->
  in_stride x lo hi step = true ->
  In (x, image + (x - lo)) (forms (lo, hi, step, image)).
Proof.
  intros Hstep Hin. unfold in_stride in Hin.
  apply andb_true_iff in Hin as [Hin Hmod].
  apply andb_true_iff in Hin as [Hlo Hhi].
  apply N.leb_le in Hlo, Hhi. apply N.eqb_eq in Hmod.
  pose proof (N.div_mod (x - lo) step Hstep) as Hdiv.
  rewrite Hmod, N.add_0_r in Hdiv.
  unfold forms. apply in_map_iff.
  exists (N.to_nat ((x - lo) / step)). rewrite N2Nat.id, <- Hdiv.
  split; [f_equal; lia|].
  apply in_seq. split; [lia|].
  pose proof (N.Div0.div_le_mono (x - lo) (hi - lo) step ltac:(lia)).
  lia.
Qed.

Lemma lowercase_steps :
  forallb (fun '(_, _, step, _) => negb (step =? 0)) lowercase = true.
Proof. vm_compute. reflexivity. Qed.

Lemma lowercase_forms_ok :
  forallb form_ok (flat_map forms lowercase) = true.
Proof. vm_compute. reflexivity. Qed.

(** A character is its own lowercase form, or it is in the table with a
    form that is checked. *)
Lemma to_lower_cases (x : N) :
  to_lower x = x \/ form_ok (x, to_lower x) = true.
Proof.
  unfold to_lower.
  destruct (List.find _ lowercase) as [[[[lo hi] step] image]|] eqn:Hfind;
    [right | now left].
  apply List.find_some in Hfind as [Hentry Hin].
  pose proof lowercase_steps as Hsteps.
  rewrite forallb_forall in Hsteps. specialize (Hsteps _ Hentry).
  cbn in Hsteps. apply negb_true_iff, N.eqb_neq in Hsteps.
  pose proof lowercase_forms_ok as Hok. rewrite forallb_forall in Hok.
  apply Hok, in_flat_map. exists (lo, hi, step, image).
  split; [exact Hentry | now apply in_forms].
Qed.

(** What [lower] puts for a character is left as it is by [lower], is no
    whitespace unless the character is, is a blank only for a blank, and
    is uppercase only when it is the character itself, which has no
    lowercase form. *)
Lemma images_good (x t : N) :
  In t (images x) ->
  fixed t = true
  /\ (isspace x = false -> isspace t = false)
  /\ (t = 0x20 -> x = 0x20)
  /\ (is_upper t = true -> t = x /\ lower_full x = [x] /\ x <> 0x3A3).
Proof.
  unfold images, lower_full.
  destruct (x =? 0x3A3) eqn:Hsigma.
  { intros [<-|[<-|[]]]; repeat split; try discriminate; reflexivity. }
  destruct (x =? 0x130) eqn:Hdot.
  { intros [<-|[<-|[]]]; repeat split; try discriminate; reflexivity. }
  intros [<-|[]].
  apply N.eqb_neq in Hsigma, Hdot.
  destruct (to_lower_cases x) as [Hsame|Hok].
  - rewrite Hsame. unfold fixed. rewrite Hsame, N.eqb_refl.
    apply N.eqb_neq in Hsigma, Hdot. rewrite Hsigma, Hdot.
    apply N.eqb_neq in Hsigma.
    split; [reflexivity|]. split; [auto|]. split; [auto|].
    intros _. now repeat split.
  - unfold form_ok in Hok.
    apply andb_true_iff in Hok as [Hok Hupper].
    apply andb_true_iff in Hok as [Hok Hblank].
    apply andb_true_iff in Hok as [Hfixed Hspace].
    apply negb_true_iff in Hupper, Hblank, Hspace.
    apply N.eqb_neq in Hblank.
    split; [exact Hfixed|]. split; [auto|]. split; [congruence|].
    congruence.
Qed.

Lemma lower_from_images (s : ustring) :
  forall (before : ustring) (t : N),
  In t (lower_from before s) -> exists x, In x s /\ In t (images x).
Proof.
  induction s as [|x after IH]; intros before t; cbn [lower_from]; [intros []|].
  intros Hin. apply in_app_or in Hin as [Hin|Hin].
  - exists x. split; [now left|]. unfold images.
    destruct (x =? 0x3A3); [|exact Hin].
    destruct Hin as [<-|[]]. destruct (final_sigma before after); cbn; auto.
  - destruct (IH _ _ Hin) as (y & Hy & Ht). exists y. split; [now right | exact Ht].
Qed.

Lemma lower_from_fixed (s : ustring) :
  forall before : ustring,
  forallb fixed s = true -> lower_from before s = s.
Proof.
  induction s as [|x after IH]; intros before; cbn [lower_from forallb];
    [reflexivity|].
  intros Hfix. apply andb_true_iff in Hfix as [Hx Hafter].
  rewrite (IH _ Hafter). unfold fixed in Hx.
  apply andb_true_iff in Hx as [Hx Hdot].
  apply andb_true_iff in Hx as [Hsame Hsigma].
  apply negb_true_iff in Hdot, Hsigma. apply N.eqb_eq in Hsame.
  unfold lower_full. now rewrite Hsigma, Hdot, Hsame.
Qed.

Lemma lower_fixed (s : ustring) : forallb fixed (lower s) = true.
Proof.
  apply forallb_forall. intros t Ht.
  destruct (lower_from_images _ _ _ Ht) as (x & _ & Himg).
  now destruct (images_good x t Himg).
Qed.

Lemma lower_idempotent (s : ustring) : lower (lower s) = lower s.
Proof. apply lower_from_fixed, lower_fixed. Qed.

Lemma lower_from_nil (s before : ustring) :
  lower_from before s = [] -> s = [].
Proof.
  destruct s as [|x after]; [reflexivity|]. cbn [lower_from].
  unfold lower_full.
  destruct (x =? 0x3A3); [discriminate|].
  destruct (x =? 0x130); discriminate.
Qed.

Lemma replace_blank_no_blank (s : ustring) : ~ In 0x20 (replace_blank s).
Proof.
  unfold replace_blank. intros Hin. apply in_map_iff in Hin as (x & Hx & _).
  destruct (x =? 0x20) eqn:E; [discriminate|].
  apply N.eqb_neq in E. congruence.
Qed.

Lemma replace_blank_fixed (s : ustring) :
  ~ In 0x20 s -> replace_blank s = s.
Proof.
  unfold replace_blank.
  induction s as [|x r IH]; cbn [map]; [reflexivity|].
  intros Hno. rewrite IH by (intros Hin; apply Hno; now right).
  destruct (x =? 0x20) eqn:E; [|reflexivity].
  apply N.eqb_eq in E. exfalso. apply Hno. now left.
Qed.

Lemma lower_no_blank (s : ustring) : ~ In 0x20 s -> ~ In 0x20 (lower s).
Proof.
  intros Hno Hin.
  destruct (lower_from_images _ _ _ Hin) as (x & Hx & Himg).
  destruct (images_good x _ Himg) as (_ & _ & Hblank & _).
  rewrite (Hblank eq_refl) in Hx. contradiction.
Qed.

Lemma lstrip_starts_ok (s : ustring) : head_ok (lstrip s) = true.
Proof.
  induction s as [|x r IH]; cbn [lstrip]; [reflexivity|].
  destruct (isspace x) eqn:E; [exact IH | cbn [head_ok]; now rewrite E].
Qed.

Lemma rstrip_keeps_start (s : ustring) :
  head_ok s = true -> head_ok (rstrip s) = true.
Proof.
  destruct s as [|x r]; cbn [rstrip head_ok]; [reflexivity|].
  intros Hx. apply negb_true_iff in Hx.
  destruct (rstrip r); rewrite ?Hx; cbn [head_ok]; now rewrite Hx.
Qed.

Lemma rstrip_ends_ok (s : ustring) : last_ok (rstrip s) = true.
Proof.
  induction s as [|x r IH]; cbn [rstrip]; [reflexivity|].
  destruct (rstrip r) as [|y r'] eqn:E.
  - destruct (isspace x) eqn:Ex; cbn [last_ok]; [reflexivity | now rewrite Ex].
  - exact IH.
Qed.

Lemma lstrip_of_stripped (s : ustring) : head_ok s = true -> lstrip s = s.
Proof.
  destruct s as [|x r]; cbn [head_ok lstrip]; [reflexivity|].
  now destruct (isspace x).
Qed.

Lemma rstrip_of_stripped (s : ustring) : last_ok s = true -> rstrip s = s.
Proof.
  induction s as [|x r IH]; cbn [rstrip last_ok]; [reflexivity|].
  destruct r as [|y r'].
  - cbn [rstrip]. now destruct (isspace x).
  - intros Hl. now rewrite (IH Hl).
Qed.

Lemma strip_of_stripped (s : ustring) :
  head_ok s = true -> last_ok s = true -> strip s = s.
Proof.
  intros Hh Hl. unfold strip. now rewrite (lstrip_of_stripped s Hh), rstrip_of_stripped.
Qed.

Lemma strip_ends_ok (s : ustring) :
  head_ok (strip s) = true /\ last_ok (strip s) = true.
Proof.
  unfold strip. split; [apply rstrip_keeps_start, lstrip_starts_ok|].
  apply rstrip_ends_ok.
Qed.

Lemma lstrip_incl (s : ustring) (x : N) : In x (lstrip s) -> In x s.
Proof.
  induction s as [|y r IH]; cbn [lstrip]; [auto|].
  destruct (isspace y); [intros Hin; right; now apply IH | auto].
Qed.

Lemma rstrip_incl (s : ustring) (x : N) : In x (rstrip s) -> In x s.
Proof.
  induction s as [|y r IH]; cbn [rstrip]; [auto|].
  destruct (rstrip r) as [|z r'].
  - destruct (isspace y); [intros [] | intros [<-|[]]; now left].
  - intros [<-|Hin]; [now left | right; now apply IH].
Qed.

Lemma strip_incl (s : ustring) (x : N) : In x (strip s) -> In x s.
Proof. intros Hin. now apply lstrip_incl, rstrip_incl. Qed.

Lemma replace_blank_ends_ok (s : ustring) :
  head_ok s = true -> last_ok s = true ->
  head_ok (replace_blank s) = true /\ last_ok (replace_blank s) = true.
Proof.
  unfold replace_blank. intros Hh Hl. split.
  - destruct s as [|x r]; [reflexivity|]. cbn [map head_ok] in *.
    now destruct (x =? 0x20).
  - clear Hh. induction s as [|x r IH]; [reflexivity|].
    destruct r as [|y r'].
    + cbn [map last_ok] in *. now destruct (x =? 0x20).
    + exact (IH Hl).
Qed.

Lemma last_ok_app (a b : ustring) :
  b <> [] -> last_ok (a ++ b)%list = last_ok b.
Proof.
  intros Hb. induction a as [|x a IH]; [reflexivity|].
  cbn [app last_ok]. rewrite <- IH.
  destruct (a ++ b)%list eqn:E; [|reflexivity].
  apply app_eq_nil in E as [_ ->]. congruence.
Qed.

Lemma last_ok_all (s : ustring) :
  forallb (fun x => negb (isspace x)) s = true -> last_ok s = true.
Proof.
  induction s as [|x r IH]; cbn [forallb last_ok]; [reflexivity|].
  intros Hall. apply andb_true_iff in Hall as [Hx Hr].
  destruct r; [exact Hx | now apply IH].
Qed.

(** What [lower] puts for a character that is no whitespace is not
    empty and holds no whitespace. *)
Lemma chunk_ok (x : N) (before after : ustring) :
  isspace x = false ->
  let chunk :=
    if x =? 0x3A3
    then [if final_sigma before after then 0x3C2 else 0x3C3]
    else lower_full x in
  chunk <> [] /\ forallb (fun t => negb (isspace t)) chunk = true.
Proof.
  intros Hx chunk.
  assert (Hin : forall t, In t chunk -> In t (images x)).
  { subst chunk. unfold images. intros t.
    destruct (x =? 0x3A3); [|auto].
    intros [<-|[]]. destruct (final_sigma before after); cbn; auto. }
  split.
  - subst chunk. unfold lower_full.
    destruct (x =? 0x3A3); [discriminate|].
    destruct (x =? 0x130); discriminate.
  - apply forallb_forall. intros t Ht. apply negb_true_iff.
    now apply (images_good x t (Hin t Ht)).
Qed.

Lemma lower_from_head_ok (s before : ustring) :
  head_ok s = true -> head_ok (lower_from before s) = true.
Proof.
  destruct s as [|x after]; [reflexivity|].
  cbn [lower_from head_ok]. intros Hx. apply negb_true_iff in Hx.
  destruct (chunk_ok x before after Hx) as [Hne Hall].
  destruct (if x =? 0x3A3 then _ else _) as [|t chunk']; [congruence|].
  cbn in Hall |- *. now apply andb_true_iff in Hall as [Ht _].
Qed.

Lemma lower_from_last_ok (s : ustring) :
  forall before : ustring,
  last_ok s = true -> last_ok (lower_from before s) = true.
Proof.
  induction s as [|x after IH]; intros before Hl; [reflexivity|].
  cbn [lower_from].
  destruct after as [|y after'].
  - cbn [lower_from]. rewrite app_nil_r.
    cbn [last_ok] in Hl. apply negb_true_iff in Hl.
    destruct (chunk_ok x before [] Hl) as [_ Hall].
    now apply last_ok_all.
  - rewrite last_ok_app.
    + apply IH. exact Hl.
    + intros E. now apply lower_from_nil in E.
Qed.

(** The normal form of a city is left as it is by each of the three
    steps. *)
Lemma normalize_key_steps (c : ustring) :
  strip (normalize_city_for_key c) = normalize_city_for_key c
  /\ replace_blank (normalize_city_for_key c) = normalize_city_for_key c
  /\ lower (normalize_city_for_key c) = normalize_city_for_key c.
Proof.
  unfold normalize_city_for_key.
  destruct (strip_ends_ok c) as [Hh Hl].
  destruct (replace_blank_ends_ok _ Hh Hl) as [Hh' Hl'].
  split; [|split].
  - apply strip_of_stripped;
      [now apply lower_from_head_ok | now apply lower_from_last_ok].
  - apply replace_blank_fixed, lower_no_blank, replace_blank_no_blank.
  - apply lower_idempotent.
Qed.

Lemma normalize_for_key_idempotent (c : ustring) :
  normalize_city_for_key (normalize_city_for_key c)
  = normalize_city_for_key c.
Proof.
  destruct (normalize_key_steps c) as (Hs & Hr & Hlow).
  unfold normalize_city_for_key at 1. now rewrite Hs, Hr, Hlow.
Qed.

Lemma normalize_for_key_no_blank (c : ustring) :
  ~ In 0x20 (normalize_city_for_key c).
Proof. apply lower_no_blank, replace_blank_no_blank. Qed.

(** An uppercase character of the normal form stands in the city, and
    [lower] leaves it as it is. *)
Lemma normalize_key_upper (c : ustring) (t : N) :
  In t (normalize_city_for_key c) -> is_upper t = true ->
  In t c /\ lower [t] = [t].
Proof.
  unfold normalize_city_for_key. intros Hin Hup.
  destruct (lower_from_images _ _ _ Hin) as (x & Hx & Himg).
  destruct (images_good x t Himg) as (_ & _ & _ & Hupper).
  destruct (Hupper Hup) as (-> & Hfull & Hsigma).
  split.
  - unfold replace_blank in Hx. apply in_map_iff in Hx as (y & Hy & Hin').
    destruct (y =? 0x20); [subst x; discriminate Hup|].
    subst y. now apply strip_incl.
  - unfold lower. cbn [lower_from].
    apply N.eqb_neq in Hsigma. now rewrite Hsigma, Hfull.
Qed.

Lemma latin1_upper_has_lower :
  forallb (fun k => let x := N.of_nat k in
                    negb (is_upper x) || negb (to_lower x =? x))
    (seq 0 256) = true.
Proof. vm_compute. reflexivity. Qed.

Lemma latin1_upper_lowers (x : N) :
  x <= 0xFF -> is_upper x = true -> lower [x] <> [x].
Proof.
  intros Hx Hup.
  pose proof latin1_upper_has_lower as Hall. rewrite forallb_forall in Hall.
  specialize (Hall (N.to_nat x)). rewrite N2Nat.id in Hall. cbn zeta in Hall.
  rewrite Hup in Hall. cbn [negb orb] in Hall.
  assert (Hin : In (N.to_nat x) (seq 0 256)) by (apply in_seq; lia).
  apply Hall, negb_true_iff, N.eqb_neq in Hin.
  unfold lower. cbn [lower_from]. unfold lower_full.
  destruct (x =? 0x3A3) eqn:Hs; [apply N.eqb_eq in Hs; lia|].
  destruct (x =? 0x130) eqn:Hd; [apply N.eqb_eq in Hd; lia|].
  cbn. congruence.
Qed.

Lemma normalize_key_not_nil (c : ustring) :
  strip c <> [] -> normalize_city_for_key c <> [].
Proof.
  unfold normalize_city_for_key, lower. intros Hc E.
  apply lower_from_nil in E. unfold replace_blank in E.
  apply map_eq_nil in E. contradiction.
Qed.

Lemma normalize_for_filter_as_key (c : ustring) :
  c <> [] ->
  normalize_city_for_filter (Some c) = Some (normalize_city_for_key c).
Proof. destruct c; [congruence | reflexivity]. Qed.

(** On the strings of U+0000 .. U+00FF the three methods are those of
    [PyStr]. *)
Ltac by_cases_on_code c :=
  destruct c as [[] [] [] [] [] [] [] []]; vm_compute; reflexivity.

Lemma isspace_code (c : ascii) : isspace (PyStr.code c) = PyStr.is_space c.
Proof. by_cases_on_code c. Qed.

Lemma is_upper_code (c : ascii) : is_upper (PyStr.code c) = PyStr.is_upper c.
Proof. by_cases_on_code c. Qed.

Lemma lower_full_code (c : ascii) :
  (PyStr.code c =? 0x3A3) = false
  /\ lower_full (PyStr.code c) = [PyStr.code (PyStr.lower_char c)].
Proof.
  destruct c as [[] [] [] [] [] [] [] []]; vm_compute; split; reflexivity.
Qed.

Lemma replace_blank_code (c : ascii) :
  (if PyStr.code c =? 0x20 then 0x5F else PyStr.code c)
  = PyStr.code (if Ascii.eqb c " " then "_"%char else c).
Proof. by_cases_on_code c. Qed.

Lemma code_points_lstrip (s : string) :
  code_points (PyStr.lstrip s) = lstrip (code_points s).
Proof.
  induction s as [|c r IH]; cbn [PyStr.lstrip code_points lstrip];
    [reflexivity|].
  rewrite isspace_code. now destruct (PyStr.is_space c).
Qed.

Lemma code_points_rstrip (s : string) :
  code_points (PyStr.rstrip s) = rstrip (code_points s).
Proof.
  induction s as [|c r IH]; cbn [PyStr.rstrip code_points rstrip];
    [reflexivity|].
  rewrite <- IH, isspace_code.
  destruct (PyStr.rstrip r); cbn [code_points];
    [now destruct (PyStr.is_space c) | reflexivity].
Qed.

Lemma code_points_replace (s : string) :
  code_points (PyStr.replace_char " " "_" s) = replace_blank (code_points s).
Proof.
  unfold PyStr.replace_char, replace_blank.
  induction s as [|c r IH]; cbn [PyStr.map_chars code_points map];
    [reflexivity|].
  now rewrite IH, replace_blank_code.
Qed.

Lemma code_points_lower (s : string) :
  forall before : ustring,
  lower_from before (code_points s) = code_points (PyStr.lower s).
Proof.
  unfold PyStr.lower.
  induction s as [|c r IH]; intros before;
    cbn [PyStr.map_chars code_points lower_from]; [reflexivity|].
  destruct (lower_full_code c) as [-> ->]. now rewrite IH.
Qed.

(** On a city of U+0000 .. U+00FF, the normal form is the one
    [WeatherToS3.normalize_city_for_key] computes. *)
Lemma normalize_code_points (city : string) :
  normalize_city_for_key (code_points city)
  = code_points (WeatherToS3.normalize_city_for_key city).
Proof.
  unfold normalize_city_for_key, WeatherToS3.normalize_city_for_key, lower,
    strip, PyStr.strip.
  now rewrite <- code_points_lstrip, <- code_points_rstrip,
    <- code_points_replace, code_points_lower.
Qed.

Lemma normalize_filter_code_points (city : option string) :
  normalize_city_for_filter (option_map code_points city)
  = option_map code_points (WeatherAnalytics.normalize_city_for_filter city).
Proof.
  destruct city as [[|c r]|]; try reflexivity.
  change (normalize_city_for_filter (option_map code_points (Some (String c r))))
    with (Some (normalize_city_for_key (code_points (String c r)))).
  now rewrite normalize_code_points.
Qed.

End UnicodeNormalization.

(** C8 (as the code has it). On every string, normalizing a city for a
    storage key is idempotent, and its result holds no blank (U+0020). An
    uppercase character of the result is one of the city that [str.lower]
    leaves as it is, for want of a lowercase form (U+03D2, say): the
    result holds no uppercase character when every uppercase character of
    the city has a lowercase form, as all those of U+0000 .. U+00FF have.
    The filter's normalization gives [None] for a city that is missing or
    empty and the same normal form for every other: it is idempotent on
    every city that is not made of whitespace only, and the empty result
    of a city made of whitespace only is sent to [None] by a second
    application. *)
Theorem normalize_city_idempotent :
  (forall c : Unicode.ustring,
      Unicode.normalize_city_for_key (Unicode.normalize_city_for_key c)
      = Unicode.normalize_city_for_key c
      /\ ~ In 0x20%N (Unicode.normalize_city_for_key c)
      /\ (forall t : N,
            In t (Unicode.normalize_city_for_key c) ->
            Unicode.is_upper t = true ->
            In t c /\ Unicode.lower [t] = [t])
      /\ ((forall x : N, In x c -> Unicode.is_upper x = true ->
             Unicode.lower [x] <> [x]) ->
          forall t : N,
            In t (Unicode.normalize_city_for_key c) ->
            Unicode.is_upper t = false)
      /\ ((forall x : N, In x c -> (x <= 0xFF)%N) ->
          forall t : N,
            In t (Unicode.normalize_city_for_key c) ->
            Unicode.is_upper t = false))
  /\ Unicode.normalize_city_for_filter None = None
  /\ Unicode.normalize_city_for_filter (Some []) = None
  /\ (forall c : Unicode.ustring,
        c <> [] ->
        Unicode.normalize_city_for_filter (Some c)
        = Some (Unicode.normalize_city_for_key c))
  /\ (forall c : Unicode.ustring,
        Unicode.strip c <> [] ->
        Unicode.normalize_city_for_filter
          (Unicode.normalize_city_for_filter (Some c))
        = Unicode.normalize_city_for_filter (Some c))
  /\ (forall c : Unicode.ustring,
        c <> [] -> Unicode.strip c = [] ->
        Unicode.normalize_city_for_filter (Some c) = Some []
        /\ Unicode.normalize_city_for_filter
             (Unicode.normalize_city_for_filter (Some c))
           = None).
Proof.
  assert (Hupper : forall c : Unicode.ustring,
             (forall x : N, In x c -> Unicode.is_upper x = true ->
                Unicode.lower [x] <> [x]) ->
             forall t : N,
               In t (Unicode.normalize_city_for_key c) ->
               Unicode.is_upper t = false).
  { intros c Hc t Ht.
    destruct (Unicode.is_upper t) eqn:Hup; [exfalso | reflexivity].
    destruct (normalize_key_upper c t Ht Hup) as [Hin Hsame].
    exact (Hc t Hin Hup Hsame). }
  split; [|split; [reflexivity|split; [reflexivity|split; [|split]]]].
  - intros c.
    split; [apply normalize_for_key_idempotent|].
    split; [apply normalize_for_key_no_blank|].
    split; [apply normalize_key_upper|].
    split; [apply Hupper|].
    intros Hc. apply Hupper. intros x Hx.
    now apply latin1_upper_lowers, Hc.
  - apply normalize_for_filter_as_key.
  - intros c Hc.
    assert (Hne : c <> []) by (intros ->; now apply Hc).
    rewrite (normalize_for_filter_as_key c Hne).
    rewrite (normalize_for_filter_as_key _ (normalize_key_not_nil c Hc)).
    now rewrite normalize_for_key_idempotent.
  - intros c Hne Hblank.
    rewrite (normalize_for_filter_as_key c Hne).
    unfold Unicode.normalize_city_for_key. rewrite Hblank.
    split; reflexivity.
Qed.

(** The theorem at the city ["New York"]. *)
Lemma normalize_city_idempotent_witness :
  Unicode.normalize_city_for_filter (Some (Unicode.code_points "New York"))
  = Some (Unicode.code_points "new_york")
  /\ Unicode.normalize_city_for_filter
       (Unicode.normalize_city_for_filter
          (Some (Unicode.code_points "New York")))
     = Some (Unicode.code_points "new_york")
  /\ forall t : N,
       In t (Unicode.normalize_city_for_key (Unicode.code_points "New York")) ->
       Unicode.is_upper t = false.
Proof.
  destruct normalize_city_idempotent as (Hkey & _ & _ & _ & Hidem & _).
  assert (Hstrip : Unicode.strip (Unicode.code_points "New York") <> [])
    by (vm_compute; discriminate).
  split; [vm_compute; reflexivity|].
  split.
  - rewrite (Hidem _ Hstrip). vm_compute. reflexivity.
  - apply (proj2 (proj2 (proj2 (proj2 (Hkey (Unicode.code_points "New York")))))).
    intros x Hx. vm_compute in Hx.
    repeat (destruct Hx as [<-|Hx]; [vm_compute; discriminate|]).
    destruct Hx.
Defined.

(** C8, as stated, fails in two places. U+03D2, the Greek upsilon with
    hook, is an uppercase letter with no lowercase form: it is its own
    normal form. And the filter's normalization is not idempotent on two
    blanks, which it sends to the empty string, and the empty string to
    [None]. *)
Lemma normalize_city_keeps_upsilon_with_hook :
  Unicode.normalize_city_for_key [0x3D2%N] = [0x3D2%N]
  /\ Unicode.is_upper 0x3D2%N = true
  /\ Unicode.normalize_city_for_filter
       (Unicode.normalize_city_for_filter (Some [0x20%N; 0x20%N]))
     <> Unicode.normalize_city_for_filter (Some [0x20%N; 0x20%N]).
Proof. vm_compute. repeat split. discriminate. Qed.

(** The same two blanks in the model of the strings of
    U+0000 .. U+00FF: they normalize to the empty string, and the empty
    string to [None]. *)
Lemma normalize_filter_blank_not_idempotent :
  WeatherAnalytics.normalize_city_for_filter
    (WeatherAnalytics.normalize_city_for_filter (Some "  "))
  <> WeatherAnalytics.normalize_city_for_filter (Some "  ").
Proof. vm_compute. discriminate. Qed.

(** ** The storage key *)

(** The key [build_s3_key] builds, part by part: the time part is the
    letter [H] followed by the minute and the second. *)
Lemma build_s3_key_layout (city : string) (ts : datetime) :
  WeatherToS3.build_s3_key city ts
  = pad4 (year ts) ++ "/" ++ pad2 (month ts) ++ "/" ++ pad2 (day ts) ++ "/"
    ++ WeatherToS3.normalize_city_for_key city
    ++ "_" ++ "H" ++ pad2 (minute ts) ++ pad2 (second ts) ++ ".json".
Proof. reflexivity. Qed.

(** C1 at its example: for ["New York"] at 2026-02-18T14:05:09Z the key
    is [2026/02/18/new_york_H0509.json], not the
    [2026/02/18/new_york_140509.json] of the documented layout. *)
Theorem build_s3_key_new_york :
  WeatherToS3.build_s3_key "New York" (mkDatetime 2026 2 18 14 5 9)
  = "2026/02/18/new_york_H0509.json"
  /\ WeatherToS3.build_s3_key "New York" (mkDatetime 2026 2 18 14 5 9)
     <> "2026/02/18/new_york_140509.json".
Proof. split; [reflexivity | vm_compute; discriminate]. Qed.

(** ** The listing prefix *)

Lemma join_two (sep a b : string) : PyStr.join sep [a; b] = a ++ sep ++ b.
Proof. reflexivity. Qed.

(** C7 (as the code has it). With a date (of a year of four digits) and
    a city, the prefix is the date as [YYYY/MM/DD], one ["/"], the
    normalized city and ["_"]: the date part ends in no slash of its own.
    For ["2026-02-18"] and ["New York"] it is [2026/02/18/new_york_]. *)
Theorem build_prefix_date_and_city (d c : string) (dt : datetime) :
  PyStr.truthy d = true ->
  strptime_ymd d = Some dt ->
  PyStr.truthy c = true ->
  1000 <= year dt ->
  ViewWeatherData.build_prefix_for_date_and_city (Some d) (Some c)
  = Ok (pad4 (year dt) ++ "/" ++ pad2 (month dt) ++ "/" ++ pad2 (day dt)
        ++ "/" ++ WeatherToS3.normalize_city_for_key c ++ "_")
  /\ ViewWeatherData.build_prefix_for_date_and_city
       (Some "2026-02-18") (Some "New York")
     = Ok "2026/02/18/new_york_".
Proof.
  intros Hd Hp Hc _. split; [|reflexivity].
  unfold ViewWeatherData.build_prefix_for_date_and_city,
    ViewWeatherData.date_parts, ViewWeatherData.city_parts.
  rewrite Hd, Hp, Hc. cbn [app]. rewrite join_two. reflexivity.
Qed.

(** The theorem at the date and city of the example. *)
Lemma build_prefix_date_and_city_witness :
  ViewWeatherData.build_prefix_for_date_and_city
    (Some "2026-02-18") (Some "New York")
  = Ok ("2026" ++ "/" ++ "02" ++ "/" ++ "18" ++ "/" ++ "new_york" ++ "_").
Proof.
  exact (proj1 (build_prefix_date_and_city "2026-02-18" "New York"
                  (mkDatetime 2026 2 18 0 0 0) eq_refl eq_refl eq_refl
                  ltac:(simpl; lia))).
Defined.

(** C7, as stated: the prefix is not [2026/02/18//new_york_]. *)
Lemma build_prefix_no_double_slash :
  ViewWeatherData.build_prefix_for_date_and_city
    (Some "2026-02-18") (Some "New York")
  <> Ok "2026/02/18//new_york_".
Proof. vm_compute. discriminate. Qed.

(** ** The city filter of the analytics *)

Lemma lower_char_underscore c :
  Ascii.eqb (PyStr.lower_char c) "_" = Ascii.eqb c "_".
Proof. destruct c as [[] [] [] [] [] [] [] []]; reflexivity. Qed.

Lemma lower_keeps_underscores s :
  PyStr.contains "_" (PyStr.lower s) = PyStr.contains "_" s.
Proof.
  unfold PyStr.lower.
  induction s as [|c r IH]; simpl; [reflexivity|].
  now rewrite lower_char_underscore, IH.
Qed.

Lemma split_first_no_sep sep s :
  PyStr.contains sep (PyStr.split_first sep s) = false.
Proof.
  induction s as [|c r IH]; simpl; [reflexivity|].
  destruct (Ascii.eqb c sep) eqn:E; simpl; [reflexivity | now rewrite E, IH].
Qed.

(** A filter that holds an underscore, as the normal form of every city
    of several words does, lets no key through: the part of the file name
    it is compared with stops at the first underscore. *)
Lemma filter_with_underscore_matches_nothing (f key : string) :
  PyStr.contains "_" f = true ->
  WeatherAnalytics.filtered_out (Some f) key = true.
Proof.
  intros Hf. unfold WeatherAnalytics.filtered_out.
  assert (Ht : PyStr.truthy f = true) by (destruct f; [discriminate | reflexivity]).
  rewrite Ht.
  apply negb_true_iff, String.eqb_neq. intros E.
  rewrite <- E, lower_keeps_underscores, split_first_no_sep in Hf.
  discriminate.
Qed.

(** A filter of one word lets through the keys whose file name starts
    with it, up to the first underscore. *)
Lemma filter_one_word (f key : string) :
  PyStr.truthy f = true ->
  WeatherAnalytics.filtered_out (Some f) key = false
  <-> PyStr.lower (PyStr.split_first "_" (PyStr.rsplit_last "/" key)) = f.
Proof.
  intros Hf. unfold WeatherAnalytics.filtered_out. rewrite Hf.
  rewrite negb_false_iff. apply String.eqb_eq.
Qed.

(** C2 at its example: with the filter ["New York"], the key
    [2026/02/18/new_york_140509.json] is skipped: nothing is downloaded
    and the statistics stay as they were. *)
Theorem new_york_key_is_skipped {W : Type} `{WeatherAnalytics.ObjectStore W}
    (B : Builtins) (bucket : string)
    (city_stats : gmap string WeatherAnalytics.FloatStats) (w : W) :
  WeatherAnalytics.normalize_city_for_filter (Some "New York") = Some "new_york"
  /\ WeatherAnalytics.scan_object B bucket
       (WeatherAnalytics.normalize_city_for_filter (Some "New York"))
       "2026/02/18/new_york_140509.json" city_stats w
     = (Ok city_stats, w).
Proof. split; reflexivity. Qed.

(** ** The weather client: how failures are classified *)

Section Classification.
Import WeatherToS3.

Lemma plain_ok {A : Type} (a : A) : plain (Ok a).
Proof. exact I. Qed.

Lemma plain_bind {A C : Type} (r : result A) (k : A -> result C) :
  plain r -> (forall a, plain (k a)) -> plain (r ≫= k).
Proof. destruct r as [a|e]; simpl; [intros _ Hk; apply Hk | intros He _; exact He]. Qed.

Lemma plain_subscript v k : plain (subscript v k).
Proof. destruct v; simpl; try exact I. now destruct (assoc k fields). Qed.

Lemma plain_get v k d : plain (get v k d).
Proof. destruct v; simpl; try exact I. now destruct (assoc k fields). Qed.

Lemma plain_first_item v : plain (first_item v).
Proof. destruct v as [| | | |s|items|]; simpl; try exact I; [now destruct s | now destruct items]. Qed.

Lemma plain_py_float B v : plain (py_float B v).
Proof.
  destruct v; simpl; try exact I.
  - now destruct (is_infinity (float_of_Z z)).
  - now destruct (float_of_str B s).
Qed.

Lemma plain_py_int B v : plain (py_int B v).
Proof.
  destruct v; simpl; try exact I.
  - now destruct (Prim2SF f) as [| | |[]].
  - now destruct (int_of_str B s).
Qed.

Create HintDb plain_db.
#[local] Hint Resolve plain_ok plain_subscript plain_get plain_first_item
  plain_py_float plain_py_int : plain_db.

Lemma extract_weather_plain B city data now :
  plain (extract_weather B city data now).
Proof.
  unfold extract_weather.
  repeat (apply plain_bind; [try destruct (truthy _); auto with plain_db | intros ?]).
  exact I.
Qed.

(** After a body that decodes, [parse_weather_response] raises nothing
    retriable. *)
Lemma parse_decoded_not_retriable B city resp data now st rt :
  body resp = Ok data ->
  parse_weather_response B city resp now = Raise (WeatherAPIError st rt) ->
  st = None /\ rt = false.
Proof.
  intros Hb. unfold parse_weather_response. rewrite Hb.
  pose proof (extract_weather_plain B city data now) as Hp.
  destruct (extract_weather B city data now) as [wd|[]]; try discriminate;
    try (intros [= <- <-]; now split).
Qed.

Lemma first_item_caught v :
  truthy v = true ->
  match first_item v with
  | Ok _ | Raise KeyError | Raise TypeError => True
  | _ => False
  end.
Proof.
  destruct v as [| | | |s|items|]; simpl; try (intros _; exact I);
    [destruct s | destruct items]; (discriminate || intros _; exact I).
Qed.

Lemma parse_lacking_main_temp B city resp data now :
  body resp = Ok data ->
  lacks_main_temp data ->
  parse_weather_response B city resp now = Raise (WeatherAPIError None false).
Proof.
  intros Hb Hl. unfold parse_weather_response. rewrite Hb.
  destruct data as [| | | | | |fields]; try contradiction.
  unfold extract_weather. simpl in Hl |- *.
  destruct (assoc "main" fields) as [m|]; [|reflexivity].
  destruct m as [| | | | | |main_fields]; try contradiction.
  simpl.
  destruct (assoc "wind" fields); simpl;
    (destruct (assoc "weather" fields) as [wl|]; simpl;
     [ destruct (truthy wl) eqn:Ht;
       [ pose proof (first_item_caught wl Ht) as Hc;
         destruct (first_item wl) as [x|[]]; simpl; try contradiction;
         try reflexivity; now rewrite Hl
       | simpl; now rewrite Hl ]
     | now rewrite Hl ]).
Qed.

(** One fetch of a city, by what the HTTP call did: a transport error,
    a 429 and every 5xx are retriable; every other status outside 2xx is
    not; a 2xx body that is no JSON is retriable; a 2xx body that decodes
    never is, and one that lacks [main] or [main.temp] is a
    non-retriable error. *)
Lemma classification_of_failures {W : Type} `{World W} (B : Builtins)
    (city : string) (config : Config) (w w1 : W) :
  (requests_get city (openweather_api_key config) w = (RequestException, w1) ->
   attempt_fetch B city config w = (Raise (WeatherAPIError None true), w1))
  /\ forall resp : Response,
      requests_get city (openweather_api_key config) w = (Responded resp, w1) ->
      let code := status_code resp in
      (code = 429 ->
       attempt_fetch B city config w
       = (Raise (WeatherAPIError (Some 429) true), w1))
      /\ (500 <= code <= 599 ->
          attempt_fetch B city config w
          = (Raise (WeatherAPIError (Some code) true), w1))
      /\ (~ (200 <= code < 300) -> code <> 429 -> ~ (500 <= code <= 599) ->
          attempt_fetch B city config w
          = (Raise (WeatherAPIError (Some code) false), w1))
      /\ (200 <= code < 300 -> body resp = Raise ValueError ->
          attempt_fetch B city config w
          = (Raise (WeatherAPIError None true), w1))
      /\ (200 <= code < 300 -> forall data, body resp = Ok data ->
          (lacks_main_temp data ->
           attempt_fetch B city config w
           = (Raise (WeatherAPIError None false), w1))
          /\ (forall st rt,
                 attempt_fetch B city config w
                 = (Raise (WeatherAPIError st rt), w1) ->
                 rt = false)).
Proof.
  unfold attempt_fetch, call_openweather_api. split.
  - intros ->. reflexivity.
  - intros resp ->. cbv zeta.
    unfold _classify_retriable.
    repeat split.
    + intros ->. reflexivity.
    + intros Hc.
      replace ((200 <=? status_code resp) && (status_code resp <? 300))
        with false by (symmetry; apply andb_false_iff; lia).
      simpl.
      destruct (status_code resp =? 429) eqn:E; [reflexivity|].
      replace ((500 <=? status_code resp) && (status_code resp <=? 599))
        with true by (symmetry; apply andb_true_iff; lia).
      reflexivity.
    + intros H2 H429 H5.
      replace ((200 <=? status_code resp) && (status_code resp <? 300))
        with false by (symmetry; apply andb_false_iff; lia).
      simpl.
      replace (status_code resp =? 429) with false by lia.
      replace ((500 <=? status_code resp) && (status_code resp <=? 599))
        with false by (symmetry; apply andb_false_iff; lia).
      reflexivity.
    + intros H2 Hb.
      replace ((200 <=? status_code resp) && (status_code resp <? 300))
        with true by (symmetry; apply andb_true_iff; lia).
      simpl. unfold parse_weather_response. now rewrite Hb.
    + intros Hl.
      replace ((200 <=? status_code resp) && (status_code resp <? 300))
        with true by (symmetry; apply andb_true_iff; lia).
      simpl. now rewrite (parse_lacking_main_temp B city resp data _ H1 Hl).
    + intros st rt.
      replace ((200 <=? status_code resp) && (status_code resp <? 300))
        with true by (symmetry; apply andb_true_iff; lia).
      simpl. intros [= Hp].
      now destruct (parse_decoded_not_retriable B city resp data _ st rt H1 Hp).
Qed.

(** C4. A 2xx body that decodes to a report whose ["wind"] is [null]
    lacks the structure [parse_weather_response] expects, and is not
    classified: [wind.get] raises [AttributeError], which is not among
    the exceptions the function turns into its non-retriable
    [WeatherAPIError], and the retry loop takes it in its
    [except Exception] handler after one request. A [null] under ["sys"]
    or ["coord"], which the function reads through [or {}], gives a
    record. *)
Theorem wind_null_is_not_classified (B : Builtins) (city : string)
    (now : datetime) :
  parse_weather_response B city
    {| status_code := 200;
       body := Ok (JObj [("main", JObj [("temp", JFloat 280)]);
                         ("wind", JNull)]) |} now
  = Raise AttributeError
  /\ (exists weather,
        parse_weather_response B city
          {| status_code := 200;
             body := Ok (JObj [("main", JObj [("temp", JFloat 280)]);
                               ("sys", JNull); ("coord", JNull)]) |} now
        = Ok weather)
  /\ fetch_weather_with_retry Demo.builtins "Windless" Demo.config 3 1%float
       (([] : Demo.world), ([] : list Traced.effect))
     = (Unexpected AttributeError,
        ([Demo.Requested "Windless"], [Traced.Request "Windless"])).
Proof.
  split; [reflexivity|]. split; [|vm_compute; reflexivity].
  eexists. reflexivity.
Qed.

End Classification.

(** ** The retry loop *)

Section Retry.
Import WeatherToS3 Traced.
Context {W : Type} `{World W} (B : Builtins).

(** One attempt in a recorded world is the attempt in the world, with
    one request added to the record. *)
Lemma attempt_fetch_traced (city : string) (config : Config) (w : W)
    (log : list effect) :
  attempt_fetch B city config (w, log)
  = (fst (attempt_fetch B city config w),
     (snd (attempt_fetch B city config w), (log ++ [Request city])%list)).
Proof.
  unfold attempt_fetch, call_openweather_api. simpl.
  destruct (requests_get city (openweather_api_key config) w) as [[resp|] w'];
    simpl; [|reflexivity].
  now destruct (negb ((200 <=? status_code resp) && (status_code resp <? 300))).
Qed.

(** C3. Under the retry wrapper with three attempts and a first backoff
    of one second: a first attempt that fails non-retriably is the only
    call made, with no sleep and no record; two retriable failures and a
    success make three requests and two sleeps, of 1 s and then 2 s, and
    the record of the third attempt is returned. *)
Theorem retry_policy (city : string) (config : Config) (log : list effect) :
  (forall (w w1 : W) st,
      attempt_fetch B city config w
      = (Raise (WeatherAPIError st false), w1) ->
      fetch_weather_with_retry B city config 3 1%float (w, log)
      = (Returned None, (w1, log ++ [Request city])%list))
  /\ (forall (w w1 w2 w3 : W) st1 st2 weather,
      attempt_fetch B city config w
      = (Raise (WeatherAPIError st1 true), w1) ->
      attempt_fetch B city config (time_sleep 1%float w1)
      = (Raise (WeatherAPIError st2 true), w2) ->
      attempt_fetch B city config (time_sleep 2%float w2)
      = (Ok weather, w3) ->
      fetch_weather_with_retry B city config 3 1%float (w, log)
      = (Returned (Some weather),
         (w3, log ++ [Request city; Sleep 1%float; Request city;
                      Sleep 2%float; Request city])%list)).
Proof.
  split.
  - intros w w1 st H1.
    unfold fetch_weather_with_retry. change (Z.to_nat 3) with 3%nat.
    cbn [retry_loop].
    rewrite attempt_fetch_traced, H1. reflexivity.
  - intros w w1 w2 w3 st1 st2 weather H1 H2 H3.
    unfold fetch_weather_with_retry. change (Z.to_nat 3) with 3%nat.
    cbn [retry_loop].
    rewrite attempt_fetch_traced, H1. cbn [fst snd negb].
    change (0 + 1 <? 3) with true. cbv iota.
    change (time_sleep 1%float (w1, (log ++ [Request city])%list))
      with (time_sleep 1%float w1,
            ((log ++ [Request city]) ++ [Sleep 1%float])%list).
    rewrite attempt_fetch_traced, H2. cbn [fst snd negb].
    change (0 + 1 + 1 <? 3) with true. cbv iota.
    change (1 * 2)%float with 2%float.
    match goal with
    | |- context [time_sleep 2%float (w2, ?l)] =>
        change (time_sleep 2%float (w2, l))
          with (time_sleep 2%float w2, (l ++ [Sleep 2%float])%list)
    end.
    rewrite attempt_fetch_traced, H3. cbn [fst snd].
    now rewrite <- !app_assoc.
Qed.

End Retry.

(** The theorem in the demonstration world: ["Nowhere"] is refused with a
    404 at once; ["Flaky"] gets two 503s and then its report. *)
Lemma retry_policy_witness :
  WeatherToS3.fetch_weather_with_retry Demo.builtins "Nowhere" Demo.config
    3 1%float ([], [])
  = (WeatherToS3.Returned None,
     ([Demo.Requested "Nowhere"], [Traced.Request "Nowhere"]))
  /\ snd (snd (WeatherToS3.fetch_weather_with_retry Demo.builtins "Flaky"
                 Demo.config 3 1%float ([], [])))
     = [Traced.Request "Flaky"; Traced.Sleep 1%float; Traced.Request "Flaky";
        Traced.Sleep 2%float; Traced.Request "Flaky"].
Proof.
  split.
  - apply (proj1 (retry_policy Demo.builtins "Nowhere" Demo.config [])
             [] [Demo.Requested "Nowhere"] (Some 404)).
    reflexivity.
  - erewrite (proj2 (retry_policy Demo.builtins "Flaky" Demo.config []) []);
      [reflexivity | cbv; reflexivity ..].
Defined.

(** ** The ingestion pipeline *)

Section Accounting.
Import WeatherToS3 Outcomes.
Context {W : Type} `{World W} (B : Builtins) (config : Config).

(** The sleeps of a run with the default arguments are accepted. *)
Lemma default_sleeps_pass :
  sleep_error B 1%float = None /\ sleep_error B (1 * 2)%float = None.
Proof. split; reflexivity. Qed.

(** One turn of the loop of [process_cities] accounts for the outcome of
    its city. *)
Lemma process_city_accounts (city : string) (a : Acc) (w : W) :
  process_city B config city a w
  = match city_outcome B config city w with
    | (Returned o, w') => (Returned (account a (city, o)), w')
    | (Raised e, w') => (Raised e, w')
    | (Unexpected e, w') => (Unexpected e, w')
    end.
Proof.
  unfold process_city, city_outcome.
  destruct (fetch_weather_with_retry B city config 3 1 w)
    as [[[weather|]|e|e] w1]; try reflexivity.
  now destruct (upload_to_s3 B _ _ weather w1) as [[[]|e] w2].
Qed.

Lemma process_loop_accounts (todo : list string) :
  forall (a : Acc) (w : W),
  process_loop B config todo a w
  = match run_outcomes B config todo w with
    | (Returned outs, w') => (Returned (fold_left account outs a), w')
    | (Raised e, w') => (Raised e, w')
    | (Unexpected e, w') => (Unexpected e, w')
    end.
Proof.
  induction todo as [|city rest IH]; intros a w; simpl; [reflexivity|].
  rewrite process_city_accounts.
  destruct (city_outcome B config city w) as [[o|e|e] w1]; try reflexivity.
  rewrite IH.
  now destruct (run_outcomes B config rest w1) as [[outs|e|e] w2].
Qed.

(** The loop over a list of cities in two parts. *)
Lemma process_loop_app (before rest : list string) :
  forall (a : Acc) (w : W),
  process_loop B config (before ++ rest) a w
  = match process_loop B config before a w with
    | (Returned a', w') => process_loop B config rest a' w'
    | (Raised e, w') => (Raised e, w')
    | (Unexpected e, w') => (Unexpected e, w')
    end.
Proof.
  induction before as [|city before IH]; intros a w; simpl; [reflexivity|].
  destruct (process_city B config city a w) as [[a'|e|e] w1];
    [apply IH | reflexivity | reflexivity].
Qed.

(** A report that cannot be encoded ends the loop at its city: the
    exception of [upload_to_s3] is raised out of it, in the world the
    fetch of that city left. *)
Lemma process_loop_raises (before rest : list string) (city : string)
    (a a' : Acc) (weather : WeatherData) (w w0 w1 : W) :
  process_loop B config before a w = (Returned a', w0) ->
  fetch_weather_with_retry B city config 3 1%float w0
  = (Returned (Some weather), w1) ->
  payload_encodes B weather = false ->
  process_loop B config (before ++ city :: rest) a w
  = (Raised UnicodeEncodeError, w1).
Proof.
  intros Hbefore Hfetch Hcode.
  rewrite process_loop_app, Hbefore. cbn [process_loop].
  unfold process_city, upload_to_s3. now rewrite Hfetch, Hcode.
Qed.

End Accounting.

Section Counting.
Import WeatherToS3 Outcomes.

Lemma account_all (outs : list (string * option float)) :
  forall a : Acc,
  let a' := fold_left account outs a in
  acc_failure a' = acc_failure a + Z.of_nat (length (failed_cities outs))
  /\ acc_success a' = acc_success a + Z.of_nat (length (stored_temps outs))
  /\ acc_failures a' = (acc_failures a ++ failed_cities outs)%list
  /\ acc_temps a' = (acc_temps a ++ stored_temps outs)%list.
Proof.
  induction outs as [|[c [t|]] rest IH]; intros a; cbn zeta.
  - cbn. rewrite !app_nil_r. repeat split; lia.
  - cbn [fold_left failed_cities stored_temps].
    destruct (IH (account a (c, Some t))) as (Hf & Hs & Hfs & Hts).
    rewrite Hf, Hs, Hfs, Hts. cbn. rewrite <- !app_assoc.
    repeat split; lia.
  - cbn [fold_left failed_cities stored_temps].
    destruct (IH (account a (c, None))) as (Hf & Hs & Hfs & Hts).
    rewrite Hf, Hs, Hfs, Hts. cbn. rewrite <- !app_assoc.
    repeat split; lia.
Qed.

Lemma outcomes_split (outs : list (string * option float)) :
  length outs = (length (failed_cities outs) + length (stored_temps outs))%nat.
Proof.
  induction outs as [|[c [t|]] rest IH]; simpl; lia.
Qed.

End Counting.

Section Contained.
Import WeatherToS3 Outcomes.
Context {W : Type} `{World W} (B : Builtins) (config : Config).

(** Every attempt ends in a report or in a [WeatherAPIError], and every
    report can be encoded. *)
Hypothesis attempts_handled :
  forall (city : string) (w : W),
    handled (fst (attempt_fetch B city config w)) = true.
Hypothesis payloads_encode :
  forall payload : WeatherData, payload_encodes B payload = true.

Lemma fetch_returns (city : string) (w : W) :
  exists r w',
    fetch_weather_with_retry B city config 3 1%float w = (Returned r, w').
Proof using attempts_handled.
  unfold fetch_weather_with_retry. change (Z.to_nat 3) with 3%nat.
  cbn [retry_loop].
  pose proof (attempts_handled city w) as Hh.
  destruct (attempt_fetch B city config w) as [[weather|e] w1]; simpl in Hh;
    [now exists (Some weather), w1|].
  destruct e; try discriminate.
  destruct retriable; cbn [negb]; [|now exists None, w1].
  change (0 + 1 <? 3) with true. cbv iota.
  rewrite (proj1 (default_sleeps_pass B)).
  pose proof (attempts_handled city (time_sleep 1 w1)) as Hh2.
  destruct (attempt_fetch B city config (time_sleep 1 w1))
    as [[weather|e] w2]; simpl in Hh2; [now exists (Some weather), w2|].
  destruct e; try discriminate.
  destruct retriable; cbn [negb]; [|now exists None, w2].
  change (0 + 1 + 1 <? 3) with true. cbv iota.
  rewrite (proj2 (default_sleeps_pass B)).
  pose proof (attempts_handled city (time_sleep (1 * 2) w2)) as Hh3.
  destruct (attempt_fetch B city config (time_sleep (1 * 2) w2))
    as [[weather|e] w3]; simpl in Hh3; [now exists (Some weather), w3|].
  destruct e; try discriminate.
  destruct retriable; cbn [negb]; [|now exists None, w3].
  change (0 + 1 + 1 + 1 <? 3) with false. cbv iota.
  now exists None, w3.
Qed.

Lemma city_outcome_defined (city : string) (w : W) :
  exists o w', city_outcome B config city w = (Returned o, w').
Proof using attempts_handled payloads_encode.
  unfold city_outcome.
  destruct (fetch_returns city w) as (r & w1 & ->).
  destruct r as [weather|]; [|now exists None, w1].
  unfold upload_to_s3. rewrite payloads_encode. cbn [negb].
  destruct (put_object _ _ weather w1) as [[] w2]; eauto.
Qed.

Lemma run_outcomes_defined (todo : list string) :
  forall w : W,
  exists outs w',
    run_outcomes B config todo w = (Returned outs, w') /\ map fst outs = todo.
Proof using attempts_handled payloads_encode.
  induction todo as [|city rest IH]; intros w; simpl.
  - now exists [], w.
  - destruct (city_outcome_defined city w) as (o & w1 & ->).
    destruct (IH w1) as (outs & w2 & -> & Hm).
    exists ((city, o) :: outs), w2. simpl. now rewrite Hm.
Qed.

(** A run in which nothing leaves the loop visits every city, in order,
    and counts each one once: as a success when it was stored, as a
    failure, under its name, when its fetch or its upload failed. *)
Lemma contained_run_is_counted (w : W) :
  exists outs summary w',
    run_outcomes B config (cities config) w = (Returned outs, w')
    /\ process_cities B config w = (Returned summary, w')
    /\ map fst outs = cities config
    /\ total_cities summary = Z.of_nat (length (cities config))
    /\ failure_count summary = Z.of_nat (length (failed_cities outs))
    /\ success_count summary + failure_count summary = total_cities summary
    /\ failures summary = failed_cities outs.
Proof using attempts_handled payloads_encode.
  destruct (run_outcomes_defined (cities config) w)
    as (outs & w' & Hrun & Hmap).
  pose proof (account_all outs
                {| acc_success := 0; acc_failure := 0;
                   acc_temps := []; acc_failures := [] |}) as Hacc.
  cbn zeta in Hacc. cbn [acc_success acc_failure acc_temps acc_failures] in Hacc.
  destruct Hacc as (Hf & Hs & Hfs & Hts).
  assert (Hlen : length (cities config)
                 = (length (failed_cities outs) + length (stored_temps outs))%nat).
  { rewrite <- Hmap, length_map. apply outcomes_split. }
  exists outs. eexists. exists w'.
  split; [exact Hrun|].
  split; [unfold process_cities; now rewrite process_loop_accounts, Hrun|].
  split; [exact Hmap|].
  unfold summarize. cbn zeta.
  cbn [total_cities success_count failure_count failures].
  rewrite Hf, Hs, Hfs. cbn [app].
  repeat split; try lia; try reflexivity.
Qed.

End Contained.

Section Aborted.
Import WeatherToS3 Outcomes.
Context {W : Type} `{World W} (B : Builtins).

(** C5. A city whose report cannot be encoded ends the run:
    [upload_to_s3] encodes the payload before its [try], the
    [UnicodeEncodeError] leaves it and [process_cities] with it, in the
    world the fetch of that city left; no summary is returned, and the
    cities after it are not processed. *)
Theorem unencodable_report_ends_the_run (config : Config)
    (before rest : list string) (city : string) (a : Acc)
    (weather : WeatherData) (w w0 w1 : W) :
  cities config = (before ++ city :: rest)%list ->
  process_loop B config before
    {| acc_success := 0; acc_failure := 0; acc_temps := [];
       acc_failures := [] |} w
  = (Returned a, w0) ->
  fetch_weather_with_retry B city config 3 1%float w0
  = (Returned (Some weather), w1) ->
  payload_encodes B weather = false ->
  upload_to_s3 B (s3_bucket_name config)
    (build_s3_key city (datetime_now w1)) weather w1
  = (Raise UnicodeEncodeError, w1)
  /\ process_cities B config w = (Raised UnicodeEncodeError, w1).
Proof.
  intros Hcities Hbefore Hfetch Hcode. split.
  - unfold upload_to_s3. now rewrite Hcode.
  - unfold process_cities. rewrite Hcities.
    now rewrite (process_loop_raises B config before rest city _ a weather
                   w w0 w1 Hbefore Hfetch Hcode).
Qed.

(** C6. Past the configuration and the client, [main] does not return
    when a report cannot be encoded: the [UnicodeEncodeError] of
    [upload_to_s3] leaves [process_cities] and [main], which catches
    nothing around it. No status is returned from a summary, and the
    cities after that one are not processed. *)
Theorem main_is_left_by_an_encoding_error (env : gmap string string)
    (config : Config) (before rest : list string) (city : string) (a : Acc)
    (weather : WeatherData) (w w0 w1 : W) :
  load_env_config env = Ok config ->
  boto3_client w = true ->
  cities config = (before ++ city :: rest)%list ->
  process_loop B config before
    {| acc_success := 0; acc_failure := 0; acc_temps := [];
       acc_failures := [] |} w
  = (Returned a, w0) ->
  fetch_weather_with_retry B city config 3 1%float w0
  = (Returned (Some weather), w1) ->
  payload_encodes B weather = false ->
  main B env w = (Raised UnicodeEncodeError, w1).
Proof.
  intros Hconfig Hclient Hcities Hbefore Hfetch Hcode.
  unfold main. rewrite Hconfig, Hclient. cbn [negb].
  unfold process_cities. rewrite Hcities.
  now rewrite (process_loop_raises B config before rest city _ a weather
                 w w0 w1 Hbefore Hfetch Hcode).
Qed.

End Aborted.

(** The theorems in the demonstration world, run with its record of
    calls: of ["London"], ["Garbled"] and ["Paris"], the first is stored,
    the report of the second cannot be encoded, and the third is never
    requested. *)
Lemma unencodable_report_ends_the_run_witness :
  WeatherToS3.process_cities Demo.builtins Demo.garbled_config
    (([] : Demo.world), ([] : list Traced.effect))
  = (WeatherToS3.Raised UnicodeEncodeError,
     ([Demo.Requested "London";
       Demo.Put "2026/02/18/london_H0509.json" true;
       Demo.Requested "Garbled"],
      [Traced.Request "London";
       Traced.PutObject "2026/02/18/london_H0509.json";
       Traced.Request "Garbled"])).
Proof.
  refine (proj2 (unencodable_report_ends_the_run Demo.builtins
                   Demo.garbled_config ["London"] ["Paris"] "Garbled"
                   _ _ _ _ _ eq_refl _ _ _)).
  - vm_compute. reflexivity.
  - vm_compute. reflexivity.
  - vm_compute. reflexivity.
Defined.

Lemma main_is_left_by_an_encoding_error_witness :
  WeatherToS3.main Demo.builtins Demo.garbled_environment
    (([] : Demo.world), ([] : list Traced.effect))
  = (WeatherToS3.Raised UnicodeEncodeError,
     ([Demo.Requested "London";
       Demo.Put "2026/02/18/london_H0509.json" true;
       Demo.Requested "Garbled"],
      [Traced.Request "London";
       Traced.PutObject "2026/02/18/london_H0509.json";
       Traced.Request "Garbled"])).
Proof.
  refine (main_is_left_by_an_encoding_error
            (W := (Demo.world * list Traced.effect)%type) Demo.builtins
            Demo.garbled_environment Demo.garbled_config
            ["London"] ["Paris"] "Garbled" _ _ ([], []) _ _
            _ eq_refl eq_refl _ _ _).
  - vm_compute. reflexivity.
  - vm_compute. reflexivity.
  - vm_compute. reflexivity.
  - vm_compute. reflexivity.
Defined.

(** The scenario of the specification: of three cities, one is always
    answered by a 500. It is requested three times, with sleeps of 1 s
    and 2 s in between; the other two are stored. *)
Example one_city_in_three_fails :
  let config := {| WeatherToS3.openweather_api_key := "k";
                   WeatherToS3.s3_bucket_name := "weather";
                   WeatherToS3.cities := ["London"; "City500"; "Paris"];
                   WeatherToS3.s3_log_prefix := None |} in
  let run := WeatherToS3.process_cities Demo.builtins config
               (([] : Demo.world), ([] : list Traced.effect)) in
  (exists s,
      fst run = WeatherToS3.Returned s
      /\ (WeatherToS3.total_cities s, WeatherToS3.success_count s,
          WeatherToS3.failure_count s, WeatherToS3.failures s)
         = (3, 2, 1, ["City500"]))
  /\ snd (snd run)
     = [Traced.Request "London";
        Traced.PutObject "2026/02/18/london_H0509.json";
        Traced.Request "City500"; Traced.Sleep 1%float;
        Traced.Request "City500"; Traced.Sleep 2%float;
        Traced.Request "City500";
        Traced.Request "Paris";
        Traced.PutObject "2026/02/18/paris_H0509.json"].
Proof. vm_compute. split; [eexists; split; reflexivity | reflexivity]. Qed.

(** The summary of the run of the demonstration configuration,
    computed. *)
Example demo_summary :
  fst (WeatherToS3.process_cities Demo.builtins Demo.config [])
  = WeatherToS3.Returned
      {| WeatherToS3.total_cities := 3;
         WeatherToS3.success_count := 1;
         WeatherToS3.failure_count := 2;
         WeatherToS3.min_temp_c := Some (293.15 - 273.15)%float;
         WeatherToS3.max_temp_c := Some (293.15 - 273.15)%float;
         WeatherToS3.avg_temp_c := Some (293.15 - 273.15)%float;
         WeatherToS3.failures := ["City500"; "Atlantis"] |}.
Proof. vm_compute. reflexivity. Qed.

(** ** Folding temperatures into [CityStats] *)

(** The count of a fold is the number of values fed. *)
Lemma fold_count {T : Type} (add : T -> T -> T) (lt : T -> T -> bool)
    (l : list T) :
  forall s : WeatherAnalytics.CityStats T,
  WeatherAnalytics.count (fold_left (WeatherAnalytics.update_stats add lt) l s)
  = WeatherAnalytics.count s + Z.of_nat (length l).
Proof.
  induction l as [|x l IH]; intros s; simpl fold_left.
  - simpl. lia.
  - rewrite IH. cbn [WeatherAnalytics.update_stats WeatherAnalytics.count length].
    lia.
Qed.

(** The arrangements of three items. *)
Lemma permutations_of_three {A : Type} (a b c : A) (l : list A) :
  Permutation [a; b; c] l ->
  l = [a; b; c] \/ l = [a; c; b] \/ l = [b; a; c]
  \/ l = [b; c; a] \/ l = [c; a; b] \/ l = [c; b; a].
Proof.
  intros P.
  destruct (Permutation_vs_cons_inv (Permutation_sym P)) as (l1 & l2 & ->).
  apply Permutation_cons_app_inv in P.
  apply Permutation_length_2_inv in P.
  destruct l1 as [|x [|y [|z l1]]]; simpl in P |- *;
    destruct P as [P|P]; simplify_eq; tauto.
Qed.

(** ** Which bucket a stored report is counted in *)

Section Grouping.
Import WeatherAnalytics.
Context {W : Type} `{ObjectStore W} (B : Builtins).

(** C10. A report that is downloaded (its key passes the filter and it
    decodes to a JSON object) and has a numeric temperature is added to
    the bucket named by its own ["city"] field: that string when it is a
    non-empty string, ["unknown"] when the field is missing, null or
    empty. Neither the key nor the filter takes part in the name. The
    bucket of that name gains the temperature: one more in its count,
    the temperature added to its sum, its minimum and maximum brought up
    to date; a name seen for the first time starts from an empty bucket;
    and every other bucket is left as it was. A report without a numeric
    temperature is counted nowhere. *)
Theorem aggregate_groups_by_record_city (bucket key : string)
    (city_filter : option string) (fields : list (string * json))
    (temp : json) (city_stats : gmap string FloatStats) (w w1 : W) :
  filtered_out city_filter key = false ->
  fetch_json bucket key w = (Ok (Some (JObj fields)), w1) ->
  assoc "temperature_c" fields = Some temp ->
  let name :=
    match assoc "city" fields with
    | Some (JStr s) => if PyStr.truthy s then s else "unknown"
    | Some JNull | None => "unknown"
    | Some v => if truthy v then repr B v else "unknown"
    end in
  (forall t : float,
      is_number temp = true ->
      py_float B temp = Ok t ->
      exists (city_stats' : gmap string FloatStats) (grown : FloatStats),
        scan_object B bucket city_filter key city_stats w
        = (Ok city_stats', w1)
        /\ (forall other, other <> name ->
              city_stats' !! other = city_stats !! other)
        /\ city_stats' !! name = Some grown
        /\ match city_stats !! name with
           | Some old =>
               count grown = count old + 1
               /\ temp_sum grown = (temp_sum old + t)%float
               /\ temp_min grown
                  = match temp_min old with
                    | None => Some t
                    | Some m => if PrimFloat.ltb t m then Some t else Some m
                    end
               /\ temp_max grown
                  = match temp_max old with
                    | None => Some t
                    | Some m => if PrimFloat.ltb m t then Some t else Some m
                    end
           | None => grown = mkCityStats 1 (0 + t)%float (Some t) (Some t)
           end)
  /\ (is_number temp = false ->
      scan_object B bucket city_filter key city_stats w = (Ok city_stats, w1)).
Proof.
  intros Hpass Hdoc Htemp name.
  assert (Hname : forall v, get (JObj fields) "city" JNull = Ok v ->
            py_str B (or_else v (JStr "unknown")) = name).
  { simpl. subst name. intros v.
    destruct (assoc "city" fields) as [c|]; intros [= <-]; [|reflexivity].
    destruct c as [| | | |s| |]; try reflexivity; unfold or_else;
      try (destruct (truthy _); reflexivity).
    simpl. now destruct (PyStr.truthy s). }
  assert (Htruthy : truthy (JObj fields) = true)
    by (destruct fields; [discriminate | reflexivity]).
  unfold scan_object. rewrite Hpass, Hdoc. unfold record_doc.
  rewrite Htruthy. cbn [negb].
  assert (Hget : get (JObj fields) "temperature_c" JNull = Ok temp)
    by (simpl; now rewrite Htemp).
  rewrite Hget.
  destruct (get (JObj fields) "city" JNull) as [v|e] eqn:Hcity;
    [|simpl in Hcity; destruct (assoc "city" fields); discriminate].
  cbn [mbind result_bind Py.bind]. rewrite (Hname v eq_refl).
  split.
  - intros t Hnum Hfloat. rewrite Hnum, Hfloat.
    cbn [negb mbind result_bind Py.bind].
    eexists. eexists. split; [reflexivity|].
    split; [intros other Hother; now rewrite lookup_insert_ne|].
    split; [apply lookup_insert_eq|].
    unfold bucket_of.
    destruct (city_stats !! name) as [old|]; cbn [default from_option id].
    + now repeat split.
    + reflexivity.
  - intros Hnum. now rewrite Hnum.
Qed.

End Grouping.

(** The theorem in the demonstration store: under the filter ["london"],
    the report filed as [london_140509.json] is counted under
    ["London"], the name it carries, where one report of 18 degrees was
    counted before: the bucket then holds two. *)
Lemma aggregate_groups_by_record_city_witness :
  exists (city_stats' : gmap string WeatherAnalytics.FloatStats)
    (grown : WeatherAnalytics.FloatStats),
    WeatherAnalytics.scan_object Demo.builtins "weather"
      (WeatherAnalytics.normalize_city_for_filter (Some "london"))
      Demo.stored_key
      (<["London" := WeatherAnalytics.mkCityStats 1 18%float
                       (Some 18%float) (Some 18%float)]> ∅) tt
    = (Ok city_stats', tt)
    /\ city_stats' !! "London" = Some grown
    /\ WeatherAnalytics.count grown = 2
    /\ WeatherAnalytics.temp_sum grown = 38%float
    /\ WeatherAnalytics.temp_min grown = Some 18%float
    /\ WeatherAnalytics.temp_max grown = Some 20%float.
Proof.
  assert (Hpass : WeatherAnalytics.filtered_out (Some "london")
                    Demo.stored_key = false) by reflexivity.
  assert (Hdoc : WeatherAnalytics.fetch_json "weather" Demo.stored_key tt
                 = (Ok (Some (JObj [("city", JStr "London");
                                    ("temperature_c", JFloat 20)])), tt))
    by reflexivity.
  destruct (proj1 (aggregate_groups_by_record_city Demo.builtins "weather"
                     Demo.stored_key (Some "london")
                     [("city", JStr "London"); ("temperature_c", JFloat 20)]
                     (JFloat 20)
                     (<["London" := WeatherAnalytics.mkCityStats 1 18%float
                                      (Some 18%float) (Some 18%float)]> ∅)
                     tt tt Hpass Hdoc eq_refl)
                  20%float eq_refl eq_refl)
    as (city_stats' & grown & Hscan & _ & Hgrown & Hold).
  exists city_stats', grown. split; [exact Hscan|]. split; [exact Hgrown|].
  cbn in Hold.
  change ((<["London" := WeatherAnalytics.mkCityStats 1 18%float
                           (Some 18%float) (Some 18%float)]>
             (∅ : gmap string WeatherAnalytics.FloatStats)) !! "London")
    with (Some (WeatherAnalytics.mkCityStats 1 18%float
                  (Some 18%float) (Some 18%float))) in Hold.
  destruct Hold as (Hc & Hs & Hmin & Hmax).
  rewrite Hc, Hs, Hmin, Hmax. repeat split.
Defined.

(** ** The order of floats *)

Section FloatOrder.

Ltac by_comparisons :=
  change (Pos.compare_cont Eq) with Pos.compare in *;
  repeat match goal with
    | H : context [Z.compare ?a ?b] |- _ =>
        destruct (Z.compare_spec a b); simpl in H
    | |- context [Z.compare ?a ?b] => destruct (Z.compare_spec a b); simpl
    | H : context [Pos.compare ?a ?b] |- _ =>
        destruct (Pos.compare_spec a b); simpl in H
    | |- context [Pos.compare ?a ?b] => destruct (Pos.compare_spec a b); simpl
    end;
  subst; try discriminate; try reflexivity; try lia.

Lemma SFltb_irrefl (x : spec_float) : SFltb x x = false.
Proof.
  unfold SFltb. destruct x as [s|s| |s m e]; simpl; try reflexivity;
    destruct s; simpl; try reflexivity; by_comparisons.
Qed.

Lemma SFltb_trans (x y z : spec_float) :
  SFltb x y = true -> SFltb y z = true -> SFltb x z = true.
Proof.
  unfold SFltb.
  destruct x as [sx|sx| |sx mx ex], y as [sy|sy| |sy my ey],
    z as [sz|sz| |sz mz ez]; simpl;
    try destruct sx; try destruct sy; try destruct sz; simpl;
    try discriminate; try reflexivity; intros Hxy Hyz; by_comparisons.
Qed.

Lemma SFcompare_antisym (x y : spec_float) :
  SFcompare y x = option_map CompOpp (SFcompare x y).
Proof.
  destruct x as [sx|sx| |sx mx ex], y as [sy|sy| |sy my ey]; simpl;
    try destruct sx; try destruct sy; simpl; try reflexivity;
    by_comparisons.
Qed.

Lemma SFcompare_defined (x y : spec_float) :
  SFeqb x x = true -> SFeqb y y = true -> exists c, SFcompare x y = Some c.
Proof.
  destruct x as [sx|sx| |sx mx ex]; try discriminate;
    destruct y as [sy|sy| |sy my ey]; try discriminate; intros _ _;
    simpl; eauto.
Qed.

Lemma SF_weakly_total (x y : spec_float) :
  SFeqb x x = true -> SFeqb y y = true ->
  SFltb x y = false -> SFltb y x = false -> SFeqb x y = true.
Proof.
  intros Hx Hy. destruct (SFcompare_defined x y Hx Hy) as (c & Hc).
  unfold SFeqb, SFltb. rewrite (SFcompare_antisym x y), Hc.
  destruct c; simpl; congruence.
Qed.

Lemma float_ltb_irrefl (a : float) : PrimFloat.ltb a a = false.
Proof. rewrite FloatAxioms.ltb_spec. apply SFltb_irrefl. Qed.

Lemma float_ltb_trans (a b c : float) :
  PrimFloat.ltb a b = true -> PrimFloat.ltb b c = true ->
  PrimFloat.ltb a c = true.
Proof. rewrite !FloatAxioms.ltb_spec. apply SFltb_trans. Qed.

(** Two floats that are no NaN and of which neither is below the other
    are equal (as [==] has it: the two zeros are). *)
Lemma float_weakly_total (a b : float) :
  is_nan a = false -> is_nan b = false ->
  PrimFloat.ltb a b = false -> PrimFloat.ltb b a = false ->
  PrimFloat.eqb a b = true.
Proof.
  unfold is_nan. intros Ha Hb.
  apply negb_false_iff in Ha, Hb.
  rewrite FloatAxioms.eqb_spec in Ha, Hb.
  rewrite !FloatAxioms.ltb_spec, FloatAxioms.eqb_spec.
  now apply SF_weakly_total.
Qed.

End FloatOrder.

(** ** The running minimum and maximum *)

Section Extremes.
Import WeatherAnalytics.
Context {T : Type} (zero : T) (add : T -> T -> T) (lt : T -> T -> bool).

Hypothesis lt_irrefl : forall a, lt a a = false.
Hypothesis lt_trans :
  forall a b c, lt a b = true -> lt b c = true -> lt a c = true.

Lemma update_keeps_least (seen : list T) (s : CityStats T) (x : T) :
  least_in lt seen (temp_min s) ->
  least_in lt (seen ++ [x]) (temp_min (update_stats add lt s x)).
Proof using lt_irrefl lt_trans.
  unfold least_in, update_stats. cbn [temp_min].
  destruct (temp_min s) as [m|].
  - intros [Hin Hle]. destruct (lt x m) eqn:Hxm.
    + split; [apply in_or_app; right; now left|].
      intros y Hy. apply in_app_or in Hy. destruct Hy as [Hy|[<-|[]]].
      * destruct (lt y x) eqn:Hyx; [|reflexivity].
        now rewrite <- (Hle y Hy), (lt_trans y x m Hyx Hxm).
      * apply lt_irrefl.
    + split; [apply in_or_app; now left|].
      intros y Hy. apply in_app_or in Hy. destruct Hy as [Hy|[<-|[]]].
      * now apply Hle.
      * exact Hxm.
  - intros ->. split; [now left|].
    intros y [<-|[]]. apply lt_irrefl.
Qed.

Lemma update_keeps_greatest (seen : list T) (s : CityStats T) (x : T) :
  greatest_in lt seen (temp_max s) ->
  greatest_in lt (seen ++ [x]) (temp_max (update_stats add lt s x)).
Proof using lt_irrefl lt_trans.
  unfold greatest_in, update_stats. cbn [temp_max].
  destruct (temp_max s) as [m|].
  - intros [Hin Hle]. destruct (lt m x) eqn:Hmx.
    + split; [apply in_or_app; right; now left|].
      intros y Hy. apply in_app_or in Hy. destruct Hy as [Hy|[<-|[]]].
      * destruct (lt x y) eqn:Hxy; [|reflexivity].
        now rewrite <- (Hle y Hy), (lt_trans m x y Hmx Hxy).
      * apply lt_irrefl.
    + split; [apply in_or_app; now left|].
      intros y Hy. apply in_app_or in Hy. destruct Hy as [Hy|[<-|[]]].
      * now apply Hle.
      * exact Hmx.
  - intros ->. split; [now left|].
    intros y [<-|[]]. apply lt_irrefl.
Qed.

Lemma fold_keeps_extremes (l : list T) :
  forall (seen : list T) (s : CityStats T),
  least_in lt seen (temp_min s) -> greatest_in lt seen (temp_max s) ->
  least_in lt (seen ++ l) (temp_min (fold_left (update_stats add lt) l s))
  /\ greatest_in lt (seen ++ l) (temp_max (fold_left (update_stats add lt) l s)).
Proof using lt_irrefl lt_trans.
  induction l as [|x l IH]; intros seen s Hmin Hmax; simpl fold_left.
  - now rewrite app_nil_r.
  - replace (seen ++ x :: l)%list with ((seen ++ [x]) ++ l)%list
      by now rewrite <- app_assoc.
    apply IH; [now apply update_keeps_least | now apply update_keeps_greatest].
Qed.

Lemma fold_stats_extremes (l : list T) :
  least_in lt l (temp_min (fold_stats zero add lt l))
  /\ greatest_in lt l (temp_max (fold_stats zero add lt l)).
Proof using lt_irrefl lt_trans.
  apply (fold_keeps_extremes l [] (new_stats zero)); reflexivity.
Qed.

End Extremes.

Lemma float_extremes_permutation (l l' : list float) :
  Permutation l l' ->
  Forall (fun x => is_nan x = false) l ->
  same_float (WeatherAnalytics.temp_min (WeatherAnalytics.fold_float_stats l))
    (WeatherAnalytics.temp_min (WeatherAnalytics.fold_float_stats l')) = true
  /\ same_float (WeatherAnalytics.temp_max (WeatherAnalytics.fold_float_stats l))
       (WeatherAnalytics.temp_max (WeatherAnalytics.fold_float_stats l')) = true.
Proof.
  intros P Hnan. rewrite List.Forall_forall in Hnan.
  unfold WeatherAnalytics.fold_float_stats.
  destruct (fold_stats_extremes 0%float PrimFloat.add PrimFloat.ltb
              float_ltb_irrefl float_ltb_trans l) as [Hmin Hmax].
  destruct (fold_stats_extremes 0%float PrimFloat.add PrimFloat.ltb
              float_ltb_irrefl float_ltb_trans l') as [Hmin' Hmax'].
  unfold least_in in Hmin, Hmin'. unfold greatest_in in Hmax, Hmax'.
  assert (Hin : forall x, In x l' -> In x l)
    by (intros x; apply Permutation_in; now symmetry).
  assert (Hin' : forall x, In x l -> In x l')
    by (intros x; now apply Permutation_in).
  split.
  - destruct (WeatherAnalytics.temp_min _) as [m|],
      (WeatherAnalytics.temp_min _) as [m'|]; simpl.
    + destruct Hmin as [Hm Hle], Hmin' as [Hm' Hle'].
      apply float_weakly_total;
        [apply Hnan, Hm | apply Hnan, Hin, Hm'
        | apply Hle', Hin', Hm | apply Hle, Hin, Hm'].
    + subst l'. destruct Hmin as [Hm _]. destruct (Hin' m Hm).
    + subst l. destruct Hmin' as [Hm' _]. destruct (Hin m' Hm').
    + reflexivity.
  - destruct (WeatherAnalytics.temp_max _) as [m|],
      (WeatherAnalytics.temp_max _) as [m'|]; simpl.
    + destruct Hmax as [Hm Hle], Hmax' as [Hm' Hle'].
      apply float_weakly_total;
        [apply Hnan, Hm | apply Hnan, Hin, Hm'
        | apply Hle, Hin, Hm' | apply Hle', Hin', Hm].
    + subst l'. destruct Hmax as [Hm _]. destruct (Hin' m Hm).
    + subst l. destruct Hmax' as [Hm' _]. destruct (Hin m' Hm').
    + reflexivity.
Qed.

(** C9 (as the code has it). On the floats the script runs on, folding
    temperatures into a [CityStats] is order-independent in the count, for
    every list, and in the minimum and the maximum for every list that
    holds no NaN (up to [==], which equates the two zeros); the sum, and
    with it the average, is not. The values 10, 20 and 30 give count 3,
    sum 60, minimum 10, maximum 30 and average 20 in each of their six
    orders. *)
Theorem city_stats_fold_order :
  (forall l l' : list float,
      Permutation l l' ->
      WeatherAnalytics.count (WeatherAnalytics.fold_float_stats l)
      = WeatherAnalytics.count (WeatherAnalytics.fold_float_stats l')
      /\ (Forall (fun x => is_nan x = false) l ->
          same_float
            (WeatherAnalytics.temp_min (WeatherAnalytics.fold_float_stats l))
            (WeatherAnalytics.temp_min (WeatherAnalytics.fold_float_stats l'))
          = true
          /\ same_float
               (WeatherAnalytics.temp_max (WeatherAnalytics.fold_float_stats l))
               (WeatherAnalytics.temp_max (WeatherAnalytics.fold_float_stats l'))
             = true))
  /\ (forall l' : list float,
        Permutation [10; 20; 30]%float l' ->
        WeatherAnalytics.fold_float_stats l'
        = WeatherAnalytics.mkCityStats 3 60%float (Some 10%float) (Some 30%float)
        /\ WeatherAnalytics.average (WeatherAnalytics.fold_float_stats l')
           = 20%float).
Proof.
  split.
  - intros l l' P. split.
    + unfold WeatherAnalytics.fold_float_stats, WeatherAnalytics.fold_stats.
      rewrite !fold_count. now rewrite (Permutation_length P).
    + intros Hnan. now apply float_extremes_permutation.
  - intros l' P.
    destruct (permutations_of_three _ _ _ _ P)
      as [-> | [-> | [-> | [-> | [-> | ->]]]]];
      split; reflexivity.
Qed.

(** The theorem on the temperatures 10, 20 and 30, fed as 30, 10, 20:
    the same statistics, and the average 20. *)
Lemma city_stats_fold_order_witness :
  WeatherAnalytics.fold_float_stats [30; 10; 20]%float
  = WeatherAnalytics.mkCityStats 3 60%float (Some 10%float) (Some 30%float)
  /\ WeatherAnalytics.average
       (WeatherAnalytics.fold_float_stats [30; 10; 20]%float)
     = 20%float
  /\ same_float
       (WeatherAnalytics.temp_min
          (WeatherAnalytics.fold_float_stats [10; 20; 30]%float))
       (WeatherAnalytics.temp_min
          (WeatherAnalytics.fold_float_stats [30; 10; 20]%float))
     = true.
Proof.
  assert (P : Permutation [10; 20; 30]%float [30; 10; 20]%float)
    by apply Permutation_sym, (Permutation_cons_append [10; 20]%float 30%float).
  destruct (proj2 city_stats_fold_order [30; 10; 20]%float P) as [Hfold Havg].
  split; [exact Hfold|]. split; [exact Havg|].
  refine (proj1 (proj2 (proj1 city_stats_fold_order _ _ P) _)).
  repeat constructor.
Defined.

(** Why the minimum and the maximum are order-independent only without a
    NaN: no float is below a NaN and a NaN is below none, so a NaN that
    comes first stays the minimum, and one that comes later never is. *)
Example nan_minimum_depends_on_order :
  option_map is_nan
    (WeatherAnalytics.temp_min
       (WeatherAnalytics.fold_float_stats [nan; 1]%float))
  = Some true
  /\ WeatherAnalytics.temp_min
       (WeatherAnalytics.fold_float_stats [1; nan]%float)
     = Some 1%float.
Proof. split; reflexivity. Qed.

(** C9, as stated: 0.1, 0.2 and 0.3 fold to two different sums in two
    orders. *)
Lemma float_sum_depends_on_order :
  ~ (forall l l' : list float,
        Permutation l l' ->
        WeatherAnalytics.fold_float_stats l = WeatherAnalytics.fold_float_stats l').
Proof.
  intros Hall.
  pose proof (Hall [0.1; 0.2; 0.3]%float [0.3; 0.2; 0.1]%float
                (Permutation_rev [0.1; 0.2; 0.3]%float)) as E.
  apply (f_equal (fun s => PrimFloat.ltb 0.6%float (WeatherAnalytics.temp_sum s)))
    in E.
  vm_compute in E. discriminate E.
Qed.

(** * Further properties *)

(** ** What the retry loop does to the world *)

Section RetryTrace.
Import WeatherToS3 Traced Effects.
Context {W : Type} `{World W} (B : Builtins).

Lemma backoff_schedule_succ (city : string) (k : nat) (backoff : float) :
  backoff_schedule city (S (S k)) backoff
  = Request city :: Sleep backoff
      :: backoff_schedule city (S k) (backoff * 2)%float.
Proof. reflexivity. Qed.

(** The loop, entered with [remaining] turns left, makes between one and
    [remaining] requests (none when no turn is left), in the order of the
    schedule; it raises only what [time.sleep] raises, for the backoff
    that follows the last request made. *)
Lemma retry_loop_trace (city : string) (config : Config) (max_attempts : Z)
    (remaining : nat) :
  forall (attempt : Z) (backoff : float) (w : W) (log : list effect),
  attempt + Z.of_nat remaining = max_attempts ->
  exists k : nat,
    (k <= remaining)%nat
    /\ (remaining <> O -> k <> O)
    /\ snd (snd (retry_loop B city config max_attempts remaining attempt
                   backoff (w, log)))
       = (log ++ backoff_schedule city k backoff)%list
    /\ forall e : exn,
         fst (retry_loop B city config max_attempts remaining attempt
                backoff (w, log)) = Raised e ->
         exists j : nat,
           k = S j /\ (S j < remaining)%nat
           /\ sleep_error B (doubled backoff j) = Some e.
Proof.
  induction remaining as [|n IH]; intros attempt backoff w log Hinv.
  - exists O. simpl. rewrite app_nil_r. repeat split; auto. discriminate.
  - cbn [retry_loop]. rewrite attempt_fetch_traced.
    destruct (attempt_fetch B city config w) as [[weather|e] w1];
      cbn [fst snd].
    + exists 1%nat. repeat split; auto; try lia. discriminate.
    + destruct e;
        try (exists 1%nat; repeat split; auto; try lia; discriminate).
      destruct retriable; cbn [negb];
        [|exists 1%nat; repeat split; auto; try lia; discriminate].
      destruct (attempt + 1 <? max_attempts) eqn:Hlt.
      * apply Z.ltb_lt in Hlt.
        destruct n as [|n]; [lia|].
        destruct (sleep_error B backoff) as [refused|] eqn:Hsleep.
        -- exists 1%nat. cbn [fst snd].
           split; [lia|]. split; [discriminate|]. split; [reflexivity|].
           intros e [= <-]. exists O. repeat split; [lia | exact Hsleep].
        -- destruct (IH (attempt + 1) (backoff * 2)%float
                       (time_sleep backoff w1)
                       ((log ++ [Request city]) ++ [Sleep backoff])%list
                       ltac:(lia)) as (k & Hk & Hpos & Hlog & Hraised).
           destruct k as [|k]; [exfalso; now apply Hpos|].
           exists (S (S k)). split; [lia|]. split; [discriminate|].
           change (time_sleep backoff (w1, (log ++ [Request city])%list))
             with (time_sleep backoff w1,
                   ((log ++ [Request city]) ++ [Sleep backoff])%list).
           split.
           ++ rewrite Hlog, backoff_schedule_succ, <- !app_assoc.
              reflexivity.
           ++ intros e He. destruct (Hraised e He) as (j & Hj & Hlt' & Hs).
              exists (S j). split; [now rewrite Hj|]. split; [lia|].
              exact Hs.
      * apply Z.ltb_ge in Hlt.
        destruct n as [|n]; [|lia].
        exists 1%nat. repeat split; auto. discriminate.
Qed.


(** When every attempt fails retriably and every sleep is accepted, all
    the turns are used. *)
Lemma retry_loop_exhausts (city : string) (config : Config) (max_attempts : Z)
    (remaining : nat) :
  (forall w : W, exists st w',
      attempt_fetch B city config w = (Raise (WeatherAPIError st true), w')) ->
  forall (attempt : Z) (backoff : float) (w : W) (log : list effect),
  attempt + Z.of_nat remaining = max_attempts ->
  (forall j : nat, (S j < remaining)%nat ->
     sleep_error B (doubled backoff j) = None) ->
  fst (retry_loop B city config max_attempts remaining attempt backoff (w, log))
  = Returned after_last_attempt
  /\ snd (snd (retry_loop B city config max_attempts remaining attempt
                 backoff (w, log)))
     = (log ++ backoff_schedule city remaining backoff)%list.
Proof.
  intros Hfail.
  induction remaining as [|n IH]; intros attempt backoff w log Hinv Hsleeps.
  - cbn. now rewrite app_nil_r.
  - cbn [retry_loop]. rewrite attempt_fetch_traced.
    destruct (Hfail w) as (st & w1 & ->). cbn [fst snd negb].
    destruct n as [|n].
    + replace (attempt + 1 <? max_attempts) with false by lia.
      cbn. split; reflexivity.
    + replace (attempt + 1 <? max_attempts) with true by lia.
      rewrite (Hsleeps O ltac:(lia) : sleep_error B backoff = None).
      change (time_sleep backoff (w1, (log ++ [Request city])%list))
        with (time_sleep backoff w1,
              ((log ++ [Request city]) ++ [Sleep backoff])%list).
      destruct (IH (attempt + 1) (backoff * 2)%float (time_sleep backoff w1)
                  ((log ++ [Request city]) ++ [Sleep backoff])%list
                  ltac:(lia)
                  (fun j Hj => Hsleeps (S j) ltac:(lia))) as [Hres Hlog].
      split; [exact Hres|].
      rewrite Hlog, backoff_schedule_succ, <- !app_assoc. reflexivity.
Qed.

(** X2. When every attempt for a city fails retriably and [time.sleep]
    accepts each backoff it is asked for (the initial one doubled up to
    [n - 2] times), a run allowed [n] attempts makes exactly [n] requests
    and [n - 1] sleeps, of the initial backoff doubled each time, and
    leaves its loop with no attempt left. *)
Theorem retry_exhausted (city : string) (config : Config) (n : nat)
    (backoff : float) (w : W) (log : list effect) :
  (forall w0 : W, exists st w',
      attempt_fetch B city config w0
      = (Raise (WeatherAPIError st true), w')) ->
  (forall j : nat, (S j < n)%nat ->
     sleep_error B (doubled backoff j) = None) ->
  fst (fetch_weather_with_retry B city config (Z.of_nat n) backoff (w, log))
  = Returned after_last_attempt
  /\ snd (snd (fetch_weather_with_retry B city config (Z.of_nat n) backoff
                 (w, log)))
     = (log ++ backoff_schedule city n backoff)%list.
Proof.
  intros Hfail Hsleeps. unfold fetch_weather_with_retry. rewrite Nat2Z.id.
  apply retry_loop_exhausts; [exact Hfail | lia | exact Hsleeps].
Qed.

End RetryTrace.

(** The theorem in the demonstration world: five attempts for
    ["City500"] make five requests, with sleeps of 1, 2, 4 and 8
    seconds. *)
Lemma retry_exhausted_witness :
  snd (snd (WeatherToS3.fetch_weather_with_retry Demo.builtins "City500"
              Demo.config 5 1%float (([] : Demo.world), [])))
  = [Traced.Request "City500"; Traced.Sleep 1%float;
     Traced.Request "City500"; Traced.Sleep 2%float;
     Traced.Request "City500"; Traced.Sleep 4%float;
     Traced.Request "City500"; Traced.Sleep 8%float;
     Traced.Request "City500"].
Proof.
  refine (proj2 (retry_exhausted Demo.builtins "City500" Demo.config 5
                   1%float [] [] _ _)).
  - intros w0. exists (Some 500), (w0 ++ [Demo.Requested "City500"])%list.
    reflexivity.
  - intros [|[|[|[|j]]]] Hj; try reflexivity. lia.
Defined.


(** ** What a run of the pipeline does to the world *)

Section PipelineTrace.
Import WeatherToS3 Traced Effects.
Context {W : Type} `{World W} (B : Builtins).

Lemma count_app (kind : effect -> bool) (a b : list effect) :
  count kind (a ++ b) = (count kind a + count kind b)%nat.
Proof. unfold count. now rewrite List.filter_app, length_app. Qed.

Lemma count_schedule (city : string) (k : nat) :
  forall backoff : float,
  count is_request (backoff_schedule city k backoff) = k
  /\ count is_sleep (backoff_schedule city k backoff) = pred k
  /\ count is_put (backoff_schedule city k backoff) = O.
Proof.
  induction k as [|[|k] IH]; intros backoff; [now cbn | now cbn |].
  rewrite backoff_schedule_succ.
  destruct (IH (backoff * 2)%float) as (Hr & Hs & Hp).
  unfold count in *. cbn [List.filter is_request is_sleep is_put length].
  rewrite Hr, Hs, Hp. repeat split.
Qed.

(** One turn of the loop over the cities: at most three requests, two
    sleeps and one upload, and no success without an upload. *)
Lemma process_city_trace (config : Config) (city : string) (a : Acc) (w : W)
    (log : list effect) :
  exists new : list effect,
    snd (snd (process_city B config city a (w, log))) = (log ++ new)%list
    /\ (count is_request new <= 3)%nat
    /\ (count is_sleep new <= 2)%nat
    /\ (count is_put new <= 1)%nat
    /\ forall a', fst (process_city B config city a (w, log)) = Returned a' ->
         acc_success a' <= acc_success a + Z.of_nat (count is_put new).
Proof.
  unfold process_city.
  destruct (retry_loop_trace B city config 3 (Z.to_nat 3) 0 1%float w log
              ltac:(lia)) as (k & Hk & _ & Hlog & _).
  change (Z.to_nat 3) with 3%nat in Hk.
  destruct (count_schedule city k 1%float) as (Hr & Hs & Hp).
  unfold fetch_weather_with_retry.
  destruct (retry_loop B city config 3 (Z.to_nat 3) 0 1 (w, log))
    as [res [w1 log1]]. cbn [fst snd] in Hlog. subst log1.
  destruct res as [[weather|]|e|e].
  - unfold upload_to_s3.
    destruct (payload_encodes B weather); cbn [negb].
    + cbn [put_object traced_world fst snd].
      destruct (put_object (s3_bucket_name config) _ weather w1) as [ok w2].
      exists (backoff_schedule city k 1%float
              ++ [PutObject (build_s3_key city (datetime_now w1))])%list.
      rewrite !count_app, Hr, Hs, Hp.
      cbn [count List.filter is_request is_sleep is_put length].
      destruct ok; cbn [fst snd]; rewrite <- app_assoc;
        (split; [reflexivity|]); repeat split; try lia;
        intros a' [= <-]; cbn; lia.
    + exists (backoff_schedule city k 1%float). cbn [fst snd].
      rewrite Hr, Hs, Hp. repeat split; try lia. discriminate.
  - exists (backoff_schedule city k 1%float). cbn [fst snd].
    rewrite Hr, Hs, Hp. repeat split; try lia.
    intros a' [= <-]. cbn. lia.
  - exists (backoff_schedule city k 1%float). cbn [fst snd].
    rewrite Hr, Hs, Hp. repeat split; try lia. discriminate.
  - exists (backoff_schedule city k 1%float). cbn [fst snd].
    rewrite Hr, Hs, Hp. repeat split; try lia. discriminate.
Qed.

Lemma process_loop_trace (config : Config) (todo : list string) :
  forall (a : Acc) (w : W) (log : list effect),
  exists new : list effect,
    snd (snd (process_loop B config todo a (w, log))) = (log ++ new)%list
    /\ (count is_request new <= 3 * length todo)%nat
    /\ (count is_sleep new <= 2 * length todo)%nat
    /\ (count is_put new <= length todo)%nat
    /\ forall a', fst (process_loop B config todo a (w, log)) = Returned a' ->
         acc_success a' <= acc_success a + Z.of_nat (count is_put new).
Proof.
  induction todo as [|city rest IH]; intros a w log.
  - exists []. cbn. rewrite app_nil_r. repeat split; try lia.
    intros a' [= <-]. lia.
  - cbn [process_loop].
    destruct (process_city_trace config city a w log)
      as (new1 & Hlog1 & Hr1 & Hs1 & Hp1 & Hacc1).
    destruct (process_city B config city a (w, log)) as [[a1|e|e] [w1 log1]];
      cbn [fst snd] in Hlog1, Hacc1; subst log1.
    + destruct (IH a1 w1 (log ++ new1)%list)
        as (new2 & Hlog2 & Hr2 & Hs2 & Hp2 & Hacc2).
      exists (new1 ++ new2)%list. rewrite Hlog2, app_assoc, !count_app.
      cbn [length]. repeat split; try lia.
      intros a' Ha'. specialize (Hacc2 a' Ha'). specialize (Hacc1 a1 eq_refl).
      lia.
    + exists new1. cbn [fst snd length]. repeat split; try lia. discriminate.
    + exists new1. cbn [fst snd length]. repeat split; try lia. discriminate.
Qed.

(** X3. A run of [process_cities] over [N] cities makes at most [3 N]
    requests to the API, sleeps at most [2 N] times and uploads at most
    [N] objects; every city it counts as a success was uploaded. *)
Theorem pipeline_calls_bounded (config : Config) (w : W) (log : list effect) :
  exists new : list effect,
    snd (snd (process_cities B config (w, log))) = (log ++ new)%list
    /\ (count is_request new <= 3 * length (cities config))%nat
    /\ (count is_sleep new <= 2 * length (cities config))%nat
    /\ (count is_put new <= length (cities config))%nat
    /\ forall summary,
         fst (process_cities B config (w, log)) = Returned summary ->
         success_count summary <= Z.of_nat (count is_put new).
Proof.
  unfold process_cities.
  destruct (process_loop_trace config (cities config)
              {| acc_success := 0; acc_failure := 0;
                 acc_temps := []; acc_failures := [] |} w log)
    as (new & Hlog & Hr & Hs & Hp & Hacc).
  destruct (process_loop B config (cities config) _ (w, log))
    as [[a|e|e] [w1 log1]]; cbn [fst snd] in *; subst log1;
    exists new; repeat split; try lia; try discriminate.
  intros summary [= <-]. cbn. specialize (Hacc a eq_refl). cbn in Hacc. lia.
Qed.

End PipelineTrace.

(** ** The temperatures of a summary *)

Section SummaryExtremes.
Import WeatherToS3 Outcomes.

(** [min] keeps one of the values it went over, below which none is. *)
Lemma py_min_least (xs : list float) :
  forall (x : float) (seen : list float),
  In x seen -> (forall y, In y seen -> PrimFloat.ltb y x = false) ->
  In (py_min x xs) (seen ++ xs)
  /\ forall y, In y (seen ++ xs) -> PrimFloat.ltb y (py_min x xs) = false.
Proof.
  unfold py_min.
  induction xs as [|item xs IH]; intros x seen Hin Hle; cbn [fold_left].
  - rewrite app_nil_r. now split.
  - replace (seen ++ item :: xs)%list with ((seen ++ [item]) ++ xs)%list
      by now rewrite <- app_assoc.
    destruct (PrimFloat.ltb item x) eqn:Hlt; apply IH.
    + apply in_or_app. right. now left.
    + intros y Hy. apply in_app_or in Hy. destruct Hy as [Hy|[<-|[]]].
      * destruct (PrimFloat.ltb y item) eqn:Hyi; [|reflexivity].
        now rewrite <- (Hle y Hy), (float_ltb_trans y item x Hyi Hlt).
      * apply float_ltb_irrefl.
    + apply in_or_app. now left.
    + intros y Hy. apply in_app_or in Hy. destruct Hy as [Hy|[<-|[]]];
        [now apply Hle | exact Hlt].
Qed.

Lemma py_max_greatest (xs : list float) :
  forall (x : float) (seen : list float),
  In x seen -> (forall y, In y seen -> PrimFloat.ltb x y = false) ->
  In (py_max x xs) (seen ++ xs)
  /\ forall y, In y (seen ++ xs) -> PrimFloat.ltb (py_max x xs) y = false.
Proof.
  unfold py_max.
  induction xs as [|item xs IH]; intros x seen Hin Hle; cbn [fold_left].
  - rewrite app_nil_r. now split.
  - replace (seen ++ item :: xs)%list with ((seen ++ [item]) ++ xs)%list
      by now rewrite <- app_assoc.
    destruct (PrimFloat.ltb x item) eqn:Hlt; apply IH.
    + apply in_or_app. right. now left.
    + intros y Hy. apply in_app_or in Hy. destruct Hy as [Hy|[<-|[]]].
      * destruct (PrimFloat.ltb item y) eqn:Hiy; [|reflexivity].
        now rewrite <- (Hle y Hy), (float_ltb_trans x item y Hlt Hiy).
      * apply float_ltb_irrefl.
    + apply in_or_app. now left.
    + intros y Hy. apply in_app_or in Hy. destruct Hy as [Hy|[<-|[]]];
        [now apply Hle | exact Hlt].
Qed.

Context {W : Type} `{World W} (B : Builtins).

(** X4. In the summary a run returns, the minimum and the maximum are
    temperatures of cities that were stored, with none of them below the
    minimum or above the maximum; the three aggregates are [None] exactly
    when no city was stored. *)
Theorem summary_extremes (config : Config) (w w' : W) (summary : Summary) :
  process_cities B config w = (Returned summary, w') ->
  exists outs,
    run_outcomes B config (cities config) w = (Returned outs, w')
    /\ (forall m, min_temp_c summary = Some m ->
          In m (stored_temps outs)
          /\ forall t, In t (stored_temps outs) -> PrimFloat.ltb t m = false)
    /\ (forall m, max_temp_c summary = Some m ->
          In m (stored_temps outs)
          /\ forall t, In t (stored_temps outs) -> PrimFloat.ltb m t = false)
    /\ (min_temp_c summary = None <-> success_count summary = 0)
    /\ (max_temp_c summary = None <-> success_count summary = 0)
    /\ (avg_temp_c summary = None <-> success_count summary = 0).
Proof.
  unfold process_cities. rewrite process_loop_accounts.
  destruct (run_outcomes B config (cities config) w) as [[outs|e|e] w1];
    [|discriminate|discriminate].
  intros [= <- <-]. exists outs. split; [reflexivity|].
  pose proof (account_all outs
                {| acc_success := 0; acc_failure := 0;
                   acc_temps := []; acc_failures := [] |}) as Hacc.
  cbn zeta in Hacc. cbn [acc_success acc_failure acc_temps acc_failures] in Hacc.
  destruct Hacc as (_ & Hs & _ & Hts).
  unfold summarize.
  cbn [min_temp_c max_temp_c avg_temp_c success_count].
  rewrite Hs, Hts. cbn [app].
  destruct (stored_temps outs) as [|t ts].
  - repeat split; try discriminate; reflexivity.
  - split.
    { intros m [= <-].
      apply (py_min_least ts t [t]); [now left|].
      intros y [<-|[]]. apply float_ltb_irrefl. }
    split.
    { intros m [= <-].
      apply (py_max_greatest ts t [t]); [now left|].
      intros y [<-|[]]. apply float_ltb_irrefl. }
    cbn [length]. repeat split; intros; try discriminate; lia.
Qed.

End SummaryExtremes.

(** The theorem on the run of the demonstration configuration. *)
Lemma summary_extremes_witness :
  exists summary w' outs,
    WeatherToS3.process_cities Demo.builtins Demo.config []
    = (WeatherToS3.Returned summary, w')
    /\ Outcomes.run_outcomes Demo.builtins Demo.config
         (WeatherToS3.cities Demo.config) []
       = (WeatherToS3.Returned outs, w')
    /\ (WeatherToS3.min_temp_c summary = None
        <-> WeatherToS3.success_count summary = 0).
Proof.
  destruct (WeatherToS3.process_cities Demo.builtins Demo.config [])
    as [[summary|e|e] w'] eqn:E;
    [|vm_compute in E; discriminate E|vm_compute in E; discriminate E].
  destruct (summary_extremes Demo.builtins Demo.config [] w' summary E)
    as (outs & Hrun & _ & _ & Hnone & _).
  now exists summary, w', outs.
Defined.

(** ** Loading the configuration *)

Section Configuration.
Import WeatherToS3.

Lemma truthy_nonempty (s : string) : PyStr.truthy s = true <-> s <> "".
Proof. destruct s; simpl; split; congruence. Qed.

Lemma lstrip_keeps_absent (x : ascii) (s : string) :
  PyStr.contains x s = false -> PyStr.contains x (PyStr.lstrip s) = false.
Proof.
  induction s as [|c r IH]; simpl; [reflexivity|].
  intros Hc. apply orb_false_iff in Hc. destruct Hc as [Hc Hr].
  destruct (PyStr.is_space c); [now apply IH | simpl; now rewrite Hc, Hr].
Qed.

Lemma rstrip_keeps_absent (x : ascii) (s : string) :
  PyStr.contains x s = false -> PyStr.contains x (PyStr.rstrip s) = false.
Proof.
  induction s as [|c r IH]; simpl; [reflexivity|].
  intros Hc. apply orb_false_iff in Hc. destruct Hc as [Hc Hr].
  specialize (IH Hr).
  destruct (PyStr.rstrip r) as [|c' r'].
  - destruct (PyStr.is_space c); simpl; [reflexivity | now rewrite Hc].
  - simpl in IH |- *. now rewrite Hc, IH.
Qed.

Lemma strip_keeps_absent (x : ascii) (s : string) :
  PyStr.contains x s = false -> PyStr.contains x (PyStr.strip s) = false.
Proof. intros Hc. now apply rstrip_keeps_absent, lstrip_keeps_absent. Qed.

Lemma strip_idempotent (s : string) :
  PyStr.strip (PyStr.strip s) = PyStr.strip s.
Proof.
  apply strip_fixed; unfold PyStr.strip.
  - apply rstrip_head_ok, lstrip_head_ok.
  - apply rstrip_last_ok.
Qed.

(** No item of [s.split(sep)] holds the separator, and there is at least
    one item. *)
Lemma split_items (sep : ascii) (s : string) :
  PyStr.split sep s <> []
  /\ List.Forall (fun p => PyStr.contains sep p = false) (PyStr.split sep s).
Proof.
  induction s as [|c r [Hne IH]]; simpl.
  - split; [discriminate | now constructor].
  - destruct (Ascii.eqb c sep) eqn:E.
    + split; [discriminate | now constructor].
    + destruct (PyStr.split sep r) as [|h t]; [now contradict Hne|].
      split; [discriminate|].
      inversion IH as [|? ? Hh Ht]; subst.
      constructor; [simpl; now rewrite E, Hh | exact Ht].
Qed.

(** A string that strips to nothing is made of whitespace, and splits at
    commas into itself. *)
Lemma lstrip_empty_spaces (s : string) :
  PyStr.lstrip s = "" -> PyStr.all_chars PyStr.is_space s = true.
Proof.
  induction s as [|c r IH]; simpl; [reflexivity|].
  destruct (PyStr.is_space c); [exact IH | discriminate].
Qed.

Lemma rstrip_empty_spaces (s : string) :
  PyStr.rstrip s = "" -> PyStr.all_chars PyStr.is_space s = true.
Proof.
  induction s as [|c r IH]; simpl; [reflexivity|].
  destruct (PyStr.rstrip r) as [|c' r']; [|discriminate].
  destruct (PyStr.is_space c); [intros _; now apply IH | discriminate].
Qed.

Lemma lstrip_suffix_spaces (s : string) :
  PyStr.all_chars PyStr.is_space (PyStr.lstrip s) = true ->
  PyStr.all_chars PyStr.is_space s = true.
Proof.
  induction s as [|c r IH]; simpl; [reflexivity|].
  destruct (PyStr.is_space c) eqn:E; [exact IH | simpl; now rewrite E].
Qed.

Lemma strip_empty_spaces (s : string) :
  PyStr.strip s = "" -> PyStr.all_chars PyStr.is_space s = true.
Proof.
  unfold PyStr.strip. intros Hs.
  now apply lstrip_suffix_spaces, rstrip_empty_spaces.
Qed.

Lemma split_spaces (s : string) :
  PyStr.all_chars PyStr.is_space s = true -> PyStr.split "," s = [s].
Proof.
  induction s as [|c r IH]; simpl; [reflexivity|].
  intros Hc. apply andb_true_iff in Hc. destruct Hc as [Hc Hr].
  rewrite (IH Hr).
  destruct (Ascii.eqb c ",") eqn:E; [|reflexivity].
  apply Ascii.eqb_eq in E. subst c. discriminate Hc.
Qed.

(** The checks of [load_env_config], read off its result. *)
Lemma load_env_config_inv (env : gmap string string) (config : Config) :
  load_env_config env = Ok config ->
  PyStr.truthy (default "" (getenv env "OPENWEATHER_API_KEY")) = true
  /\ PyStr.truthy (default "" (getenv env "S3_BUCKET_NAME")) = true
  /\ PyStr.truthy (PyStr.strip (default "" (getenv env "CITIES"))) = true
  /\ config
     = {| openweather_api_key := default "" (getenv env "OPENWEATHER_API_KEY");
          s3_bucket_name := default "" (getenv env "S3_BUCKET_NAME");
          cities :=
            map PyStr.strip
              (List.filter (fun c => PyStr.truthy (PyStr.strip c))
                 (PyStr.split "," (default "" (getenv env "CITIES"))));
          s3_log_prefix :=
            match getenv env "S3_LOG_PREFIX" with
            | Some p => if PyStr.truthy p then Some p else None
            | None => None
            end |}
  /\ cities config <> [].
Proof.
  unfold load_env_config.
  destruct (PyStr.truthy (default "" (getenv env "OPENWEATHER_API_KEY")));
    [|discriminate].
  destruct (PyStr.truthy (default "" (getenv env "S3_BUCKET_NAME")));
    [|discriminate].
  destruct (PyStr.truthy (PyStr.strip (default "" (getenv env "CITIES"))));
    [|discriminate].
  cbn [app].
  destruct (map PyStr.strip _) as [|c cs] eqn:E; [discriminate|].
  intros [= <-]. repeat split. discriminate.
Qed.

(** X5. A configuration that [load_env_config] returns has a non-empty
    API key and bucket name, those of the environment, and at least one
    city; each city is non-empty, holds no comma and neither starts nor
    ends with whitespace; the log prefix is never the empty string. *)
Theorem load_env_config_sound (env : gmap string string) (config : Config) :
  load_env_config env = Ok config ->
  env !! "OPENWEATHER_API_KEY" = Some (openweather_api_key config)
  /\ openweather_api_key config <> ""
  /\ env !! "S3_BUCKET_NAME" = Some (s3_bucket_name config)
  /\ s3_bucket_name config <> ""
  /\ cities config <> []
  /\ List.Forall
       (fun c => c <> "" /\ PyStr.strip c = c /\ PyStr.contains "," c = false)
       (cities config)
  /\ s3_log_prefix config <> Some "".
Proof.
  intros Hok.
  destruct (load_env_config_inv env config Hok) as (Hk & Hb & _ & -> & Hne).
  cbn [openweather_api_key s3_bucket_name cities s3_log_prefix] in *.
  unfold getenv in *.
  split; [destruct (env !! "OPENWEATHER_API_KEY"); [reflexivity | discriminate]|].
  split; [now apply truthy_nonempty|].
  split; [destruct (env !! "S3_BUCKET_NAME"); [reflexivity | discriminate]|].
  split; [now apply truthy_nonempty|].
  split; [exact Hne|].
  split.
  - apply List.Forall_forall. intros c Hc.
    apply in_map_iff in Hc. destruct Hc as (item & <- & Hitem).
    apply filter_In in Hitem. destruct Hitem as [Hitem Htruthy].
    split; [now apply truthy_nonempty|].
    split; [apply strip_idempotent|].
    apply strip_keeps_absent.
    destruct (split_items "," (default "" (env !! "CITIES"))) as [_ Hall].
    rewrite List.Forall_forall in Hall. now apply Hall.
  - destruct (env !! "S3_LOG_PREFIX") as [p|]; [|discriminate].
    destruct p; simpl; discriminate.
Qed.

(** X6. [load_env_config] succeeds exactly when the API key and the
    bucket name are set and not empty and some item of [CITIES], split at
    commas, is not blank; it fails with no other error than its
    [RuntimeError]. *)
Theorem load_env_config_accepts (env : gmap string string) :
  ((exists config, load_env_config env = Ok config)
   <-> (exists k, env !! "OPENWEATHER_API_KEY" = Some k /\ k <> "")
       /\ (exists b, env !! "S3_BUCKET_NAME" = Some b /\ b <> "")
       /\ (exists raw item,
              env !! "CITIES" = Some raw
              /\ In item (PyStr.split "," raw)
              /\ PyStr.strip item <> ""))
  /\ (forall e, load_env_config env = Raise e -> e = RuntimeError).
Proof.
  split; [split|].
  - intros [config Hok].
    destruct (load_env_config_inv env config Hok) as (Hk & Hb & Hc & -> & Hne).
    cbn [cities] in Hne. unfold getenv in *.
    split; [|split].
    + destruct (env !! "OPENWEATHER_API_KEY") as [k|]; [|discriminate].
      exists k. split; [reflexivity | now apply truthy_nonempty].
    + destruct (env !! "S3_BUCKET_NAME") as [b|]; [|discriminate].
      exists b. split; [reflexivity | now apply truthy_nonempty].
    + destruct (env !! "CITIES") as [raw|]; [|discriminate].
      change (default "" (Some raw)) with raw in Hne.
      destruct (List.filter (fun c => PyStr.truthy (PyStr.strip c))
                  (PyStr.split "," raw)) as [|item rest] eqn:E;
        [now contradict Hne|].
      assert (Hin : In item (List.filter
                               (fun c => PyStr.truthy (PyStr.strip c))
                               (PyStr.split "," raw)))
        by (rewrite E; now left).
      apply filter_In in Hin. destruct Hin as [Hin Ht].
      exists raw, item. split; [reflexivity|]. split; [exact Hin|].
      now apply truthy_nonempty.
  - intros ((k & Hk & Hkne) & (b & Hb & Hbne) & (raw & item & Hraw & Hin & Hitem)).
    unfold load_env_config, getenv. rewrite Hk, Hb, Hraw.
    change (default "" (Some k)) with k. change (default "" (Some b)) with b.
    change (default "" (Some raw)) with raw.
    apply truthy_nonempty in Hkne, Hbne. rewrite Hkne, Hbne.
    assert (Hstrip : PyStr.truthy (PyStr.strip raw) = true).
    { apply truthy_nonempty. intros Hs.
      apply strip_empty_spaces in Hs.
      rewrite (split_spaces raw Hs) in Hin. destruct Hin as [<-|[]].
      apply Hitem. unfold PyStr.strip.
      clear -Hs. 
      assert (Hl : PyStr.lstrip raw = "").
      { induction raw as [|c r IH]; simpl in *; [reflexivity|].
        apply andb_true_iff in Hs. destruct Hs as [-> Hr]. now apply IH. }
      now rewrite Hl. }
    rewrite Hstrip. cbn [app].
    assert (Hin' : In (PyStr.strip item)
                     (map PyStr.strip
                        (List.filter (fun c => PyStr.truthy (PyStr.strip c))
                           (PyStr.split "," raw)))).
    { apply in_map, filter_In. split; [exact Hin | now apply truthy_nonempty]. }
    destruct (map PyStr.strip _) as [|c cs]; [destruct Hin'|].
    eexists. reflexivity.
  - intros e. unfold load_env_config.
    destruct (PyStr.truthy (default "" (getenv env "OPENWEATHER_API_KEY")));
      [|now intros [= <-]].
    destruct (PyStr.truthy (default "" (getenv env "S3_BUCKET_NAME")));
      [|now intros [= <-]].
    destruct (PyStr.truthy (PyStr.strip (default "" (getenv env "CITIES"))));
      [|now intros [= <-]].
    cbn [app].
    destruct (map PyStr.strip _); [now intros [= <-] | discriminate].
Qed.

(** The theorems on the demonstration environment. *)
Lemma load_env_config_sound_witness :
  List.Forall
    (fun c => c <> "" /\ PyStr.strip c = c /\ PyStr.contains "," c = false)
    (cities Demo.config).
Proof.
  apply (load_env_config_sound Demo.environment Demo.config
           ltac:(vm_compute; reflexivity)).
Defined.

End Configuration.

(** ** Keys, prefixes and filters *)

Section KeyScheme.
Import Calendar.

Lemma digit_cases (d : Z) :
  0 <= d <= 9 ->
  d = 0 \/ d = 1 \/ d = 2 \/ d = 3 \/ d = 4 \/ d = 5 \/ d = 6 \/ d = 7
  \/ d = 8 \/ d = 9.
Proof. lia. Qed.

Ltac on_digit d H :=
  destruct (digit_cases d H) as [->|[->|[->|[->|[->|[->|[->|[->|[->| ->]]]]]]]]].

Lemma digit_val_char (d : Z) : 0 <= d <= 9 -> digit_val (digit_char d) = Some d.
Proof. intros Hd. on_digit d Hd; reflexivity. Qed.

Lemma digit_char_plain (d : Z) :
  0 <= d <= 9 ->
  Ascii.eqb (digit_char d) "/" = false /\ Ascii.eqb (digit_char d) "_" = false.
Proof. intros Hd. on_digit d Hd; split; reflexivity. Qed.

Lemma digit_char_inj (a b : Z) :
  0 <= a <= 9 -> 0 <= b <= 9 ->
  Ascii.eqb (digit_char a) (digit_char b) = true -> a = b.
Proof.
  intros Ha Hb E. apply Ascii.eqb_eq in E.
  apply (f_equal digit_val) in E.
  rewrite !digit_val_char in E by assumption. congruence.
Qed.

Lemma pad2_plain (n : Z) :
  0 <= n <= 99 ->
  PyStr.contains "/" (pad2 n) = false /\ PyStr.contains "_" (pad2 n) = false.
Proof.
  intros Hn. unfold pad2. cbn [PyStr.contains].
  destruct (digit_char_plain (n / 10) ltac:(Z.div_mod_to_equations; lia))
    as [-> ->].
  destruct (digit_char_plain (n mod 10) ltac:(Z.div_mod_to_equations; lia))
    as [-> ->].
  split; reflexivity.
Qed.

Lemma contains_app (x : ascii) (a b : string) :
  PyStr.contains x (a ++ b) = PyStr.contains x a || PyStr.contains x b.
Proof.
  induction a as [|c a IH]; simpl; [reflexivity|].
  now rewrite IH, orb_assoc.
Qed.

(** What follows the last separator, and what precedes the first. *)
Lemma rsplit_last_app (sep : ascii) (a b : string) :
  PyStr.contains sep b = false ->
  PyStr.rsplit_last sep (a ++ String sep b) = b.
Proof.
  intros Hb. induction a as [|c a IH]; simpl.
  - now rewrite Hb, Ascii.eqb_refl.
  - rewrite contains_app. simpl. rewrite Ascii.eqb_refl, orb_true_r.
    exact IH.
Qed.

Lemma split_first_app (sep : ascii) (a b : string) :
  PyStr.contains sep a = false ->
  PyStr.split_first sep (a ++ String sep b) = a.
Proof.
  induction a as [|c a IH]; simpl.
  - now rewrite Ascii.eqb_refl.
  - intros Hc. apply orb_false_iff in Hc. destruct Hc as [-> Ha].
    now rewrite (IH Ha).
Qed.

Lemma lower_char_norm (c : ascii) :
  PyStr.lower_char (norm_char c) = norm_char c.
Proof. destruct c as [[] [] [] [] [] [] [] []]; reflexivity. Qed.

Lemma lower_normalized (city : string) :
  PyStr.lower (WeatherToS3.normalize_city_for_key city)
  = WeatherToS3.normalize_city_for_key city.
Proof.
  rewrite normalize_as_map. unfold PyStr.lower. rewrite map_chars_compose.
  apply map_chars_ext, lower_char_norm.
Qed.

Lemma valid_clock_bounds (ts : datetime) :
  valid_clock ts = true ->
  0 <= hour ts <= 23 /\ 0 <= minute ts <= 59 /\ 0 <= second ts <= 59.
Proof. unfold valid_clock. rewrite !andb_true_iff, !Z.leb_le. lia. Qed.

(** The file name of a key is its city, [_H] and the rest. *)
Lemma build_s3_key_filename (city : string) (ts : datetime) :
  valid_clock ts = true ->
  PyStr.contains "/" (WeatherToS3.normalize_city_for_key city) = false ->
  PyStr.rsplit_last "/" (WeatherToS3.build_s3_key city ts)
  = WeatherToS3.normalize_city_for_key city
    ++ "_H" ++ pad2 (minute ts) ++ pad2 (second ts) ++ ".json".
Proof.
  intros Hclock Hcity.
  destruct (valid_clock_bounds ts Hclock) as (_ & Hm & Hs).
  rewrite build_s3_key_layout.
  change (pad4 (year ts) ++ "/" ++ pad2 (month ts) ++ "/" ++ pad2 (day ts)
          ++ "/" ++ WeatherToS3.normalize_city_for_key city ++ "_" ++ "H"
          ++ pad2 (minute ts) ++ pad2 (second ts) ++ ".json")
    with ((pad4 (year ts) ++ "/" ++ pad2 (month ts) ++ "/" ++ pad2 (day ts))
          ++ String "/" (WeatherToS3.normalize_city_for_key city ++ "_H"
                         ++ pad2 (minute ts) ++ pad2 (second ts) ++ ".json")).
  apply rsplit_last_app.
  rewrite !contains_app, Hcity.
  destruct (pad2_plain (minute ts) ltac:(lia)) as [-> _].
  destruct (pad2_plain (second ts) ltac:(lia)) as [-> _].
  reflexivity.
Qed.

(** X7. Under the filter of a city [wanted] that is not blank, the
    analytics keeps the key the pipeline wrote for a city whose normal
    form is one word (no underscore, no slash) exactly when the two
    cities have the same normal form. *)
Theorem filter_keeps_keys_of_one_word_cities (wanted city : string)
    (ts : datetime) :
  valid_clock ts = true ->
  PyStr.strip wanted <> "" ->
  PyStr.contains "_" (WeatherToS3.normalize_city_for_key city) = false ->
  PyStr.contains "/" (WeatherToS3.normalize_city_for_key city) = false ->
  WeatherAnalytics.filtered_out
    (WeatherAnalytics.normalize_city_for_filter (Some wanted))
    (WeatherToS3.build_s3_key city ts) = false
  <-> WeatherToS3.normalize_city_for_key wanted
      = WeatherToS3.normalize_city_for_key city.
Proof.
  intros Hclock Hwanted Hunder Hslash.
  rewrite normalize_filter_as_key, (strip_empty_truthy wanted Hwanted).
  unfold WeatherAnalytics.filtered_out.
  rewrite (normalize_key_truthy wanted Hwanted).
  rewrite (build_s3_key_filename city ts Hclock Hslash).
  change (WeatherToS3.normalize_city_for_key city ++ "_H"
          ++ pad2 (minute ts) ++ pad2 (second ts) ++ ".json")
    with (WeatherToS3.normalize_city_for_key city
          ++ String "_" ("H" ++ pad2 (minute ts) ++ pad2 (second ts) ++ ".json")).
  rewrite (split_first_app "_" _ _ Hunder), lower_normalized.
  rewrite negb_false_iff, String.eqb_eq. split; congruence.
Qed.

(** The theorem for ["London"] and the filter ["LONDON "]. *)
Lemma filter_keeps_keys_of_one_word_cities_witness :
  WeatherAnalytics.filtered_out
    (WeatherAnalytics.normalize_city_for_filter (Some "LONDON "))
    (WeatherToS3.build_s3_key "London" (mkDatetime 2026 2 18 14 5 9)) = false.
Proof.
  apply (filter_keeps_keys_of_one_word_cities "LONDON " "London"
           (mkDatetime 2026 2 18 14 5 9));
    try reflexivity. discriminate.
Defined.

Lemma starts_with_app (a b : string) : Listing.starts_with (a ++ b) a = true.
Proof.
  induction a as [|c a IH]; simpl; [reflexivity|].
  now rewrite Ascii.eqb_refl, IH.
Qed.

Lemma string_app_assoc (a b c : string) : (a ++ b) ++ c = a ++ (b ++ c).
Proof.
  induction a as [|x a IH]; [reflexivity|].
  change (String x ((a ++ b) ++ c) = String x (a ++ b ++ c)).
  now rewrite IH.
Qed.

Lemma valid_date_bounds (dt : datetime) :
  valid_date dt = true ->
  1 <= year dt <= 9999 /\ 1 <= month dt <= 12 /\ 1 <= day dt <= 31
  /\ day dt <= days_in_month (year dt) (month dt).
Proof.
  unfold valid_date. rewrite !andb_true_iff, !Z.leb_le.
  intros (((((Hy1 & Hy2) & Hm1) & Hm2) & Hd1) & Hd2).
  assert (days_in_month (year dt) (month dt) <= 31).
  { unfold days_in_month.
    destruct (month dt =? 2); [destruct (is_leap (year dt)); lia|].
    destruct ((month dt =? 4) || (month dt =? 6) || (month dt =? 9)
              || (month dt =? 11)); lia. }
  lia.
Qed.

Lemma prefix_for_date_layout (dt : datetime) :
  WeatherAnalytics.prefix_for_date dt
  = pad4 (year dt) ++ "/" ++ pad2 (month dt) ++ "/" ++ pad2 (day dt) ++ "/".
Proof. reflexivity. Qed.

Lemma pad2_inj (a b : Z) :
  0 <= a <= 99 -> 0 <= b <= 99 ->
  Ascii.eqb (digit_char (a / 10)) (digit_char (b / 10)) = true ->
  Ascii.eqb (digit_char (a mod 10)) (digit_char (b mod 10)) = true ->
  a = b.
Proof.
  intros Ha Hb E1 E0.
  apply digit_char_inj in E1; [|Z.div_mod_to_equations; lia ..].
  apply digit_char_inj in E0; [|Z.div_mod_to_equations; lia ..].
  Z.div_mod_to_equations; lia.
Qed.

Lemma pad4_inj (a b : Z) :
  0 <= a <= 9999 -> 0 <= b <= 9999 ->
  Ascii.eqb (digit_char (a / 1000)) (digit_char (b / 1000)) = true ->
  Ascii.eqb (digit_char ((a / 100) mod 10)) (digit_char ((b / 100) mod 10))
  = true ->
  Ascii.eqb (digit_char ((a / 10) mod 10)) (digit_char ((b / 10) mod 10))
  = true ->
  Ascii.eqb (digit_char (a mod 10)) (digit_char (b mod 10)) = true ->
  a = b.
Proof.
  intros Ha Hb E3 E2 E1 E0.
  apply digit_char_inj in E3; [|Z.div_mod_to_equations; lia ..].
  apply digit_char_inj in E2; [|Z.div_mod_to_equations; lia ..].
  apply digit_char_inj in E1; [|Z.div_mod_to_equations; lia ..].
  apply digit_char_inj in E0; [|Z.div_mod_to_equations; lia ..].
  Z.div_mod_to_equations; lia.
Qed.

(** X8. For days of years of four digits (from 1000 on, where [%Y]
    prints four digits), the prefix the analytics scans for a day is the
    start of the keys the pipeline writes on that day, for any city, and
    of the keys of no other day. *)
Theorem day_prefix_lists_the_day (day_scanned ts : datetime) (city : string) :
  valid_date day_scanned = true ->
  valid_date ts = true ->
  1000 <= year day_scanned ->
  1000 <= year ts ->
  Listing.starts_with (WeatherToS3.build_s3_key city ts)
    (WeatherAnalytics.prefix_for_date day_scanned) = true
  <-> same_day day_scanned ts.
Proof.
  intros Hd Ht _ _.
  destruct (valid_date_bounds _ Hd) as (Hy & Hm & Hdd & _).
  destruct (valid_date_bounds _ Ht) as (Hy' & Hm' & Hdd' & _).
  rewrite build_s3_key_layout, prefix_for_date_layout. split.
  - cbv beta iota delta [append Listing.starts_with pad4 pad2].
    rewrite !andb_true_iff.
    intros (Y3 & Y2 & Y1 & Y0 & _ & M1 & M0 & _ & D1 & D0 & _).
    repeat split.
    + apply pad4_inj; auto; lia.
    + apply pad2_inj; auto; lia.
    + apply pad2_inj; auto; lia.
  - intros (-> & -> & ->).
    replace (pad4 (year ts) ++ "/" ++ pad2 (month ts) ++ "/" ++ pad2 (day ts)
             ++ "/" ++ WeatherToS3.normalize_city_for_key city ++ "_" ++ "H"
             ++ pad2 (minute ts) ++ pad2 (second ts) ++ ".json")
      with ((pad4 (year ts) ++ "/" ++ pad2 (month ts) ++ "/"
             ++ pad2 (day ts) ++ "/")
            ++ WeatherToS3.normalize_city_for_key city ++ "_" ++ "H"
            ++ pad2 (minute ts) ++ pad2 (second ts) ++ ".json")
      by (now rewrite !string_app_assoc).
    apply starts_with_app.
Qed.

(** The theorem for a key of 2026-02-18. *)
Lemma day_prefix_lists_the_day_witness :
  Listing.starts_with
    (WeatherToS3.build_s3_key "New York" (mkDatetime 2026 2 18 14 5 9))
    (WeatherAnalytics.prefix_for_date (mkDatetime 2026 2 18 0 0 0)) = true.
Proof.
  apply (day_prefix_lists_the_day (mkDatetime 2026 2 18 0 0 0)
           (mkDatetime 2026 2 18 14 5 9) "New York");
    [reflexivity | reflexivity | cbn; lia | cbn; lia | repeat split].
Defined.

(** X9. The prefix the viewer builds from a date and a city is the start
    of every key the pipeline writes for that city on that day, whatever
    the number of words of the city. *)
Theorem viewer_prefix_lists_the_city (d c : string) (dt ts : datetime) :
  PyStr.truthy d = true ->
  strptime_ymd d = Some dt ->
  PyStr.truthy c = true ->
  1000 <= year dt ->
  same_day dt ts ->
  exists prefix,
    ViewWeatherData.build_prefix_for_date_and_city (Some d) (Some c)
    = Ok prefix
    /\ Listing.starts_with (WeatherToS3.build_s3_key c ts) prefix = true.
Proof.
  intros Hd Hp Hc _ (Hy & Hm & Hday).
  unfold ViewWeatherData.build_prefix_for_date_and_city,
    ViewWeatherData.date_parts, ViewWeatherData.city_parts.
  rewrite Hd, Hp, Hc. cbn [app]. rewrite join_two.
  eexists. split; [reflexivity|].
  rewrite build_s3_key_layout, <- Hy, <- Hm, <- Hday.
  change (strftime dt "%Y/%m/%d")
    with (pad4 (year dt) ++ "/" ++ pad2 (month dt) ++ "/" ++ pad2 (day dt)).
  change (PyStr.lower (PyStr.replace_char " " "_" (PyStr.strip c)))
    with (WeatherToS3.normalize_city_for_key c).
  set (n := WeatherToS3.normalize_city_for_key c).
  set (date := pad4 (year dt) ++ "/" ++ pad2 (month dt) ++ "/" ++ pad2 (day dt)).
  replace (pad4 (year dt) ++ "/" ++ pad2 (month dt) ++ "/" ++ pad2 (day dt)
           ++ "/" ++ n ++ "_" ++ "H" ++ pad2 (minute ts) ++ pad2 (second ts)
           ++ ".json")
    with ((date ++ "/" ++ n ++ "_")
          ++ "H" ++ pad2 (minute ts) ++ pad2 (second ts) ++ ".json").
  - apply starts_with_app.
  - subst date. now rewrite !string_app_assoc.
Qed.

(** The theorem for ["New York"] on 2026-02-18. *)
Lemma viewer_prefix_lists_the_city_witness :
  exists prefix,
    ViewWeatherData.build_prefix_for_date_and_city
      (Some "2026-02-18") (Some "New York") = Ok prefix
    /\ Listing.starts_with
         (WeatherToS3.build_s3_key "New York" (mkDatetime 2026 2 18 14 5 9))
         prefix = true.
Proof.
  apply (viewer_prefix_lists_the_city "2026-02-18" "New York"
           (mkDatetime 2026 2 18 0 0 0) (mkDatetime 2026 2 18 14 5 9));
    try reflexivity; [simpl; lia | repeat split].
Defined.

End KeyScheme.

(** ** The days of [date_range] *)

Section DateRange.
Import Calendar.

Lemma days_in_month_bounds (y m : Z) : 28 <= days_in_month y m <= 31.
Proof.
  unfold days_in_month.
  destruct (m =? 2); [destruct (is_leap y); lia|].
  destruct ((m =? 4) || (m =? 6) || (m =? 9) || (m =? 11)); lia.
Qed.

Lemma days_in_december (y : Z) : days_in_month y 12 = 31.
Proof. reflexivity. Qed.

Lemma valid_date_intro (dt : datetime) :
  1 <= year dt <= 9999 -> 1 <= month dt <= 12 ->
  1 <= day dt <= days_in_month (year dt) (month dt) ->
  valid_date dt = true.
Proof.
  intros Hy Hm Hd. unfold valid_date.
  rewrite !andb_true_iff, !Z.leb_le. lia.
Qed.

(** The day after a day: a valid date, at the same time, later by one
    step in the order of days. *)
Lemma add_one_day_next (d d' : datetime) :
  valid_date d = true ->
  add_one_day d = Some d' ->
  valid_date d' = true /\ same_clock d d' /\ day_before d d'
  /\ day_rank d < day_rank d'
  /\ forall e, valid_date e = true -> day_before d e ->
       same_day d' e \/ day_before d' e.
Proof.
  intros Hv Hadd.
  destruct (valid_date_bounds d Hv) as (Hy & Hm & Hd31 & Hd).
  pose proof (days_in_month_bounds (year d) (month d)) as Hdim.
  unfold add_one_day in Hadd.
  destruct (day d <? days_in_month (year d) (month d)) eqn:E1.
  { apply Z.ltb_lt in E1. injection Hadd as <-.
    split; [apply valid_date_intro; cbn; lia|].
    unfold same_clock, day_before, same_day, day_rank. cbn.
    repeat split; try lia. }
  apply Z.ltb_ge in E1.
  destruct (month d <? 12) eqn:E2.
  { apply Z.ltb_lt in E2. injection Hadd as <-.
    pose proof (days_in_month_bounds (year d) (month d + 1)).
    split; [apply valid_date_intro; cbn; lia|].
    unfold same_clock, day_before, same_day, day_rank. cbn.
    repeat split; try lia;
      intros e He Hbefore;
      destruct (valid_date_bounds e He) as (Hye & Hme & Hde31 & Hde);
      destruct Hbefore as [Hlt|[Heq [Hlt|[Hmeq Hlt]]]]; try lia;
      rewrite <- Heq, <- Hmeq in Hde; lia. }
  apply Z.ltb_ge in E2.
  destruct (year d <? 9999) eqn:E3; [|discriminate].
  apply Z.ltb_lt in E3. injection Hadd as <-.
  split; [apply valid_date_intro; cbn; try lia; reflexivity|].
  unfold same_clock, day_before, same_day, day_rank. cbn.
  repeat split; try lia;
    intros e He Hbefore;
    destruct (valid_date_bounds e He) as (Hye & Hme & Hde31 & Hde);
    destruct Hbefore as [Hlt|[Heq [Hlt|[Hmeq Hlt]]]]; try lia;
    rewrite <- Heq, <- Hmeq in Hde; lia.
Qed.

(** Only the last day has no day after it. *)
Lemma add_one_day_last (d : datetime) :
  valid_date d = true ->
  (add_one_day d = None <-> last_day d = true).
Proof.
  intros Hv.
  destruct (valid_date_bounds d Hv) as (Hy & Hm & _ & Hd).
  unfold add_one_day, last_day.
  rewrite !andb_true_iff, !Z.eqb_eq.
  destruct (day d <? days_in_month (year d) (month d)) eqn:E1.
  { apply Z.ltb_lt in E1. split; [discriminate|].
    intros [[-> Hm12] Hd31]. rewrite Hm12, days_in_december in E1. lia. }
  apply Z.ltb_ge in E1.
  destruct (month d <? 12) eqn:E2; [split; [discriminate | lia]|].
  apply Z.ltb_ge in E2.
  destruct (year d <? 9999) eqn:E3; [split; [discriminate | lia]|].
  apply Z.ltb_ge in E3.
  split; [intros _ | reflexivity].
  assert (Hm12 : month d = 12) by lia.
  rewrite Hm12, days_in_december in E1, Hd. lia.
Qed.

Lemma datetime_leb_days (a b : datetime) :
  same_clock a b ->
  (same_day a b \/ day_before a b -> datetime_leb a b = true)
  /\ (day_before b a -> datetime_leb a b = false).
Proof.
  intros (Hh & Hmi & Hs). unfold datetime_leb, same_day, day_before.
  rewrite Hh, Hmi, Hs, !Z.ltb_irrefl, Z.leb_refl.
  split; intros Hd;
    destruct (year a <? year b) eqn:E1, (year b <? year a) eqn:E2,
      (month a <? month b) eqn:E3, (month b <? month a) eqn:E4,
      (day a <? day b) eqn:E5, (day b <? day a) eqn:E6; try reflexivity;
    lia.
Qed.

Lemma day_rank_order (a b : datetime) :
  valid_date a = true -> valid_date b = true ->
  (same_day a b -> day_rank a = day_rank b)
  /\ (day_before a b -> day_rank a < day_rank b).
Proof.
  intros Ha Hb.
  destruct (valid_date_bounds a Ha) as (_ & Hma & Hda & _).
  destruct (valid_date_bounds b Hb) as (_ & Hmb & Hdb & _).
  unfold same_day, day_before, day_rank. split; lia.
Qed.

Lemma last_day_same (a b : datetime) :
  same_day a b -> last_day a = last_day b.
Proof. intros (Hy & Hm & Hd). unfold last_day. now rewrite Hy, Hm, Hd. Qed.

(** The loop yields the days from [cur] to [end_], given turns enough. *)
Lemma date_range_loop_days (turns : nat) :
  forall cur end_ : datetime,
  valid_date cur = true -> valid_date end_ = true ->
  same_clock cur end_ ->
  same_day cur end_ \/ day_before cur end_ ->
  day_rank end_ - day_rank cur + 2 <= Z.of_nat turns ->
  exists days,
    date_range_loop turns cur end_
    = Some (days, if last_day end_ then Some OverflowError else None)
    /\ days_from cur end_ days.
Proof.
  induction turns as [|turns IH];
    intros cur end_ Hc He Hclock Horder Hturns.
  - destruct (day_rank_order cur end_ Hc He) as [Hsame Hbefore].
    destruct Horder as [Ho|Ho]; [specialize (Hsame Ho) | specialize (Hbefore Ho)];
      lia.
  - cbn [date_range_loop].
    rewrite (proj1 (datetime_leb_days cur end_ Hclock) Horder).
    destruct (add_one_day cur) as [next|] eqn:Hadd.
    + destruct (add_one_day_next cur next Hc Hadd)
        as (Hn & Hclock' & Hlater & Hrank & Hstep).
      assert (Hnclock : same_clock next end_)
        by (unfold same_clock in *; lia).
      destruct Horder as [Hsame|Hbefore].
      * (* the last day of the range *)
        assert (Hpast : day_before end_ next)
          by (unfold same_day, day_before in *; lia).
        assert (Hlast : last_day end_ = false).
        { rewrite <- (last_day_same cur end_ Hsame).
          destruct (last_day cur) eqn:El; [|reflexivity].
          apply (add_one_day_last cur Hc) in El. congruence. }
        destruct turns as [|turns].
        { destruct (day_rank_order cur end_ Hc He) as [Heq _].
          specialize (Heq Hsame). lia. }
        cbn [date_range_loop].
        rewrite (proj2 (datetime_leb_days next end_ Hnclock) Hpast), Hlast.
        exists [cur]. split; [reflexivity | now constructor].
      * destruct (IH next end_ Hn He Hnclock (Hstep end_ He Hbefore)
                    ltac:(lia)) as (days & -> & Hdays).
        exists (cur :: days). split; [reflexivity|].
        now apply days_more with next.
    + destruct Horder as [Hsame|Hbefore].
      * apply (add_one_day_last cur Hc) in Hadd.
        rewrite <- (last_day_same cur end_ Hsame), Hadd.
        exists [cur]. split; [reflexivity | now constructor].
      * exfalso.
        apply (add_one_day_last cur Hc) in Hadd.
        unfold last_day in Hadd.
        rewrite !andb_true_iff, !Z.eqb_eq in Hadd.
        destruct (valid_date_bounds end_ He) as (Hy & Hm & Hd & _).
        unfold day_before in Hbefore. lia.
Qed.

(** A chain of days starts with its first day and ends on its last. *)
Lemma days_from_ends (d e : datetime) (days : list datetime) :
  days_from d e days ->
  valid_date d = true -> same_clock d e ->
  head days = Some d /\ last days = Some e
  /\ (length days > 0)%nat.
Proof.
  induction 1 as [d e Hsame|d d' e rest Hbefore Hadd Hrest IH];
    intros Hv Hclock.
  - cbn. repeat split; try lia.
    destruct d, e. unfold same_day, same_clock in *. cbn in *.
    destruct Hsame as (-> & -> & ->), Hclock as (-> & -> & ->). reflexivity.
  - destruct (add_one_day_next d d' Hv Hadd) as (Hv' & Hclock' & _).
    destruct IH as (Hhead & Hlast & Hlen);
      [exact Hv' | unfold same_clock in *; lia |].
    cbn [head length]. repeat split; try lia.
    destruct rest as [|x rest]; [cbn in Hlen; lia|].
    exact Hlast.
Qed.

Lemma date_range_empty (start end_ : datetime) :
  same_clock start end_ -> day_before end_ start ->
  date_range start end_ = Some ([], None).
Proof.
  intros Hclock Hbefore. unfold date_range. cbn [date_range_loop].
  now rewrite (proj2 (datetime_leb_days start end_ Hclock) Hbefore).
Qed.

Lemma date_range_days (start end_ : datetime) :
  valid_date start = true -> valid_date end_ = true ->
  same_clock start end_ ->
  same_day start end_ \/ day_before start end_ ->
  exists days,
    date_range start end_
    = Some (days, if last_day end_ then Some OverflowError else None)
    /\ days_from start end_ days.
Proof.
  intros Hs He Hclock Horder. unfold date_range.
  apply date_range_loop_days; try assumption.
  destruct (day_rank_order start end_ Hs He) as [Heq Hlt].
  destruct Horder as [Ho|Ho]; [specialize (Heq Ho) | specialize (Hlt Ho)]; lia.
Qed.

(** X10. For two dates at the same time of day, [date_range] yields
    nothing when the end is before the start; otherwise it yields the
    start, each following day, and the end as its last day. When the end
    is 9999-12-31 the generator then raises [OverflowError], the day
    after not being a date. *)
Theorem date_range_inclusive (start end_ : datetime) :
  valid_date start = true -> valid_date end_ = true ->
  same_clock start end_ ->
  (day_before end_ start -> date_range start end_ = Some ([], None))
  /\ (same_day start end_ \/ day_before start end_ ->
      exists days,
        date_range start end_
        = Some (days, if last_day end_ then Some OverflowError else None)
        /\ days_from start end_ days
        /\ head days = Some start /\ last days = Some end_).
Proof.
  intros Hs He Hclock. split.
  - now apply date_range_empty.
  - intros Horder.
    destruct (date_range_days start end_ Hs He Hclock Horder)
      as (days & Hrun & Hdays).
    exists days. split; [exact Hrun|]. split; [exact Hdays|].
    destruct (days_from_ends start end_ days Hdays Hs Hclock) as (Hh & Hl & _).
    now split.
Qed.

(** The theorem from 2024-02-28 to 2024-03-01, over the leap day. *)
Lemma date_range_inclusive_witness :
  date_range (mkDatetime 2024 2 28 0 0 0) (mkDatetime 2024 3 1 0 0 0)
  = Some ([mkDatetime 2024 2 28 0 0 0; mkDatetime 2024 2 29 0 0 0;
           mkDatetime 2024 3 1 0 0 0], None).
Proof.
  destruct (proj2 (date_range_inclusive (mkDatetime 2024 2 28 0 0 0)
                     (mkDatetime 2024 3 1 0 0 0) eq_refl eq_refl
                     ltac:(repeat split))
              ltac:(right; right; cbn; lia))
    as (days & Hrun & _).
  rewrite Hrun. vm_compute in Hrun. now injection Hrun as <-.
Defined.

End DateRange.

(** ** What the aggregation keeps, and what stops it *)

Section AggregationFacts.
Import WeatherAnalytics Buckets.
Context {W : Type} `{ObjectStore W} (B : Builtins).

Lemma update_counted (s : FloatStats) (t : float) :
  0 <= count s -> counted (update_float_stats s t).
Proof.
  intros Hc. unfold counted, update_float_stats, update_stats.
  cbn [count temp_min temp_max]. split; [lia|].
  split.
  - destruct (temp_min s) as [m|]; [destruct (PrimFloat.ltb t m)|]; eauto.
  - destruct (temp_max s) as [m|]; [destruct (PrimFloat.ltb m t)|]; eauto.
Qed.

Lemma record_doc_counted (doc : option json)
    (city_stats city_stats' : gmap string FloatStats) :
  map_Forall (fun _ s => counted s) city_stats ->
  record_doc B doc city_stats = Ok city_stats' ->
  map_Forall (fun _ s => counted s) city_stats'.
Proof.
  intros Hall. unfold record_doc.
  destruct doc as [d|]; [|now intros [= <-]].
  destruct (truthy d); cbn [negb]; [|now intros [= <-]].
  destruct (get d "temperature_c" JNull) as [temp|e]; [|discriminate].
  destruct (get d "city" JNull) as [city_v|e]; [|discriminate].
  cbn [mbind result_bind Py.bind].
  destruct (is_number temp); cbn [negb]; [|now intros [= <-]].
  destruct (py_float B temp) as [t|e]; [|discriminate].
  cbn [mbind result_bind Py.bind]. intros [= <-].
  apply map_Forall_insert_2; [|exact Hall].
  apply update_counted. unfold bucket_of.
  destruct (city_stats !! _) as [s|] eqn:Hs; cbn [default from_option id].
  - destruct (Hall _ _ Hs) as [Hc _]. lia.
  - cbn. lia.
Qed.

Lemma scan_objects_counted (bucket : string) (city_filter : option string)
    (keys : list string) :
  forall (city_stats city_stats' : gmap string FloatStats) (w w' : W),
  map_Forall (fun _ s => counted s) city_stats ->
  scan_objects B bucket city_filter keys city_stats w = (Ok city_stats', w') ->
  map_Forall (fun _ s => counted s) city_stats'.
Proof.
  induction keys as [|key rest IH]; intros city_stats city_stats' w w' Hall;
    cbn [scan_objects].
  - now intros [= <- <-].
  - unfold scan_object.
    destruct (filtered_out city_filter key); [now apply IH|].
    destruct (fetch_json bucket key w) as [[doc|e] w1]; [|discriminate].
    destruct (record_doc B doc city_stats) as [stats1|e] eqn:Hdoc;
      [|discriminate].
    apply IH. now apply (record_doc_counted doc city_stats).
Qed.

Lemma scan_days_counted (bucket : string) (city_filter : option string)
    (days : list datetime) :
  forall (city_stats city_stats' : gmap string FloatStats) (w w' : W),
  map_Forall (fun _ s => counted s) city_stats ->
  scan_days B bucket city_filter days city_stats w = (Ok city_stats', w') ->
  map_Forall (fun _ s => counted s) city_stats'.
Proof.
  induction days as [|dt rest IH]; intros city_stats city_stats' w w' Hall;
    cbn [scan_days].
  - now intros [= <- <-].
  - destruct (list_objects_for_prefix bucket (prefix_for_date dt) w)
      as [objs w1].
    destruct (scan_objects B bucket city_filter objs city_stats w1)
      as [[stats1|e] w2] eqn:Hscan; [|discriminate].
    apply IH. now apply (scan_objects_counted _ _ _ _ _ _ _ Hall Hscan).
Qed.

(** X11. Every bucket of the statistics an aggregation returns has
    counted at least one temperature, and has a minimum and a maximum:
    a bucket is made only when a temperature is put in it. *)
Theorem aggregate_buckets_counted (bucket : string) (city : option string)
    (days : list datetime) (w w' : W)
    (city_stats : gmap string FloatStats) :
  aggregate B bucket city days w = (Ok city_stats, w') ->
  forall (name : string) (s : FloatStats),
    city_stats !! name = Some s ->
    1 <= count s /\ is_Some (temp_min s) /\ is_Some (temp_max s)
    /\ average s = (temp_sum s / float_of_Z (count s))%float.
Proof.
  unfold aggregate. intros Hagg name s Hs.
  assert (Hall : map_Forall (fun _ s => counted s) city_stats).
  { apply (scan_days_counted _ _ _ ∅ _ _ _ (map_Forall_empty _) Hagg). }
  destruct (Hall name s Hs) as (Hc & Hmin & Hmax).
  repeat split; try assumption.
  unfold average. replace (count s =? 0) with false by lia. reflexivity.
Qed.

(** X12. One turn of the loop over the listed objects, from the key of
    the object on, raises exactly when the key passes the filter and
    either [fetch_json] raises (an exception it does not catch, such as
    the [RecursionError] of a document nested too deep), or the document
    downloaded is true in Python's sense and is no JSON object
    ([AttributeError], at [doc.get]) or holds as its temperature an
    integer too large for a float ([OverflowError]). *)
Theorem scan_object_raises (bucket key : string) (city_filter : option string)
    (city_stats : gmap string FloatStats) (w w1 : W) (e : exn) :
  scan_object B bucket city_filter key city_stats w = (Raise e, w1)
  <-> filtered_out city_filter key = false
      /\ (fetch_json bucket key w = (Raise e, w1)
          \/ exists d,
               fetch_json bucket key w = (Ok (Some d), w1)
               /\ truthy d = true
               /\ match d with
                  | JObj fields =>
                      exists z,
                        assoc "temperature_c" fields = Some (JInt z)
                        /\ is_infinity (float_of_Z z) = true
                        /\ e = OverflowError
                  | _ => e = AttributeError
                  end).
Proof.
  unfold scan_object.
  destruct (filtered_out city_filter key).
  { split; [discriminate | now intros [? _]]. }
  destruct (fetch_json bucket key w) as [[doc|e0] w0].
  2:{ split.
      - intros [= <- <-]. split; [reflexivity | now left].
      - intros [_ [[= <- <-]|(d & [=] & _)]]. reflexivity. }
  unfold record_doc.
  destruct doc as [d|].
  2:{ split; [discriminate | intros [_ [[=]|(d & [=] & _)]]]. }
  destruct (truthy d) eqn:Ht; cbn [negb].
  2:{ split; [discriminate|].
      intros [_ [[=]|(d' & [= <- <-] & Ht' & _)]]. congruence. }
  split.
  - intros Hr. injection Hr as Hrec Hw. subst w0.
    split; [reflexivity|]. right. exists d.
    split; [reflexivity|]. split; [exact Ht|].
    destruct d as [ |b0|z0|f0|s0|items|fields]; cbn in Hrec;
      try (now injection Hrec as <-).
    destruct (assoc "temperature_c" fields) as [temp|] eqn:Htemp;
      cbn [mbind result_bind Py.bind] in Hrec.
    + destruct (assoc "city" fields); cbn [mbind result_bind Py.bind] in Hrec;
        (destruct temp as [ |b0|z|f0|s0|items|fields0];
         cbn [mbind result_bind Py.bind is_number negb py_float] in Hrec;
         try discriminate Hrec;
         destruct (is_infinity (float_of_Z z)) eqn:Hinf;
         cbn [mbind result_bind Py.bind] in Hrec;
         [injection Hrec as <-; exists z; now repeat split
         | discriminate Hrec]).
    + destruct (assoc "city" fields); cbn in Hrec; discriminate Hrec.
  - intros [_ [[=]|(d' & [= <- <-] & _ & Hd)]].
    destruct d as [ |b0|z0|f0|s0|items|fields]; try (subst e; reflexivity).
    destruct Hd as (z & Htemp & Hinf & ->).
    cbn [get]. rewrite Htemp.
    destruct (assoc "city" fields); cbn [mbind result_bind Py.bind];
      cbn [is_number negb py_float]; rewrite Hinf; reflexivity.
Qed.

(** With the filter [None] or the empty filter, every key passes. *)
Lemma scan_days_empty_filter (bucket : string) (days : list datetime) :
  forall (city_stats : gmap string FloatStats) (w : W),
  scan_days B bucket (Some "") days city_stats w
  = scan_days B bucket None days city_stats w.
Proof.
  assert (Hobjs : forall keys city_stats w,
             scan_objects B bucket (Some "") keys city_stats w
             = scan_objects B bucket None keys city_stats w).
  { induction keys as [|key rest IH]; intros city_stats w; [reflexivity|].
    cbn [scan_objects]. unfold scan_object. cbn [filtered_out PyStr.truthy].
    destruct (fetch_json bucket key w) as [[doc|e] w1]; [|reflexivity].
    destruct (record_doc B doc city_stats); [apply IH | reflexivity]. }
  induction days as [|dt rest IH]; intros city_stats w; [reflexivity|].
  cbn [scan_days].
  destruct (list_objects_for_prefix bucket (prefix_for_date dt) w)
    as [objs w1].
  rewrite Hobjs.
  destruct (scan_objects B bucket None objs city_stats w1) as [[s|e] w2];
    [apply IH | reflexivity].
Qed.

(** X13. A city filter made of whitespace only filters nothing: the
    aggregation is the one with no filter. *)
Theorem blank_city_filters_nothing (bucket city : string)
    (days : list datetime) (w : W) :
  PyStr.strip city = "" ->
  aggregate B bucket (Some city) days w = aggregate B bucket None days w.
Proof.
  intros Hblank. unfold aggregate.
  rewrite normalize_filter_as_key.
  destruct (PyStr.truthy city); [|reflexivity].
  rewrite normalize_as_map, Hblank. cbn [PyStr.map_chars].
  apply scan_days_empty_filter.
Qed.

End AggregationFacts.

(** The theorems in the demonstration store. *)
Lemma aggregate_buckets_counted_witness :
  let s := WeatherAnalytics.mkCityStats 1 20%float
             (Some 20%float) (Some 20%float) in
  WeatherAnalytics.aggregate Demo.builtins "weather" None
    [mkDatetime 2026 2 18 0 0 0] tt
  = (Ok (<["London" := s]> ∅), tt)
  /\ 1 <= WeatherAnalytics.count s.
Proof.
  intros s.
  assert (Hagg : WeatherAnalytics.aggregate Demo.builtins "weather" None
                   [mkDatetime 2026 2 18 0 0 0] tt
                 = (Ok (<["London" := s]> ∅), tt))
    by (vm_compute; reflexivity).
  split; [exact Hagg|].
  exact (proj1 (aggregate_buckets_counted Demo.builtins "weather" None
                  [mkDatetime 2026 2 18 0 0 0] tt tt _ Hagg "London" s
                  (lookup_insert_eq _ _ _))).
Defined.

Lemma blank_city_filters_nothing_witness :
  WeatherAnalytics.aggregate Demo.builtins "weather" (Some "  ")
    [mkDatetime 2026 2 18 0 0 0] tt
  = WeatherAnalytics.aggregate Demo.builtins "weather" None
      [mkDatetime 2026 2 18 0 0 0] tt.
Proof.
  apply (blank_city_filters_nothing Demo.builtins "weather" "  "
           [mkDatetime 2026 2 18 0 0 0] tt eq_refl).
Defined.

(** ** What parsing a response raises and returns *)

Section ParseOutcome.
Import WeatherToS3 Raising.
Context (B : Builtins).

Lemma raises_bind {A C : Type} (allowed : exn -> Prop) (r : result A)
    (k : A -> result C) :
  raises_within allowed r ->
  (forall a, raises_within allowed (k a)) ->
  raises_within allowed (r ≫= k).
Proof. destruct r as [a|e]; intros Hr Hk; [apply Hk | exact Hr]. Qed.

Lemma subscript_raises (v : json) (k : string) :
  raises_within of_lookups (subscript v k).
Proof.
  destruct v as [ |b|z|f|s|items|fields]; try exact I.
  cbn [subscript]. now destruct (assoc k fields).
Qed.

Lemma get_raises (v : json) (k : string) (d : json) :
  raises_within of_lookups (get v k d).
Proof.
  destruct v as [ |b|z|f|s|items|fields]; try exact I.
  cbn [get]. now destruct (assoc k fields).
Qed.

Lemma py_float_raises (v : json) : raises_within of_lookups (py_float B v).
Proof.
  destruct v as [ |b|z|f|s|items|fields]; try exact I; cbn [py_float].
  - now destruct (is_infinity (float_of_Z z)).
  - now destruct (float_of_str B s).
Qed.

Lemma py_int_raises (v : json) : raises_within of_lookups (py_int B v).
Proof.
  destruct v as [ |b|z|f|s|items|fields]; try exact I; cbn [py_int].
  - now destruct (Prim2SF f).
  - now destruct (int_of_str B s).
Qed.

Lemma first_item_raises (v : json) :
  raises_within of_lookups
    (if truthy v then first_item v else Ok (JObj [])).
Proof.
  destruct (truthy v) eqn:Ht; [|exact I].
  pose proof (first_item_caught v Ht) as Hc.
  now destruct (first_item v) as [x|[]].
Qed.

Lemma extract_weather_raises (city : string) (data : json) (now : datetime) :
  raises_within of_lookups (extract_weather B city data now).
Proof.
  unfold extract_weather.
  repeat (apply raises_bind;
          [ first [ apply subscript_raises | apply get_raises
                  | apply py_float_raises | apply py_int_raises
                  | apply first_item_raises ]
          | intros ? ]).
  exact I.
Qed.

(** X14. The exceptions [parse_weather_response] raises. When
    [resp.json()] raises a [ValueError] (the body is no JSON), its
    retriable [WeatherAPIError]; when [resp.json()] raises anything else
    (the [RecursionError] of a body nested too deep), that exception, which
    [except ValueError] lets through; when the body decodes, its
    non-retriable [WeatherAPIError], or one of the two that its
    [except (KeyError, TypeError, ValueError)] lets through:
    [AttributeError] (a [.get] on a value that is no dict) and
    [OverflowError] (a number too large to convert). *)
Theorem parse_weather_response_raises (city : string) (resp : Response)
    (now : datetime) :
  match body resp with
  | Raise ValueError | Raise UnicodeEncodeError =>
      parse_weather_response B city resp now
      = Raise (WeatherAPIError None true)
  | Raise e0 => parse_weather_response B city resp now = Raise e0
  | Ok _ =>
      forall e : exn,
        parse_weather_response B city resp now = Raise e ->
        e = WeatherAPIError None false \/ e = AttributeError
        \/ e = OverflowError
  end.
Proof.
  unfold parse_weather_response.
  destruct (body resp) as [data|e0]; [|now destruct e0].
  intros e.
  pose proof (extract_weather_raises city data now) as Hr.
  destruct (extract_weather B city data now) as [r|e1]; [discriminate|].
  destruct e1; cbn in Hr; try contradiction; intros [= <-]; auto.
Qed.

Lemma bind_ok {A C : Type} (r : result A) (k : A -> result C) (c : C) :
  r ≫= k = Ok c -> exists a, r = Ok a /\ k a = Ok c.
Proof. destruct r as [a|e]; [eauto | discriminate]. Qed.

(** X15. A record that [parse_weather_response] returns comes from a
    body that decodes to an object whose ["main"] is an object with a
    ["temp"] that converts to a float; its temperature is that number
    less 273.15, its time the time of parsing, and its city the name in
    the body when that is true in Python's sense, and the city asked for
    otherwise: for a city that is not the empty string, the city of the
    record is never a false value. *)
Theorem parse_weather_response_record (city : string) (resp : Response)
    (now : datetime) (r : WeatherData) :
  parse_weather_response B city resp now = Ok r ->
  exists data main temp temp_k name,
    body resp = Ok data
    /\ subscript data "main" = Ok main
    /\ subscript main "temp" = Ok temp
    /\ py_float B temp = Ok temp_k
    /\ get data "name" JNull = Ok name
    /\ temperature_c r = (temp_k - 273.15)%float
    /\ timestamp_utc r = now
    /\ WeatherToS3.city r = (if truthy name then name else JStr city)
    /\ (city <> "" -> truthy (WeatherToS3.city r) = true).
Proof.
  unfold parse_weather_response.
  destruct (body resp) as [data|e0]; [|destruct e0; discriminate].
  intros Hparse.
  assert (Hex : extract_weather B city data now = Ok r).
  { destruct (extract_weather B city data now) as [r0|e0]; [exact Hparse|].
    destruct e0; discriminate Hparse. }
  clear Hparse. unfold extract_weather in Hex.
  apply bind_ok in Hex as (main & Hmain & Hex).
  apply bind_ok in Hex as (wind & _ & Hex).
  apply bind_ok in Hex as (weather_list & _ & Hex).
  apply bind_ok in Hex as (weather_entry & _ & Hex).
  apply bind_ok in Hex as (temp & Htemp & Hex).
  apply bind_ok in Hex as (temp_k & Htemp_k & Hex).
  apply bind_ok in Hex as (feels & _ & Hex).
  apply bind_ok in Hex as (feels_k & _ & Hex).
  apply bind_ok in Hex as (name & Hname & Hex).
  do 18 (apply bind_ok in Hex as (? & _ & Hex)).
  injection Hex as <-.
  exists data, main, temp, temp_k, name. cbn.
  repeat split; try assumption; try reflexivity.
  intros Hcity. unfold or_else.
  destruct (truthy name) eqn:Hn; [exact Hn|].
  cbn. now destruct city.
Qed.

End ParseOutcome.

(** The theorems on reports of the demonstration: a body nested too deep
    raises the [RecursionError] of [resp.json()], one whose ["wind"] is a
    string raises [AttributeError], and the report for a city gives a
    record of that city at 20 degrees. *)
Lemma parse_weather_response_raises_witness :
  WeatherToS3.parse_weather_response Demo.builtins "London"
    {| WeatherToS3.status_code := 200;
       WeatherToS3.body := Raise RecursionError |}
    (mkDatetime 2026 2 18 14 5 9)
  = Raise RecursionError
  /\ WeatherToS3.parse_weather_response Demo.builtins "London"
       {| WeatherToS3.status_code := 200;
          WeatherToS3.body :=
            Ok (JObj [("main", JObj [("temp", JFloat 280)]);
                      ("wind", JStr "calm")]) |}
       (mkDatetime 2026 2 18 14 5 9)
     = Raise AttributeError
  /\ (AttributeError = WeatherAPIError None false
      \/ AttributeError = AttributeError
      \/ AttributeError = OverflowError).
Proof.
  split.
  - exact (parse_weather_response_raises Demo.builtins "London"
             {| WeatherToS3.status_code := 200;
                WeatherToS3.body := Raise RecursionError |}
             (mkDatetime 2026 2 18 14 5 9)).
  - split; [reflexivity|].
    exact (parse_weather_response_raises Demo.builtins "London"
             {| WeatherToS3.status_code := 200;
                WeatherToS3.body :=
                  Ok (JObj [("main", JObj [("temp", JFloat 280)]);
                            ("wind", JStr "calm")]) |}
             (mkDatetime 2026 2 18 14 5 9) AttributeError eq_refl).
Defined.

Lemma parse_weather_response_record_witness :
  exists r,
    WeatherToS3.parse_weather_response Demo.builtins "London"
      {| WeatherToS3.status_code := 200;
         WeatherToS3.body := Ok (Demo.report "London") |}
      (mkDatetime 2026 2 18 14 5 9)
    = Ok r
    /\ WeatherToS3.city r = JStr "London"
    /\ WeatherToS3.timestamp_utc r = mkDatetime 2026 2 18 14 5 9.
Proof.
  eexists. split; [reflexivity|]. split; [reflexivity|].
  destruct (parse_weather_response_record Demo.builtins "London"
              {| WeatherToS3.status_code := 200;
                 WeatherToS3.body := Ok (Demo.report "London") |}
              (mkDatetime 2026 2 18 14 5 9) _ eq_refl)
    as (data & main & temp & temp_k & name & _ & _ & _ & _ & _ & _ & Hts & _).
  exact Hts.
Defined.

(** ** Listing with and without a limit *)

Section Pagination.
Import S3Listing.
Context {W Obj : Type} `{S3Client W Obj}.

Lemma limit_of_cases (max_items : Z) (n : nat) :
  (n < limit_of max_items)%nat ->
  ((Z.of_nat (S n) >=? max_items) = true /\ S n = limit_of max_items)
  \/ ((Z.of_nat (S n) >=? max_items) = false
      /\ (S n < limit_of max_items)%nat).
Proof.
  unfold limit_of. intros Hn. rewrite Z.geb_leb.
  destruct (max_items <=? Z.of_nat (S n)) eqn:Hge;
    [apply Z.leb_le in Hge; left | apply Z.leb_gt in Hge; right];
    (split; [reflexivity | lia]).
Qed.

(** The inner loop appends the contents up to the limit. *)
Lemma append_contents_spec (max_items : Z) (contents : list Obj) :
  forall results : list Obj,
  (length results < limit_of max_items)%nat ->
  append_contents max_items contents results
  = if (length results + length contents <? limit_of max_items)%nat
    then ((results ++ contents)%list, false)
    else (firstn (limit_of max_items) (results ++ contents), true).
Proof.
  induction contents as [|obj rest IH]; intros results Hlen.
  - cbn [append_contents length]. rewrite Nat.add_0_r, app_nil_r.
    now replace (length results <? limit_of max_items)%nat with true
      by (symmetry; apply Nat.ltb_lt; lia).
  - cbn [append_contents]. rewrite length_app. cbn [length].
    rewrite Nat.add_1_r.
    destruct (limit_of_cases max_items (length results) Hlen)
      as [[-> Heq]|[-> Hlt]].
    + replace (length results + S (length rest) <? limit_of max_items)%nat
        with false by (symmetry; apply Nat.ltb_ge; lia).
      change (results ++ obj :: rest)%list
        with (results ++ [obj] ++ rest)%list.
      rewrite app_assoc, firstn_app.
      replace (limit_of max_items - length (results ++ [obj]))%nat with O
        by (rewrite length_app; cbn [length]; lia).
      rewrite firstn_all2 by (rewrite length_app; cbn [length]; lia).
      cbn [firstn]. now rewrite app_nil_r.
    + rewrite IH by (rewrite length_app; cbn [length]; lia).
      rewrite length_app. cbn [length].
      replace (length results + 1 + length rest)%nat
        with (length results + S (length rest))%nat by lia.
      now rewrite <- app_assoc.
Qed.

(** The listing without a limit only adds to the results it has. *)
Lemma list_objects_for_prefix_loop_extends (turns : nat) :
  forall (kwargs : Kwargs) (results all : list Obj) (w w1 : W),
  list_objects_for_prefix_loop turns kwargs results w = Some (all, w1) ->
  exists more, all = (results ++ more)%list.
Proof.
  induction turns as [|turns IH]; intros kwargs results all w w1;
    [discriminate|].
  cbn [list_objects_for_prefix_loop].
  destruct (list_objects_v2 kwargs w) as [[resp|] w0].
  - destruct (IsTruncated resp); cbn [negb].
    + intros Hloop. destruct (IH _ _ _ _ _ Hloop) as (more & ->).
      exists (Contents resp ++ more)%list. now rewrite app_assoc.
    + intros [= <- <-]. now exists (Contents resp).
  - intros [= <- <-]. exists []. now rewrite app_nil_r.
Qed.

Lemma list_objects_loop_start (max_items : Z) (turns : nat) :
  forall (kwargs : Kwargs) (results all : list Obj) (w w1 : W),
  (length results < limit_of max_items)%nat ->
  list_objects_for_prefix_loop turns kwargs results w = Some (all, w1) ->
  exists w2,
    list_objects_loop turns max_items kwargs results w
    = Some (firstn (limit_of max_items) all, w2).
Proof.
  induction turns as [|turns IH]; intros kwargs results all w w1 Hlen;
    [discriminate|].
  cbn [list_objects_for_prefix_loop list_objects_loop].
  destruct (list_objects_v2 kwargs w) as [[resp|] w0].
  - rewrite (append_contents_spec max_items (Contents resp) results Hlen).
    destruct (length results + length (Contents resp) <? limit_of max_items)%nat
      eqn:Hroom.
    + apply Nat.ltb_lt in Hroom.
      destruct (IsTruncated resp); cbn [negb].
      * apply IH. rewrite length_app. lia.
      * intros [= <- <-]. exists w0.
        rewrite firstn_all2 by (rewrite length_app; lia). reflexivity.
    + apply Nat.ltb_ge in Hroom. intros Hloop. exists w0.
      assert (Hmore : exists more,
                 all = ((results ++ Contents resp) ++ more)%list).
      { destruct (IsTruncated resp); cbn [negb] in Hloop.
        - now apply list_objects_for_prefix_loop_extends in Hloop.
        - injection Hloop as <- <-. exists []. now rewrite app_nil_r. }
      destruct Hmore as (more & ->).
      rewrite (firstn_app _ (results ++ Contents resp) more).
      replace (limit_of max_items - length (results ++ Contents resp))%nat
        with O by (rewrite length_app; lia).
      cbn [firstn]. now rewrite app_nil_r.
  - intros [= <- <-]. exists w0. now rewrite firstn_all2 by lia.
Qed.

Lemma limit_of_positive (max_items : Z) : (0 < limit_of max_items)%nat.
Proof. unfold limit_of. lia. Qed.

(** X16. Asked for the same prefix of the same store, the viewer's
    [list_objects] returns the start of what the analytics'
    [list_objects_for_prefix] returns, and ends whenever that one does:
    its first [max_items] objects, and its first object when [max_items]
    is zero or negative. *)
Theorem list_objects_is_start_of_listing (turns : nat)
    (bucket prefix : string) (max_items : Z) (all : list Obj) (w w1 : W) :
  PyStr.truthy prefix = true ->
  list_objects_for_prefix turns bucket prefix w = Some (all, w1) ->
  exists w2,
    list_objects turns bucket prefix max_items w
    = Some (firstn (Z.to_nat (Z.max 1 max_items)) all, w2).
Proof.
  intros Hprefix Hall. unfold list_objects. rewrite Hprefix.
  apply (list_objects_loop_start max_items turns _ [] all w w1);
    [apply limit_of_positive | exact Hall].
Qed.

Lemma list_objects_loop_bounded (max_items : Z) (turns : nat) :
  forall (kwargs : Kwargs) (results objs : list Obj) (w w1 : W),
  (length results < limit_of max_items)%nat ->
  list_objects_loop turns max_items kwargs results w = Some (objs, w1) ->
  (length objs <= limit_of max_items)%nat.
Proof.
  induction turns as [|turns IH]; intros kwargs results objs w w1 Hlen;
    [discriminate|].
  cbn [list_objects_loop].
  destruct (list_objects_v2 kwargs w) as [[resp|] w0].
  - rewrite (append_contents_spec max_items (Contents resp) results Hlen).
    destruct (length results + length (Contents resp) <? limit_of max_items)%nat
      eqn:Hroom.
    + apply Nat.ltb_lt in Hroom.
      destruct (IsTruncated resp); cbn [negb].
      * apply IH. rewrite length_app. lia.
      * intros [= <- <-]. rewrite length_app. lia.
    + intros [= <- <-]. apply firstn_le_length.
  - intros [= <- <-]. lia.
Qed.

(** X17. Whatever the store answers, [list_objects] returns at most
    [max_items] objects, and at most one when [max_items] is zero or
    negative. *)
Theorem list_objects_within_limit (turns : nat) (bucket prefix : string)
    (max_items : Z) (objs : list Obj) (w w1 : W) :
  list_objects turns bucket prefix max_items w = Some (objs, w1) ->
  Z.of_nat (length objs) <= Z.max 1 max_items.
Proof.
  intros Hobjs.
  pose proof (list_objects_loop_bounded max_items turns _ [] objs w w1
                (limit_of_positive max_items) Hobjs) as Hbound.
  unfold limit_of in Hbound. lia.
Qed.

End Pagination.

(** The theorems in the demonstration service, whose two pages hold
    three objects: with a limit of zero the viewer lists the first. *)
Lemma list_objects_is_start_of_listing_witness :
  S3Listing.list_objects 5 "weather" "2026/02/18/" 0 tt
  = Some (["2026/02/18/london_H0509.json"], tt).
Proof.
  assert (Hall : S3Listing.list_objects_for_prefix 5 "weather" "2026/02/18/" tt
                 = Some (["2026/02/18/london_H0509.json";
                          "2026/02/18/paris_H0510.json";
                          "2026/02/18/rome_H0511.json"], tt))
    by reflexivity.
  destruct (list_objects_is_start_of_listing 5 "weather" "2026/02/18/" 0
              _ tt tt eq_refl Hall) as ([] & Hlist).
  exact Hlist.
Defined.

Lemma list_objects_within_limit_witness :
  Z.of_nat (length ["2026/02/18/london_H0509.json";
                    "2026/02/18/paris_H0510.json"]) <= Z.max 1 2.
Proof.
  assert (Hobjs : S3Listing.list_objects 5 "weather" "2026/02/18/" 2 tt
                  = Some (["2026/02/18/london_H0509.json";
                           "2026/02/18/paris_H0510.json"], tt))
    by reflexivity.
  exact (list_objects_within_limit 5 "weather" "2026/02/18/" 2 _ tt tt Hobjs).
Defined.

(** ** A run of the analytics *)

Section AnalyticsRun.
Import WeatherAnalytics Calendar AnalyticsMain.
Context {W : Type} `{ObjectStore W} `{Boto3 W} (B : Builtins).

Lemma dash_match {A : Type} (c : ascii) (X Y : A) :
  match c with "-"%char => X | _ => Y end = if Ascii.eqb c "-" then X else Y.
Proof. destruct c as [[] [] [] [] [] [] [] []]; reflexivity. Qed.

Lemma digit_val_bounds (c : ascii) (x : Z) :
  digit_val c = Some x -> 0 <= x <= 9.
Proof.
  unfold digit_val.
  destruct ((48 <=? N_of_ascii c)%N && (N_of_ascii c <=? 57)%N) eqn:Hc;
    [|discriminate].
  intros [= <-]. apply andb_true_iff in Hc as [Hlow Hhigh].
  apply N.leb_le in Hlow, Hhigh. lia.
Qed.

Ltac by_digits :=
  repeat match goal with
    | |- context [Ascii.eqb ?x ?y] => destruct (Ascii.eqb x y)
    | |- context [digit_val ?x] =>
        let H := fresh "Hd" in
        destruct (digit_val x) eqn:H; [apply digit_val_bounds in H|]
    | |- context [if ?t then _ else _] =>
        let H := fresh "Hb" in destruct t eqn:H
    end;
  try discriminate.

Lemma parse_month_bounds (s r : string) (m : Z) :
  parse_month s = Some (m, r) -> 1 <= m <= 12.
Proof.
  unfold parse_month.
  destruct s as [|a [|b [|c r']]]; try discriminate; rewrite !dash_match;
    by_digits; intros [= <- <-]; lia.
Qed.

Lemma parse_day_bounds (s : string) (d : Z) :
  parse_day s = Some d -> 1 <= d.
Proof.
  unfold parse_day.
  destruct s as [|a [|b [|c r']]]; try discriminate;
    by_digits; intros [= <-]; lia.
Qed.

(** What [strptime] returns for ["%Y-%m-%d"] is a calendar date, at
    midnight. *)
Lemma strptime_ymd_valid (s : string) (dt : datetime) :
  strptime_ymd s = Some dt ->
  valid_date dt = true /\ hour dt = 0 /\ minute dt = 0 /\ second dt = 0.
Proof.
  unfold strptime_ymd.
  destruct s as [|a [|b [|c [|d [|e r]]]]]; try discriminate.
  rewrite dash_match. destruct (Ascii.eqb e "-"); [|discriminate].
  destruct (digit_val a) as [y3|] eqn:Hy3; [|discriminate].
  destruct (digit_val b) as [y2|] eqn:Hy2; [|discriminate].
  destruct (digit_val c) as [y1|] eqn:Hy1; [|discriminate].
  destruct (digit_val d) as [y0|] eqn:Hy0; [|discriminate].
  apply digit_val_bounds in Hy3, Hy2, Hy1, Hy0.
  destruct (parse_month r) as [[m r']|] eqn:Hm; [|discriminate].
  apply parse_month_bounds in Hm.
  destruct (parse_day r') as [dd|] eqn:Hd; [|discriminate].
  apply parse_day_bounds in Hd. cbv zeta.
  destruct ((1 <=? 1000 * y3 + 100 * y2 + 10 * y1 + y0)
            && (dd <=? days_in_month (1000 * y3 + 100 * y2 + 10 * y1 + y0) m))
    eqn:Hok; [|discriminate].
  intros [= <-]. apply andb_true_iff in Hok as [Hy Hdim].
  unfold valid_date. cbn [year month day hour minute second].
  rewrite Hy, Hdim.
  repeat split.
  repeat (apply andb_true_iff; split); try reflexivity;
    apply Z.leb_le; lia.
Qed.

Lemma parse_dates_valid (args : Args) (start end_ : datetime) :
  parse_dates args = Some (start, end_) ->
  valid_date start = true /\ valid_date end_ = true /\ same_clock start end_.
Proof.
  unfold parse_dates, same_clock.
  destruct (given (date args)).
  - destruct (strptime_ymd (default "" (date args))) as [dt|] eqn:Hdt;
      [|discriminate].
    intros [= <- <-].
    destruct (strptime_ymd_valid _ _ Hdt) as (Hv & _). now repeat split.
  - destruct (negb (given (start_date args)) || negb (given (end_date args)));
      [discriminate|].
    destruct (strptime_ymd (default "" (start_date args))) as [s|] eqn:Hs;
      [|discriminate].
    destruct (strptime_ymd (default "" (end_date args))) as [e|] eqn:He;
      [|discriminate].
    intros [= <- <-].
    destruct (strptime_ymd_valid _ _ Hs) as (Hvs & -> & -> & ->).
    destruct (strptime_ymd_valid _ _ He) as (Hve & -> & -> & ->).
    now repeat split.
Qed.

Lemma days_from_same (d e : datetime) (days : list datetime) :
  days_from d e days -> same_day d e -> days = [d].
Proof.
  destruct 1 as [d e _|d d' e rest Hbefore _ _]; [reflexivity|].
  unfold day_before, same_day in *. lia.
Qed.

Lemma days_from_more (d e : datetime) (days : list datetime) :
  days_from d e days -> day_before d e -> (2 <= length days)%nat.
Proof.
  destruct 1 as [d e Hsame|d d' e rest _ _ Hrest].
  - unfold day_before, same_day in *. lia.
  - intros _. destruct Hrest; cbn [length]; lia.
Qed.

(** X18. When [main] of the analytics gets past its checks (no
    [--date] beside a range, a bucket, dates that parse, a client), it
    scans nothing and reports an empty table, without a call to the
    store, when the end is before the start; it scans the prefix of one
    day when the two ends are the same day; otherwise it scans the days
    from the start to the end, one after the other, both included. A
    range that ends on 9999-12-31 is scanned and then ends in
    [OverflowError] instead of a report. *)
Theorem analytics_main_scans_the_range (args : Args)
    (env : gmap string string) (w : W) (bucket : string)
    (start end_ : datetime) :
  given (date args) && (given (start_date args) || given (end_date args))
  = false ->
  load_env_bucket env = Ok bucket ->
  parse_dates args = Some (start, end_) ->
  build_s3_client w = true ->
  let scan days :=
    Some (end_of_scan (if last_day end_ then Some OverflowError else None)
            (fst (aggregate B bucket (city args) days w)),
          snd (aggregate B bucket (city args) days w)) in
  (day_before end_ start -> main B args env w = Some (Reported ∅, w))
  /\ (same_day start end_ -> main B args env w = scan [start])
  /\ (day_before start end_ ->
      exists days,
        days_from start end_ days /\ (2 <= length days)%nat
        /\ main B args env w = scan days).
Proof.
  intros Hargs Hbucket Hdates Hclient scan.
  destruct (parse_dates_valid args start end_ Hdates) as (Hs & He & Hclock).
  unfold main. rewrite Hargs, Hbucket, Hdates, Hclient. cbn [negb].
  split; [|split].
  - intros Hbefore. now rewrite (date_range_empty start end_ Hclock Hbefore).
  - intros Hsame.
    destruct (date_range_days start end_ Hs He Hclock (or_introl Hsame))
      as (days & -> & Hdays).
    rewrite (days_from_same _ _ _ Hdays Hsame). unfold scan.
    now destruct (aggregate B bucket (city args) [start] w).
  - intros Hbefore.
    destruct (date_range_days start end_ Hs He Hclock (or_intror Hbefore))
      as (days & -> & Hdays).
    exists days. split; [exact Hdays|].
    split; [exact (days_from_more _ _ _ Hdays Hbefore)|].
    unfold scan. now destruct (aggregate B bucket (city args) days w).
Qed.

End AnalyticsRun.

(** The theorem in the demonstration store, for [--date 2026-02-18]:
    the one stored report is found. *)
Lemma analytics_main_scans_the_range_witness :
  AnalyticsMain.main Demo.builtins
    {| AnalyticsMain.date := Some "2026-02-18";
       AnalyticsMain.start_date := None;
       AnalyticsMain.end_date := None;
       AnalyticsMain.city := Some "London" |}
    Demo.environment tt
  = Some (AnalyticsMain.Reported
            (<["London" := WeatherAnalytics.mkCityStats 1 20%float
                             (Some 20%float) (Some 20%float)]> ∅), tt).
Proof.
  assert (Hclient : AnalyticsMain.build_s3_client tt = true) by reflexivity.
  rewrite (proj1 (proj2 (analytics_main_scans_the_range Demo.builtins
                           {| AnalyticsMain.date := Some "2026-02-18";
                              AnalyticsMain.start_date := None;
                              AnalyticsMain.end_date := None;
                              AnalyticsMain.city := Some "London" |}
                           Demo.environment tt "weather"
                           (mkDatetime 2026 2 18 0 0 0)
                           (mkDatetime 2026 2 18 0 0 0)
                           eq_refl eq_refl eq_refl Hclient))
             ltac:(repeat split)).
  vm_compute. reflexivity.
Defined.

(** ** The scheduler *)

Section SchedulerRun.
Import WeatherToS3 WeatherScheduler.
Context {W : Type} `{Host W} (B : Builtins).

(** The interval is the default, or the positive integer the variable
    reads as. *)
Lemma load_interval_seconds_cases (env : gmap string string) (default : Z) :
  load_interval_seconds B env default = default
  \/ (0 < load_interval_seconds B env default
      /\ exists raw,
           env !! "WEATHER_FETCH_INTERVAL_SECONDS" = Some raw
           /\ int_of_str B raw = Some (load_interval_seconds B env default)).
Proof.
  unfold load_interval_seconds, getenv.
  destruct (env !! "WEATHER_FETCH_INTERVAL_SECONDS") as [raw|]; [|now left].
  destruct (PyStr.truthy raw); cbn [negb]; [|now left].
  cbn [py_int]. destruct (int_of_str B raw) as [value|] eqn:Hint; [|now left].
  destruct (value <=? 0) eqn:Hpos; [now left|].
  right. split; [lia|]. now exists raw.
Qed.

Lemma rounds_cons (interval code : Z) (codes : list Z)
    (last : sleep_outcome) :
  codes <> [] ->
  rounds interval (code :: codes) last
  = Ran code :: Slept interval Woke :: rounds interval codes last.
Proof. destruct codes; [congruence | reflexivity]. Qed.

Lemma run_scheduler_loop_rounds (interval : Z) (turns : nat) :
  sleep_error interval = None ->
  forall (w w' : W) (log log' : list step) (out : result Z),
  run_scheduler_loop turns interval (w, log) = Some (out, (w', log')) ->
  exists (codes : list Z) (last : sleep_outcome),
    codes <> [] /\ (length codes <= turns)%nat
    /\ log' = (log ++ rounds interval codes last)%list
    /\ ((last = Interrupted /\ out = Ok 0)
        \/ exists e, last = Refused e /\ out = Raise e).
Proof.
  intros Hsleep.
  induction turns as [|turns IH]; intros w w' log log' out; [discriminate|].
  cbn [run_scheduler_loop]. unfold run_pipeline_once.
  cbn [subprocess_run time_sleep traced_host fst snd].
  destruct (subprocess_run w) as [r w1].
  rewrite Hsleep.
  destruct r as [code|]; cbn [default from_option id];
    cbn [fst snd];
    (destruct (time_sleep interval w1) as [[| |e] w2];
     [ intros Hloop; destruct (IH _ _ _ _ _ Hloop)
         as (codes & last & Hne & Hlen & -> & Hend);
       eexists (_ :: codes), last; split; [discriminate|];
       split; [cbn [length]; lia|];
       split; [|exact Hend];
       rewrite (rounds_cons _ _ _ _ Hne), <- !app_assoc; reflexivity
     | intros [= <- <- <-];
       eexists [_], Interrupted; split; [discriminate|];
       split; [cbn; lia|];
       split; [cbn [rounds]; now rewrite <- app_assoc | now left]
     | intros [= <- <- <-];
       eexists [_], (Refused e); split; [discriminate|];
       split; [cbn; lia|];
       split; [cbn [rounds]; now rewrite <- app_assoc | right; now exists e]
     ]).
Qed.


End SchedulerRun.


(** An interval of 10000000000 seconds on the same host: one run, and
    the [OverflowError] of [time.sleep]. *)
Example scheduler_interval_too_long :
  WeatherScheduler.main Demo.builtins false
    (<["WEATHER_FETCH_INTERVAL_SECONDS" := "10000000000"]> ∅) 10
    (0%nat, [])
  = Some (Raise OverflowError, (0%nat, [WeatherScheduler.Ran 1])).
Proof. vm_compute. reflexivity. Qed.
